(** * Hodie Labs visualization service: a shallow embedding of [app.py]

    The Flask handlers of [hodie-labs/visualization-service/app.py] are
    embedded as functions over an explicit [World]: the image directory
    ([IMAGE_DIR], a finite map from file names to entries), the wall clock,
    the stream of UUIDs that [uuid.uuid4] will return, and a trace of the
    figures written by [fig.savefig].

    What is modelled and how:
    - JSON numbers are rationals ([Q]); a cell of a numpy array or of a
      pandas column is [option Q], where [None] is NaN;
    - numpy computes in IEEE 754 double precision: a JSON number becomes
      the double nearest to it ([F64.of_Q]), and [np_mean], [np_var],
      [np_std] and [np_median] follow numpy's own steps on doubles
      (pairwise summation, division by the count, square root), each step
      rounded to nearest even as the Standard Library's [SpecFloat]
      specifies it; a statistic may be NaN or infinite, it never raises;
    - matplotlib is an external collaborator: a figure is the description of
      what the handler asks to be drawn, and the backend is a parameter
      [backend : Figure -> option png] ([None]: the plotting call raises);
    - purely cosmetic arguments (font sizes, alpha, grid lines, figure
      sizes) are left out of [Figure];
    - a Python exception is a value of [exn], propagated by the monad [M]
      and turned into a 500 response by [try_except], as the handlers'
      [try: ... except Exception as e] blocks do. *)

From Corelib Require Import SpecFloat.
From Stdlib Require Import Ascii String QArith Lia.
From stdpp Require Import base option list gmap strings pretty.

Local Open Scope string_scope.

(** ** Double precision ([float], [np.float64]) *)

Module F64.

Definition prec : Z := 53.
Definition emax : Z := 1024.

(** A double: a signed zero, a signed infinity, NaN, or [(-1)^s * m * 2^e]. *)
Definition double : Type := spec_float.

Definition zero : double := S754_zero false.
Definition nan : double := S754_nan.

Definition add : double -> double -> double := SFadd prec emax.
Definition sub : double -> double -> double := SFsub prec emax.
Definition mul : double -> double -> double := SFmul prec emax.
Definition div : double -> double -> double := SFdiv prec emax.
Definition sqrt : double -> double := SFsqrt prec emax.
Definition leb : double -> double -> bool := SFleb.

(** The double nearest to the rational [n / d] (ties to even, overflow to
    infinity): what Python's [float] makes of a decimal literal and of an
    integer. The quotient is taken with enough digits for one rounding. *)
Definition of_ratio (n : Z) (d : positive) : double :=
  match n with
  | Z0 => zero
  | Zpos p =>
      let '(mz, ez, lz) :=
        SFdiv_core_binary prec emax (Zpos p) 0 (Zpos d) 0 in
      binary_round_aux prec emax false mz ez lz
  | Zneg p =>
      let '(mz, ez, lz) :=
        SFdiv_core_binary prec emax (Zpos p) 0 (Zpos d) 0 in
      binary_round_aux prec emax true mz ez lz
  end.

Definition of_Q (q : Q) : double := of_ratio (Qnum q) (Qden q).
Definition of_Z (z : Z) : double := of_ratio z 1.
Definition of_nat (n : nat) : double := of_Z (Z.of_nat n).

Definition is_finite (x : double) : bool :=
  match x with
  | S754_zero _ | S754_finite _ _ _ => true
  | _ => false
  end.

(** The integer part of a double: [None] on an infinity and on NaN. *)
Definition to_Z (x : double) : option Z :=
  match x with
  | S754_zero _ => Some 0%Z
  | S754_finite s m e =>
      let magnitude :=
        match e with
        | Zneg k => Z.shiftr (Zpos m) (Zpos k)
        | _ => Z.shiftl (Zpos m) e
        end in
      Some (if s then - magnitude else magnitude)%Z
  | _ => None
  end.


End F64.

(** ** Statistics ([numpy]) *)

Module Stats.

(** [np.asarray] of a list of JSON numbers, as doubles (the statistics
    convert an array of integers to doubles before they add). *)
Definition float64 (a : list Q) : list F64.double := map F64.of_Q a.

(** [res += a[i]] for each element in turn. *)
Definition sum_from (res : F64.double) (a : list F64.double) : F64.double :=
  foldl F64.add res a.

(** [r[j] += a[i + j]] for [j < 8], one block of eight after the other. *)
Fixpoint add_blocks (blocks : nat) (r a : list F64.double)
  : list F64.double * list F64.double :=
  match blocks with
  | O => (r, a)
  | S k => add_blocks k (zip_with F64.add r (take 8 a)) (drop 8 a)
  end.

(** The sum of 8 to 128 elements: eight accumulators over the full blocks
    of eight, added up as a tree, then the elements left over. *)
Definition block_sum (a : list F64.double) : F64.double :=
  let '(r, rest) := add_blocks (length a / 8 - 1) (take 8 a) (drop 8 a) in
  match r with
  | [r0; r1; r2; r3; r4; r5; r6; r7] =>
      sum_from (F64.add (F64.add (F64.add r0 r1) (F64.add r2 r3))
                        (F64.add (F64.add r4 r5) (F64.add r6 r7))) rest
  | _ => F64.zero
  end.

(** numpy's pairwise summation: fewer than 8 elements are added in turn,
    up to 128 by [block_sum], more are split in two halves (the first a
    multiple of 8 long). [fuel] bounds the depth of the splitting; the
    length of the array is more than enough. *)
Fixpoint pairwise_sum (fuel : nat) (a : list F64.double) : F64.double :=
  let n := length a in
  if (n <? 8)%nat then sum_from F64.zero a
  else if (n <=? 128)%nat then block_sum a
  else match fuel with
       | O => block_sum a
       | S fuel' =>
           let n2 := (n / 2 - (n / 2) mod 8)%nat in
           F64.add (pairwise_sum fuel' (take n2 a))
                   (pairwise_sum fuel' (drop n2 a))
       end.

(** [np.add.reduce] on doubles. *)
Definition add_reduce (a : list F64.double) : F64.double :=
  pairwise_sum (length a) a.

(** [np.mean] on doubles: the sum divided by the count; an empty array
    has mean NaN. *)
Definition mean_f64 (a : list F64.double) : F64.double :=
  F64.div (add_reduce a) (F64.of_nat (length a)).

(** [np.var(a, ddof)] on doubles: the sum of the squared deviations from
    the mean, divided by [max(N - ddof, 0)]. *)
Definition var_f64 (ddof : nat) (a : list F64.double) : F64.double :=
  let arrmean := mean_f64 a in
  let x := map (fun v => F64.sub v arrmean) a in
  let x := map (fun d => F64.mul d d) x in
  F64.div (add_reduce x) (F64.of_nat (length a - ddof)).

(** Sorting, for [np.median]. *)
Fixpoint insert_sorted (v : F64.double) (a : list F64.double)
  : list F64.double :=
  match a with
  | [] => [v]
  | w :: a' => if F64.leb v w then v :: a else w :: insert_sorted v a'
  end.

Definition sort_f64 (a : list F64.double) : list F64.double :=
  foldr insert_sorted [] a.

(** [np.median] on doubles: the mean of the middle element of the sorted
    array, or of the two middle elements. *)
Definition median_f64 (a : list F64.double) : F64.double :=
  let s := sort_f64 a in
  let n := length s in
  if Nat.even n
  then mean_f64 (take 2 (drop (n / 2 - 1) s))
  else mean_f64 (take 1 (drop (n / 2) s)).

(** The statistics of a list of JSON numbers. *)
Definition np_mean (a : list Q) : F64.double := mean_f64 (float64 a).

Definition np_var (ddof : nat) (a : list Q) : F64.double :=
  var_f64 ddof (float64 a).

(** [np.std(a)]: [ddof] defaults to 0. *)
Definition np_std (a : list Q) : F64.double := F64.sqrt (np_var 0 a).

Definition np_median (a : list Q) : F64.double := median_f64 (float64 a).

(** The mean of a column that may hold NaN. *)
Definition nan_mean (col : list (option Q)) : F64.double :=
  mean_f64 (map (fun cell => match cell with
                         | Some v => F64.of_Q v
                         | None => F64.nan
                         end) col).

End Stats.
Export Stats.

(** ** Strings ([str.capitalize], for ASCII letters) *)

Definition ascii_upper (c : ascii) : ascii :=
  let n := nat_of_ascii c in
  if ((97 <=? n) && (n <=? 122))%nat then ascii_of_nat (n - 32) else c.

Definition ascii_lower (c : ascii) : ascii :=
  let n := nat_of_ascii c in
  if ((65 <=? n) && (n <=? 90))%nat then ascii_of_nat (n + 32) else c.

Fixpoint str_lower (s : string) : string :=
  match s with
  | EmptyString => EmptyString
  | String c s' => String (ascii_lower c) (str_lower s')
  end.

Definition capitalize (s : string) : string :=
  match s with
  | EmptyString => EmptyString
  | String c s' => String (ascii_upper c) (str_lower s')
  end.

(** ** Figures: what a handler asks matplotlib to draw *)

(** The bytes of a rendered PNG image. *)
Definition png := list Byte.byte.

(** The text box of the histogram endpoint: mean, median and standard
    deviation of the plotted values. *)
Record StatsText := {
  st_mean : F64.double;
  st_median : F64.double;
  st_std : F64.double
}.

(** One histogram drawn on an axes of a grid: [ax.hist], its title and
    x label, and the dashed mean line ([ax.axvline(mean_val)]). *)
Record HistAxes := {
  ha_values : list (option Q);
  ha_bins : Z;
  ha_color : string;
  ha_title : string;
  ha_xlabel : string;
  ha_mean_line : F64.double
}.

(** A cell of a [plt.subplots] grid: untouched (empty axes are still
    drawn), holding a histogram, or hidden by [set_visible(False)]. *)
Inductive Axes :=
| AxEmpty
| AxHist (h : HistAxes)
| AxHidden.

(** One [ax.scatter] call. *)
Record ScatterSeries := {
  ss_x : list (option Q);
  ss_y : list (option Q);
  ss_color : string;
  ss_label : option string
}.

(** The text above a bar: [int(height)], and the percentage where the
    class-distribution panel adds one. *)
Record BarText := {
  bt_count : Z;
  bt_percent : option F64.double
}.

Inductive Figure :=
| FHistogram (values : list (option Q)) (bins : Z) (title xlabel : string)
             (stats : StatsText)
| FScatter (series : list ScatterSeries) (legend : bool)
           (title xlabel ylabel : string)
| FGrid (rows cols : nat) (axes : list Axes) (suptitle : string)
| FBar (categories : list string) (values : list Q) (colors : list string)
       (texts : list BarText) (title xlabel ylabel : string).

(** ** The world a request runs in *)

(** Python exceptions the handlers can meet. *)
Inductive exn :=
| ValueError            (* pandas: arrays of unequal length *)
| ZeroDivisionError
| OverflowError         (* int() of an infinite float *)
| BackendError          (* the plotting backend raised *)
| FileNotFoundError
| IsADirectoryError.

(** An entry of [IMAGE_DIR]. *)
Inductive Entry :=
| File (mtime : Z) (content : png)
| Directory (mtime : Z).

(** Times are in microseconds, the resolution of [datetime]. *)
Record World := {
  store : gmap string Entry;      (* the content of IMAGE_DIR *)
  clock : Z;                      (* datetime.now() *)
  entropy : nat -> string;        (* the n-th value of uuid.uuid4().hex *)
  draws : nat;                    (* how many UUIDs were drawn so far *)
  rendered : list Figure          (* figures written by fig.savefig *)
}.

Definition set_store (s : gmap string Entry) (w : World) : World :=
  {| store := s; clock := clock w; entropy := entropy w;
     draws := draws w; rendered := rendered w |}.

Definition set_clock (t : Z) (w : World) : World :=
  {| store := store w; clock := t; entropy := entropy w;
     draws := draws w; rendered := rendered w |}.

Definition next_draw (w : World) : World :=
  {| store := store w; clock := clock w; entropy := entropy w;
     draws := S (draws w); rendered := rendered w |}.

Definition log_render (fig : Figure) (w : World) : World :=
  {| store := store w; clock := clock w; entropy := entropy w;
     draws := draws w; rendered := (rendered w ++ [fig])%list |}.

(** ** A state and exception monad *)

Inductive Outcome (A : Type) :=
| Return (a : A)
| Raise (e : exn).
Arguments Return {A} a.
Arguments Raise {A} e.

Definition M (A : Type) : Type := World -> Outcome A * World.

#[global] Instance M_ret : MRet M := fun A a w => (Return a, w).

#[global] Instance M_bind : MBind M := fun A B f m w =>
  match m w with
  | (Return a, w') => f a w'
  | (Raise e, w') => (Raise e, w')
  end.

Definition raise {A} (e : exn) : M A := fun w => (Raise e, w).

(** ** Responses *)

(** The image data returned by [save_figure]; [d_image] stands for the
    [base64] field, the data URI of these bytes. *)
Record Descriptor := {
  d_filename : string;
  d_url : string;
  d_image : png;
  d_timestamp : Z
}.

Inductive Response :=
| JsonDescriptor (image_data : Descriptor)
| JsonReport (count : nat) (visualizations : list Descriptor)
| JsonCleanup (deleted : nat)
| PngFile (content : png)
| JsonError400 (error : string)
| JsonError404 (error : string)
| JsonError500 (e : exn).

Definition status_code (r : Response) : Z :=
  match r with
  | JsonError400 _ => 400
  | JsonError404 _ => 404
  | JsonError500 _ => 500
  | _ => 200
  end.

(** [try: ... except Exception as e: return jsonify(error=str(e)), 500].
    The world keeps whatever was done before the exception. *)
Definition try_except (body : M Response) : World -> Response * World :=
  fun w =>
    match body w with
    | (Return r, w') => (r, w')
    | (Raise e, w') => (JsonError500 e, w')
    end.

(** ** Requests: the decoded JSON bodies ([None]: the key is missing) *)

Record HistogramRequest := {
  hist_data : option (list Q);
  hist_field : option string;
  hist_title : option string;
  hist_xlabel : option string;
  hist_bins : option Z
}.

Record ScatterRequest := {
  sc_x_data : option (list Q);
  sc_y_data : option (list Q);
  sc_classes : option (list Q);
  sc_title : option string;
  sc_xlabel : option string;
  sc_ylabel : option string
}.

Record Dataset := {
  ds_data : option (list Q);
  ds_label : option string;
  ds_color : option string
}.

Record MultiHistogramRequest := {
  mh_datasets : option (list Dataset);
  mh_title : option string
}.

Record BarChartRequest := {
  bar_categories : option (list string);
  bar_values : option (list Q);
  bar_title : option string;
  bar_xlabel : option string;
  bar_ylabel : option string
}.

(** A record of the blood-data report maps field names to numbers. *)
Record BloodDataRequest := {
  blood_data : option (list (gmap string Q))
}.

(** Python's [not values] on a list. *)
Definition is_empty {A} (l : list A) : bool :=
  match l with
  | [] => true
  | _ => false
  end.

(** A JSON array of numbers as a numpy array. *)
Definition as_array (a : list Q) : list (option Q) := map Some a.

(** ** pandas *)

(** A row of the scatter endpoint's data frame. *)
Record ScatterRow := {
  row_x : Q;
  row_y : Q;
  row_class : Q
}.

Fixpoint zip_rows (x y c : list Q) : list ScatterRow :=
  match x, y, c with
  | vx :: x', vy :: y', vc :: c' =>
      {| row_x := vx; row_y := vy; row_class := vc |} :: zip_rows x' y' c'
  | _, _, _ => []
  end.

(** [pd.DataFrame({'x': x, 'y': y, 'class': c})] raises [ValueError] when
    the arrays differ in length. *)
Definition scatter_frame (x y c : list Q) : M (list ScatterRow) :=
  if (length x =? length y)%nat && (length y =? length c)%nat
  then mret (zip_rows x y c)
  else raise ValueError.

(** [Series.unique()]: the distinct values in order of first appearance. *)
Fixpoint unique (a : list Q) : list Q :=
  match a with
  | [] => []
  | v :: a' => v :: List.filter (fun u => negb (Qeq_bool u v)) (unique a')
  end.

(** [df[df['class'] == class_val]] on the scatter frame. *)
Definition rows_of_class (class_val : Q) (df : list ScatterRow)
  : list ScatterRow :=
  List.filter (fun r => Qeq_bool (row_class r) class_val) df.

(** [pd.DataFrame(records)]: the columns are the keys met in some record,
    and a record that lacks a key holds NaN in that column. *)
Definition in_columns (field : string) (df : list (gmap string Q)) : bool :=
  existsb (fun r => bool_decide (is_Some (r !! field))) df.

Definition column (field : string) (df : list (gmap string Q))
  : list (option Q) :=
  map (fun r => r !! field) df.

(** [df[df['class'] == class_val]] on the records. *)
Definition records_of_class (class_val : Q) (df : list (gmap string Q))
  : list (gmap string Q) :=
  List.filter
    (fun r => match r !! "class" with
              | Some c => Qeq_bool c class_val
              | None => false
              end) df.

(** [class_counts.get(class_val, 0)] on [df['class'].value_counts()]. *)
Definition class_count (class_val : Q) (df : list (gmap string Q)) : nat :=
  length (records_of_class class_val df).

(** ** The bars of a bar chart *)

(** The height of a bar. [ax.bar] makes one numpy array of the values: of
    64-bit integers when every value is an integer (a JSON number with an
    integer value is read as an integer, and integers are taken to fit 64
    bits; written with a decimal point, an integer value up to 2^53 is a
    double of the same label), of doubles otherwise. *)
Inductive Height :=
| IntHeight (z : Z)
| FloatHeight (x : F64.double).

Definition is_integer (v : Q) : bool :=
  (Z.rem (Qnum v) (Zpos (Qden v)) =? 0)%Z.

Definition heights_of (values : list Q) : list Height :=
  if forallb is_integer values
  then map (fun v => IntHeight (Z.quot (Qnum v) (Zpos (Qden v)))) values
  else map (fun v => FloatHeight (F64.of_Q v)) values.

(** The bars [ax.bar(categories, values)] draws, by their heights: one
    per value, a single value being broadcast to every category.
    (Categories and values of other unequal lengths do not broadcast:
    [ax.bar] raises, which is the backend refusing the figure.) *)
Definition bar_heights (categories : list string) (values : list Q)
  : list Height :=
  match heights_of values with
  | [height] => replicate (length categories) height
  | heights => heights
  end.

(** Python's [int(height)]: the integer itself, or the double truncated
    towards zero; [OverflowError] on an infinity, [ValueError] on NaN. *)
Definition py_int (height : Height) : M Z :=
  match height with
  | IntHeight z => mret z
  | FloatHeight x =>
      match F64.to_Z x with
      | Some z => mret z
      | None =>
          raise (match x with
                 | S754_nan => ValueError
                 | _ => OverflowError
                 end)
      end
  end.

(** [for bar in bars: height = bar.get_height(); ax.text(...,
    f'{int(height)}', ...)] *)
Fixpoint bar_texts (heights : list Height) : M (list BarText) :=
  match heights with
  | [] => mret []
  | height :: rest =>
      count ← py_int height;
      texts ← bar_texts rest;
      mret ({| bt_count := count; bt_percent := None |} :: texts)
  end.

(** ** The image store and [save_figure] *)

Definition datetime_now : M Z := fun w => (Return (clock w), w).

Definition uuid4_hex : M string :=
  fun w => (Return (entropy w (draws w)), next_draw w).

Definition image_name (prefix hex : string) : string :=
  prefix +:+ "_" +:+ substring 0 8 hex +:+ ".png".

Section Service.

(** The plotting backend: the PNG bytes of a figure, or [None] when
    matplotlib raises on it. *)
Variable backend : Figure -> option png.

(** The [ax.*] calls that draw a figure. *)
Definition draw (fig : Figure) : M unit :=
  match backend fig with
  | Some _ => mret tt
  | None => raise BackendError
  end.

(** [fig.savefig(filepath)]: writes the file, replacing what the name held;
    the modification time is the time of the write. *)
Definition savefig (fig : Figure) (filename : string) : M png :=
  match backend fig with
  | None => raise BackendError
  | Some bytes =>
      fun w =>
        match store w !! filename with
        | Some (Directory _) => (Raise IsADirectoryError, w)
        | _ =>
            (Return bytes,
             log_render fig
               (set_store (<[filename := File (clock w) bytes]> (store w)) w))
        end
  end.

Definition save_figure (fig : Figure) (prefix : string) : M Descriptor :=
  hex ← uuid4_hex;
  let filename := image_name prefix hex in
  image ← savefig fig filename;
  now ← datetime_now;
  mret {| d_filename := filename;
          d_url := "/api/images/" +:+ filename;
          d_image := image;
          d_timestamp := now |}.

(** ** The chart handlers *)

(** The statistics text of the histogram endpoint: [np.mean(values)],
    [np.median(values)] and [np.std(values)]. *)
Definition histogram_stats (values : list Q) : StatsText :=
  {| st_mean := np_mean values;
     st_median := np_median values;
     st_std := np_std values |}.

Definition generate_histogram (data : HistogramRequest)
  : World -> Response * World :=
  try_except (
    let values := default [] (hist_data data) in
    let field := default "value" (hist_field data) in
    let title := default "Distribution" (hist_title data) in
    let xlabel := default (capitalize field) (hist_xlabel data) in
    let bins := default 20%Z (hist_bins data) in
    if is_empty values then mret (JsonError400 "No data provided")
    else
      let fig := FHistogram (as_array values) bins title xlabel
                            (histogram_stats values) in
      _ ← draw fig;
      image_data ← save_figure fig "histogram";
      mret (JsonDescriptor image_data)).

(** The series of one class of the scatter endpoint. *)
Definition class_series (df : list ScatterRow) (class_val : Q)
  : ScatterSeries :=
  let class_data := rows_of_class class_val df in
  {| ss_x := as_array (map row_x class_data);
     ss_y := as_array (map row_y class_data);
     ss_color := if Qeq_bool class_val 1 then "#10b981" else "#ef4444";
     ss_label := Some (if Qeq_bool class_val 1
                       then "Return Donor" else "Non-Return Donor") |}.

Definition generate_scatter (data : ScatterRequest)
  : World -> Response * World :=
  try_except (
    let x_data := default [] (sc_x_data data) in
    let y_data := default [] (sc_y_data data) in
    let classes := sc_classes data in
    let title := default "Scatter Plot" (sc_title data) in
    let xlabel := default "X" (sc_xlabel data) in
    let ylabel := default "Y" (sc_ylabel data) in
    if is_empty x_data || is_empty y_data
    then mret (JsonError400 "x_data and y_data required")
    else
      fig ← match classes with
            | Some ((_ :: _) as cls) =>
                df ← scatter_frame x_data y_data cls;
                mret (FScatter (map (class_series df) (unique cls)) true
                               title xlabel ylabel)
            | _ =>
                mret (FScatter [ {| ss_x := as_array x_data;
                                    ss_y := as_array y_data;
                                    ss_color := "#3b82f6";
                                    ss_label := None |} ] false
                               title xlabel ylabel)
            end;
      _ ← draw fig;
      image_data ← save_figure fig "scatter";
      mret (JsonDescriptor image_data)).

(** The histogram of one dataset of the multi-histogram endpoint, with its
    own mean line. *)
Definition dataset_axes (idx : nat) (dataset : Dataset) : Axes :=
  let values := default [] (ds_data dataset) in
  let label :=
    default ("Variable " +:+ pretty (idx + 1)%nat) (ds_label dataset) in
  let color := default "#3b82f6" (ds_color dataset) in
  AxHist {| ha_values := as_array values;
            ha_bins := 20;
            ha_color := color;
            ha_title := label;
            ha_xlabel := "Value";
            ha_mean_line := np_mean values |}.

(** [for idx, dataset in enumerate(datasets): ax = axes[idx]; ...], from
    index [idx] on. The grid has at least as many cells as datasets, so
    [axes[idx]] is always in range. *)
Fixpoint draw_datasets (idx : nat) (datasets : list Dataset)
    (axes : list Axes) : list Axes :=
  match datasets with
  | [] => axes
  | dataset :: rest =>
      draw_datasets (S idx) rest (<[idx := dataset_axes idx dataset]> axes)
  end.

(** [for idx in range(start, len(axes)): axes[idx].set_visible(False)] *)
Definition hide_from (start : nat) (axes : list Axes) : list Axes :=
  foldl (fun ax idx => <[idx := AxHidden]> ax) axes
        (seq start (length axes - start)).

(** The figure of the multi-histogram endpoint: [plt.subplots(rows, cols)]
    gives [rows * cols] axes, flattened row by row. *)
Definition multi_histogram_grid (datasets : list Dataset) (title : string)
  : Figure :=
  let n_plots := length datasets in
  let rows := ((n_plots + 1) / 2)%nat in
  let cols := if (1 <? n_plots)%nat then 2%nat else 1%nat in
  let axes := replicate (rows * cols) AxEmpty in
  let axes := draw_datasets 0 datasets axes in
  let axes := hide_from (length datasets) axes in
  FGrid rows cols axes title.

Definition generate_multi_histogram (data : MultiHistogramRequest)
  : World -> Response * World :=
  try_except (
    let datasets := default [] (mh_datasets data) in
    let title := default "Multi-Variable Distribution" (mh_title data) in
    if (length datasets <? 2)%nat
    then mret (JsonError400 "At least 2 datasets required")
    else
      let fig := multi_histogram_grid datasets title in
      _ ← draw fig;
      image_data ← save_figure fig "multi_histogram";
      mret (JsonDescriptor image_data)).

Definition generate_bar_chart (data : BarChartRequest)
  : World -> Response * World :=
  try_except (
    let categories := default [] (bar_categories data) in
    let values := default [] (bar_values data) in
    let title := default "Bar Chart" (bar_title data) in
    let xlabel := default "Category" (bar_xlabel data) in
    let ylabel := default "Value" (bar_ylabel data) in
    if is_empty categories || is_empty values
    then mret (JsonError400 "categories and values required")
    else
      let colors := ["#10b981"; "#ef4444"; "#3b82f6"; "#f59e0b"] in
      let bars texts := FBar categories values
                             (take (length categories) colors)
                             texts title xlabel ylabel in
      _ ← draw (bars []);
      texts ← bar_texts (bar_heights categories values);
      image_data ← save_figure (bars texts) "bar_chart";
      mret (JsonDescriptor image_data)).

(** ** The blood-data report *)

(** The histogram of one field of the records. *)
Definition field_axes (df : list (gmap string Q)) (field color : string)
  : Axes :=
  let values := column field df in
  AxHist {| ha_values := values;
            ha_bins := 20;
            ha_color := color;
            ha_title := capitalize field +:+ " Distribution";
            ha_xlabel := capitalize field;
            ha_mean_line := nan_mean values |}.

(** [for idx, field in enumerate(fields): if field in df.columns: ...],
    from index [idx] on; each field comes with [colors[idx]]. *)
Fixpoint draw_fields (df : list (gmap string Q)) (idx : nat)
    (fields : list (string * string)) (axes : list Axes) : list Axes :=
  match fields with
  | [] => axes
  | (field, color) :: rest =>
      draw_fields df (S idx) rest
        (if in_columns field df
         then <[idx := field_axes df field color]> axes
         else axes)
  end.

Definition blood_fields : list (string * string) :=
  [("recency", "#3b82f6"); ("frequency", "#10b981");
   ("monetary", "#f59e0b"); ("time", "#a855f7")].

Definition blood_histograms (df : list (gmap string Q)) : Figure :=
  FGrid 2 2 (draw_fields df 0 blood_fields (replicate 4 AxEmpty))
        "Blood Donation Data - Distribution Analysis".

(** The series of one class of the frequency-vs-monetary panel. *)
Definition blood_class_series (df : list (gmap string Q)) (class_val : Q)
  : ScatterSeries :=
  let class_data := records_of_class class_val df in
  {| ss_x := column "frequency" class_data;
     ss_y := column "monetary" class_data;
     ss_color := if Qeq_bool class_val 1 then "#10b981" else "#ef4444";
     ss_label := Some (if Qeq_bool class_val 1
                       then "Return Donor" else "Non-Return Donor") |}.

Definition frequency_vs_monetary (df : list (gmap string Q)) : Figure :=
  FScatter (map (blood_class_series df) [0%Q; 1%Q]) true
           "Frequency vs. Monetary Value" "Frequency (donations)"
           "Monetary Value (c.c. blood)".

(** The bars of the class-distribution panel, before their texts. *)
Definition class_bars (df : list (gmap string Q)) (texts : list BarText)
  : Figure :=
  let values := [class_count 0 df; class_count 1 df] in
  FBar ["Non-Return Donor"; "Return Donor"]
       (map (fun v => inject_Z (Z.of_nat v)) values)
       ["#ef4444"; "#10b981"] texts
       "Donor Classification Distribution" "" "Count".

(** [for bar, val in zip(bars, values): percentage = (val / total) * 100],
    in doubles: Python raises [ZeroDivisionError] on a zero [total]. *)
Fixpoint percent_texts (total : nat) (values : list nat)
  : M (list BarText) :=
  match values with
  | [] => mret []
  | val :: rest =>
      if (total =? 0)%nat then raise ZeroDivisionError
      else
        texts ← percent_texts total rest;
        mret ({| bt_count := Z.of_nat val;
                 bt_percent :=
                   Some (F64.mul (F64.div (F64.of_nat val)
                                          (F64.of_nat total))
                                 (F64.of_nat 100)) |} :: texts)
  end.

Definition class_distribution (df : list (gmap string Q)) : M Figure :=
  let values := [class_count 0 df; class_count 1 df] in
  _ ← draw (class_bars df []);
  let total := foldr Nat.add 0%nat values in
  texts ← percent_texts total values;
  mret (class_bars df texts).

Definition recency_vs_frequency (df : list (gmap string Q)) : Figure :=
  FScatter [ {| ss_x := column "recency" df;
                ss_y := column "frequency" df;
                ss_color := "#3b82f6";
                ss_label := None |} ] false
           "Recency vs. Frequency Analysis"
           "Recency (days since last donation)"
           "Frequency (total donations)".

Definition visualize_blood_data (request_data : BloodDataRequest)
  : World -> Response * World :=
  try_except (
    let records := default [] (blood_data request_data) in
    if is_empty records then mret (JsonError400 "No data provided")
    else
      let df := records in
      let visualizations : list Descriptor := [] in
      (* 1. Multi-histogram for all numeric fields *)
      let fig1 := blood_histograms df in
      _ ← draw fig1;
      viz1 ← save_figure fig1 "blood_histograms";
      let visualizations := (visualizations ++ [viz1])%list in
      (* 2. Scatter plot: Frequency vs Monetary *)
      visualizations ←
        (if in_columns "frequency" df && in_columns "monetary" df
            && in_columns "class" df
         then
           let fig2 := frequency_vs_monetary df in
           _ ← draw fig2;
           viz2 ← save_figure fig2 "frequency_vs_monetary";
           mret (visualizations ++ [viz2])%list
         else mret visualizations);
      (* 3. Class distribution bar chart *)
      visualizations ←
        (if in_columns "class" df
         then
           fig3 ← class_distribution df;
           viz3 ← save_figure fig3 "class_distribution";
           mret (visualizations ++ [viz3])%list
         else mret visualizations);
      (* 4. Recency vs Frequency scatter *)
      visualizations ←
        (if in_columns "recency" df && in_columns "frequency" df
         then
           let fig4 := recency_vs_frequency df in
           _ ← draw fig4;
           viz4 ← save_figure fig4 "recency_vs_frequency";
           mret (visualizations ++ [viz4])%list
         else mret visualizations);
      mret (JsonReport (length visualizations) visualizations)).

(** ** Routing *)

Inductive Request :=
| PostHistogram (data : HistogramRequest)
| PostScatter (data : ScatterRequest)
| PostMultiHistogram (data : MultiHistogramRequest)
| PostBarChart (data : BarChartRequest)
| PostBloodData (data : BloodDataRequest).

Definition route (req : Request) : World -> Response * World :=
  match req with
  | PostHistogram data => generate_histogram data
  | PostScatter data => generate_scatter data
  | PostMultiHistogram data => generate_multi_histogram data
  | PostBarChart data => generate_bar_chart data
  | PostBloodData data => visualize_blood_data data
  end.

End Service.

(** ** Serving and sweeping the image directory *)

Definition os_path_exists (filename : string) : M bool :=
  fun w => (Return (bool_decide (is_Some (store w !! filename))), w).

Definition os_path_isfile (filename : string) : M bool :=
  fun w => (Return match store w !! filename with
                   | Some (File _ _) => true
                   | _ => false
                   end, w).

Definition os_path_getmtime (filename : string) : M Z :=
  fun w => match store w !! filename with
           | Some (File mtime _) => (Return mtime, w)
           | Some (Directory mtime) => (Return mtime, w)
           | None => (Raise FileNotFoundError, w)
           end.

Definition os_remove (filename : string) : M unit :=
  fun w => match store w !! filename with
           | Some (File _ _) =>
               (Return tt, set_store (delete filename (store w)) w)
           | Some (Directory _) => (Raise IsADirectoryError, w)
           | None => (Raise FileNotFoundError, w)
           end.

(** [os.listdir]: the names, in the directory's own order. *)
Definition os_listdir : M (list string) :=
  fun w => (Return (map_to_list (store w)).*1, w).

(** [send_file(filepath)]; on a directory Flask answers 500. *)
Definition send_file (filename : string) : World -> Response * World :=
  fun w => match store w !! filename with
           | Some (File _ content) => (PngFile content, w)
           | Some (Directory _) => (JsonError500 IsADirectoryError, w)
           | None => (JsonError500 FileNotFoundError, w)
           end.

Definition serve_image (filename : string) : World -> Response * World :=
  fun w =>
    match os_path_exists filename w with
    | (Return true, w') => send_file filename w'
    | (_, w') => (JsonError404 "Image not found", w')
    end.

(** What other requests (a concurrent sweep, a concurrent render) do to the
    directory while a sweep runs: a transformation of the directory at each
    point where the sweep is about to make a system call on a name. *)
Inductive Point := BeforeIsfile | BeforeGetmtime | BeforeRemove.

Definition Interference : Type :=
  Point -> string -> gmap string Entry -> gmap string Entry.

(** No concurrent activity. *)
Definition quiet : Interference := fun _ _ d => d.

Definition concurrently (env : Interference) (p : Point) (filename : string)
  : M unit :=
  fun w => (Return tt, set_store (env p filename (store w)) w).

(** [timedelta.total_seconds()] of a difference in microseconds. *)
Definition total_seconds (delta : Z) : Q := delta # 1000000.

(** [file_age.total_seconds() > 86400] *)
Definition older_than_24h (now mtime : Z) : bool :=
  negb (Qle_bool (total_seconds (now - mtime)) 86400).

(** The body of the loop of [cleanup_old_images], for one name. *)
Definition sweep_entry (env : Interference) (now : Z) (filename : string)
    (deleted : nat) : M nat :=
  _ ← concurrently env BeforeIsfile filename;
  isfile ← os_path_isfile filename;
  if isfile : bool then
    _ ← concurrently env BeforeGetmtime filename;
    mtime ← os_path_getmtime filename;
    if older_than_24h now mtime then
      _ ← concurrently env BeforeRemove filename;
      _ ← os_remove filename;
      mret (S deleted)
    else mret deleted
  else mret deleted.

(** [for filename in os.listdir(IMAGE_DIR): ...] *)
Fixpoint sweep (env : Interference) (now : Z) (names : list string)
    (deleted : nat) : M nat :=
  match names with
  | [] => mret deleted
  | filename :: rest =>
      deleted ← sweep_entry env now filename deleted;
      sweep env now rest deleted
  end.

Definition cleanup_old_images (env : Interference)
  : World -> Response * World :=
  try_except (
    now ← datetime_now;
    names ← os_listdir;
    deleted ← sweep env now names 0%nat;
    mret (JsonCleanup deleted)).


(** * The health endpoint *)

(** The JSON of [GET /health]. *)
Record Health := {
  h_status : string;
  h_service : string;
  h_timestamp : Z
}.

Definition health_check : M Health :=
  now ← datetime_now;
  mret {| h_status := "healthy";
          h_service := "Hodie Labs Visualization Service";
          h_timestamp := now |}.

(** * The client script [test_viz.py]

    The script posts its sample data to each endpoint of the service and
    counts the tests that pass. Its requests are calls of the handlers on
    the world of the service; the script is the only client while it
    runs. *)

Module TestViz.

(** One record of the sample: a dict with the five keys. *)
Definition donor (recency frequency monetary time cls : Q)
  : gmap string Q :=
  list_to_map [("recency", recency); ("frequency", frequency);
               ("monetary", monetary); ("time", time); ("class", cls)].

Definition SAMPLE_DATA : list (gmap string Q) :=
  [ donor 2 50 12500 98 1;
    donor 0 13 3250 28 1;
    donor 1 16 4000 35 1;
    donor 2 20 5000 45 1;
    donor 1 24 6000 77 0;
    donor 4 4 1000 4 0;
    donor 2 7 1750 14 1;
    donor 1 12 3000 35 0;
    donor 2 9 2250 22 1;
    donor 5 46 11500 98 1 ].

(** The exceptions of the client side. *)
Inductive client_exn :=
| ConnectionError
| JSONDecodeError
| KeyError (key : string).

(** What [requests.get] and [requests.post] return. *)
Inductive HttpResponse :=
| HealthJson (body : Health)
| ApiResponse (body : Response).

Definition http_status (response : HttpResponse) : Z :=
  match response with
  | HealthJson _ => 200
  | ApiResponse body => status_code body
  end.

(** [response.ok]: the status is below 400. *)
Definition ok (response : HttpResponse) : bool :=
  (http_status response <? 400)%Z.

(** Client code: it acts on the world of the service through its
    requests, and returns or raises. *)
Definition Client (A : Type) : Type := World -> (client_exn + A) * World.

#[local] Instance Client_ret : MRet Client := fun A a w => (inr a, w).

#[local] Instance Client_bind : MBind Client := fun A B f m w =>
  match m w with
  | (inr a, w') => f a w'
  | (inl e, w') => (inl e, w')
  end.

Definition throw {A} (e : client_exn) : Client A := fun w => (inl e, w).

(** [[d[key] for d in records]]: [KeyError] on a record without the key. *)
Definition values_of (key : string) (records : list (gmap string Q))
  : Client (list Q) :=
  match mapM (fun d : gmap string Q => d !! key) records with
  | Some values => mret values
  | None => throw (KeyError key)
  end.

(** [sum(1 for d in records if d[key] == v)] *)
Definition count_where (key : string) (v : Q)
    (records : list (gmap string Q)) : Client nat :=
  values ← values_of key records;
  mret (length (List.filter (fun u => Qeq_bool u v) values)).

(** [result['filename']], [result['url']], [result['base64']] on
    [response.json()]. *)
Definition image_data_keys (response : HttpResponse) : Client unit :=
  match response with
  | ApiResponse (JsonDescriptor _) => mret tt
  | ApiResponse (PngFile _) => throw JSONDecodeError
  | _ => throw (KeyError "filename")
  end.

(** [result['count']] and the [filename] and [url] of each entry of
    [result['visualizations']]. *)
Definition report_keys (response : HttpResponse) : Client unit :=
  match response with
  | ApiResponse (JsonReport _ _) => mret tt
  | ApiResponse (PngFile _) => throw JSONDecodeError
  | _ => throw (KeyError "count")
  end.

Section Requests.

Variable backend : Figure -> option png.

(** Whether the service listens at [API_URL]; a request to a service that
    does not raises [ConnectionError]. *)
Variable listening : bool.

Definition requests_get_health : Client HttpResponse :=
  fun w =>
    if listening then
      match health_check w with
      | (Return body, w') => (inr (HealthJson body), w')
      | (Raise e, w') => (inr (ApiResponse (JsonError500 e)), w')
      end
    else (inl ConnectionError, w).

Definition requests_post (req : Request) : Client HttpResponse :=
  fun w =>
    if listening then
      let (body, w') := route backend req w in (inr (ApiResponse body), w')
    else (inl ConnectionError, w).

Definition test_health_check : Client bool :=
  response ← requests_get_health;
  if ok response then
    match response with
    | HealthJson _ => mret true
    | _ => throw (KeyError "status")
    end
  else mret false.

Definition test_histogram : Client bool :=
  recency_data ← values_of "recency" SAMPLE_DATA;
  response ← requests_post (PostHistogram
    {| hist_data := Some recency_data;
       hist_field := Some "recency";
       hist_title := Some "Recency Distribution";
       hist_xlabel := Some "Days Since Last Donation";
       hist_bins := Some 10%Z |});
  if ok response then
    _ ← image_data_keys response; mret true
  else mret false.

Definition test_scatter : Client bool :=
  frequency_data ← values_of "frequency" SAMPLE_DATA;
  monetary_data ← values_of "monetary" SAMPLE_DATA;
  classes ← values_of "class" SAMPLE_DATA;
  response ← requests_post (PostScatter
    {| sc_x_data := Some frequency_data;
       sc_y_data := Some monetary_data;
       sc_classes := Some classes;
       sc_title := Some "Frequency vs. Monetary Value";
       sc_xlabel := Some "Frequency (donations)";
       sc_ylabel := Some "Monetary Value (c.c. blood)" |});
  if ok response then
    _ ← image_data_keys response; mret true
  else mret false.

Definition test_bar_chart : Client bool :=
  return_donors ← count_where "class" 1 SAMPLE_DATA;
  non_return_donors ← count_where "class" 0 SAMPLE_DATA;
  response ← requests_post (PostBarChart
    {| bar_categories := Some ["Return Donor"; "Non-Return Donor"];
       bar_values := Some [inject_Z (Z.of_nat return_donors);
                           inject_Z (Z.of_nat non_return_donors)];
       bar_title := Some "Donor Classification";
       bar_xlabel := Some "Donor Type";
       bar_ylabel := Some "Count" |});
  if ok response then
    _ ← image_data_keys response; mret true
  else mret false.

Definition test_comprehensive_blood_viz : Client bool :=
  response ← requests_post (PostBloodData
    {| blood_data := Some SAMPLE_DATA |});
  if ok response then
    _ ← report_keys response; mret true
  else mret false.

(** [try: results.append(test()) except Exception: results.append(False)]
    for each test in turn. *)
Fixpoint run_tests (tests : list (Client bool)) (w : World)
  : list bool * World :=
  match tests with
  | [] => ([], w)
  | test :: rest =>
      match test w with
      | (inr result, w') =>
          let (results, w'') := run_tests rest w' in (result :: results, w'')
      | (inl _, w') =>
          let (results, w'') := run_tests rest w' in (false :: results, w'')
      end
  end.

(** The summary [main] prints: [Passed: passed/total]. *)
Record Summary := {
  passed : nat;
  total : nat
}.

Definition main (w : World) : Summary * World :=
  let tests := [test_health_check; test_histogram; test_scatter;
                test_bar_chart; test_comprehensive_blood_viz] in
  let (results, w') := run_tests tests w in
  ({| passed := length (List.filter (fun result : bool => result) results);
      total := length results |}, w').

End Requests.

End TestViz.
(** * Vocabulary of the properties *)

(** ** Doubles *)





(** ** The statistics of a histogram *)









(** The name [save_figure] gives the next image with a given prefix. *)
Definition next_name (prefix : string) (w : World) : string :=
  image_name prefix (entropy w (draws w)).

(** The image data [save_figure] returns for a file name. *)
Definition image_data_of (name : string) (bytes : png) (now : Z)
  : Descriptor :=
  {| d_filename := name;
     d_url := "/api/images/" +:+ name;
     d_image := bytes;
     d_timestamp := now |}.

(** The world after [save_figure] has written a figure under a name. *)
Definition after_put (fig : Figure) (name : string) (bytes : png)
    (w : World) : World :=
  log_render fig
    (set_store (<[name := File (clock w) bytes]> (store w)) (next_draw w)).

(** No directory stands where the next image is to be written. *)
Definition writable (name : string) (w : World) : Prop :=
  forall mtime, store w !! name <> Some (Directory mtime).

(** A handler renders a figure: whenever the backend accepts the figure
    and the file can be written, the handler stores the image under the
    next name with the given prefix and answers with its image data. *)
Definition renders_as
    (handler : (Figure -> option png) -> World -> Response * World)
    (prefix : string) (fig : Figure) : Prop :=
  forall backend w bytes,
    backend fig = Some bytes ->
    writable (next_name prefix w) w ->
    handler backend w
    = (JsonDescriptor (image_data_of (next_name prefix w) bytes (clock w)),
       after_put fig (next_name prefix w) bytes w).

(** How many elements of an array equal a class value. *)
Definition count_class (c : Q) (a : list Q) : nat :=
  length (List.filter (fun u => Qeq_bool u c) a).

(** The sum, over the class values [U], of their numbers of points. *)
Definition class_total (U a : list Q) : nat :=
  sum_list (map (fun u => count_class u a) U).

(** A scatter request that fits the data model: non-empty coordinates of
    equal length, and as many classes when classes are given. *)
Definition valid_scatter (data : ScatterRequest) : Prop :=
  let x := default [] (sc_x_data data) in
  let y := default [] (sc_y_data data) in
  x <> [] /\ length y = length x /\
  match sc_classes data with
  | Some cls => length cls = length x
  | None => True
  end.

(** What the scatter endpoint renders. With classes: one series per
    distinct class value, in order of first appearance, holding exactly
    the points of that class; class 1 is green and labelled "Return Donor",
    any other class (class 0 among them) red and labelled
    "Non-Return Donor"; every class value of the input has exactly one
    series, and the series hold as many points altogether as the request.
    Without classes: one series of all the points in the default colour,
    without label or legend. *)
Definition scatter_rendering (data : ScatterRequest) : Prop :=
  let x := default [] (sc_x_data data) in
  let y := default [] (sc_y_data data) in
  let title := default "Scatter Plot" (sc_title data) in
  let xlabel := default "X" (sc_xlabel data) in
  let ylabel := default "Y" (sc_ylabel data) in
  match sc_classes data with
  | Some cls =>
      let df := zip_rows x y cls in
      let series := map (class_series df) (unique cls) in
      renders_as (fun backend => generate_scatter backend data) "scatter"
                 (FScatter series true title xlabel ylabel) /\
      (forall c, In c cls ->
         length (List.filter (fun u => Qeq_bool u c) (unique cls)) = 1%nat) /\
      (forall c p,
         In p (combine (ss_x (class_series df c)) (ss_y (class_series df c)))
         <-> exists i vx vy vc,
               x !! i = Some vx /\ y !! i = Some vy /\ cls !! i = Some vc /\
               (vc == c)%Q /\ p = (Some vx, Some vy)) /\
      (forall c,
         length (ss_x (class_series df c)) = count_class c cls /\
         length (ss_y (class_series df c)) = count_class c cls) /\
      (forall c, (c == 1)%Q ->
         ss_color (class_series df c) = "#10b981" /\
         ss_label (class_series df c) = Some "Return Donor") /\
      (forall c, (c == 0)%Q ->
         ss_color (class_series df c) = "#ef4444" /\
         ss_label (class_series df c) = Some "Non-Return Donor") /\
      sum_list (map (fun s => length (ss_x s)) series) = length x
  | None =>
      renders_as (fun backend => generate_scatter backend data) "scatter"
                 (FScatter [ {| ss_x := as_array x; ss_y := as_array y;
                                ss_color := "#3b82f6"; ss_label := None |} ]
                           false title xlabel ylabel)
  end.

(** The layout of the multi-histogram figure: two columns, ceil(N/2) rows,
    dataset [i] drawn in cell [i] with the mean of its own values, the
    cells from [N] on hidden; and this is the figure the handler renders
    and stores whenever the backend accepts it. *)
Definition grid_layout (data : MultiHistogramRequest) : Prop :=
  let datasets := default [] (mh_datasets data) in
  let title := default "Multi-Variable Distribution" (mh_title data) in
  exists rows axes,
    multi_histogram_grid datasets title = FGrid rows 2 axes title /\
    (length datasets <= 2 * rows < length datasets + 2)%nat /\
    length axes = (2 * rows)%nat /\
    (forall i d, datasets !! i = Some d ->
       exists h, axes !! i = Some (AxHist h) /\
                 ha_values h = as_array (default [] (ds_data d)) /\
                 ha_mean_line h = np_mean (default [] (ds_data d))) /\
    (forall i, (length datasets <= i < 2 * rows)%nat ->
       axes !! i = Some AxHidden) /\
    renders_as (fun backend => generate_multi_histogram backend data)
               "multi_histogram" (FGrid rows 2 axes title).

(** Backends for the examples: one that renders every figure to an empty
    image, one that raises on every figure. *)
Definition blank_backend : Figure -> option png := fun _ => Some [].
Definition refusing_backend : Figure -> option png := fun _ => None.

(** A world for the examples: an empty directory, and a UUID source that
    returns the same value at every call. *)
Definition example_world : World :=
  {| store := ∅;
     clock := 1700000000000000;
     entropy := fun _ => "0123456789ab4def8123456789abcdef";
     draws := 0;
     rendered := [] |}.

Definition three_datasets : list Dataset :=
  [ {| ds_data := Some [1; 2; 3]%Q; ds_label := Some "Recency";
       ds_color := Some "#3b82f6" |};
    {| ds_data := Some [4; 6]%Q; ds_label := Some "Frequency";
       ds_color := Some "#10b981" |};
    {| ds_data := Some [7]%Q; ds_label := None; ds_color := None |} ].

Definition three_histograms : MultiHistogramRequest :=
  {| mh_datasets := Some three_datasets; mh_title := Some "Metrics" |}.


(** The scatter request of the specification's example. *)
Definition three_points : ScatterRequest :=
  {| sc_x_data := Some [10; 20; 30]%Q;
     sc_y_data := Some [1; 2; 3]%Q;
     sc_classes := Some [1; 0; 1]%Q;
     sc_title := None; sc_xlabel := None; sc_ylabel := None |}.

(** ** The blood-data report *)

(** The texts of the class-distribution bars: count and share of total. *)
Definition class_texts (df : list (gmap string Q)) : list BarText :=
  let total := (class_count 0 df + class_count 1 df)%nat in
  map (fun val =>
         {| bt_count := Z.of_nat val;
            bt_percent :=
              Some (F64.mul (F64.div (F64.of_nat val) (F64.of_nat total))
                            (F64.of_nat 100)) |})
      [class_count 0 df; class_count 1 df].

(** The panels the report is to produce for the records [df], in order,
    each with the prefix of its file name. *)
Definition expected_panels (df : list (gmap string Q))
  : list (string * Figure) :=
  ([("blood_histograms", blood_histograms df)]
   ++ (if in_columns "frequency" df && in_columns "monetary" df
          && in_columns "class" df
       then [("frequency_vs_monetary", frequency_vs_monetary df)] else [])
   ++ (if in_columns "class" df
       then [("class_distribution", class_bars df (class_texts df))] else [])
   ++ (if in_columns "recency" df && in_columns "frequency" df
       then [("recency_vs_frequency", recency_vs_frequency df)] else [])
  )%list.

(** Storing a list of panels one after the other: the image data returned
    and the world reached. *)
Fixpoint put_all (backend : Figure -> option png)
    (panels : list (string * Figure)) (w : World)
  : list Descriptor * World :=
  match panels with
  | [] => ([], w)
  | (prefix, fig) :: rest =>
      let name := next_name prefix w in
      let bytes := default [] (backend fig) in
      let (ds, w') := put_all backend rest (after_put fig name bytes w) in
      (image_data_of name bytes (clock w) :: ds, w')
  end.

(** The cell of the histogram grid for a field: its histogram when some
    record has the field, an empty axes otherwise. *)
Definition field_cell (df : list (gmap string Q)) (field color : string)
  : Axes :=
  if in_columns field df then field_axes df field color else AxEmpty.

(** The backend renders every figure. *)
Definition accepting (backend : Figure -> option png) : Prop :=
  forall fig, is_Some (backend fig).

(** The backend renders the figures of the report on the records [df]:
    the expected panels, and the bars of the class distribution as they
    are drawn before their texts. *)
Definition renders_report (backend : Figure -> option png)
    (df : list (gmap string Q)) : Prop :=
  (forall panel, In panel (expected_panels df) -> is_Some (backend panel.2)) /\
  (in_columns "class" df = true -> is_Some (backend (class_bars df []))).

(** The image directory holds no sub-directory. *)
Definition no_directories (w : World) : Prop :=
  forall name mtime, store w !! name <> Some (Directory mtime).

(** The class-distribution panel can compute its percentages: the class
    column is absent, or some record has class 0 or class 1. *)
Definition percentages_defined (df : list (gmap string Q)) : Prop :=
  in_columns "class" df = true ->
  (class_count 0 df + class_count 1 df <> 0)%nat.

(** What the blood-data report answers: the image data of the expected
    panels, in order, with their number as count; the histogram grid
    holds a histogram exactly for the fields that are present. *)
Definition report_of_present_fields (backend : Figure -> option png)
    (data : BloodDataRequest) (w : World) : Prop :=
  let df := default [] (blood_data data) in
  let ds := fst (put_all backend (expected_panels df) w) in
  let w' := snd (put_all backend (expected_panels df) w) in
  visualize_blood_data backend data w = (JsonReport (length ds) ds, w') /\
  length ds = length (expected_panels df) /\
  Forall2 (fun d panel => exists hex, d_filename d = image_name (fst panel) hex)
          ds (expected_panels df) /\
  blood_histograms df
  = FGrid 2 2 [field_cell df "recency" "#3b82f6";
               field_cell df "frequency" "#10b981";
               field_cell df "monetary" "#f59e0b";
               field_cell df "time" "#a855f7"]
          "Blood Donation Data - Distribution Analysis".

Definition record_of (fields : list (string * Q)) : gmap string Q :=
  list_to_map fields.

(** Records that hold only recency and frequency. *)
Definition recency_frequency_only : BloodDataRequest :=
  {| blood_data :=
       Some [ record_of [("recency", 2%Q); ("frequency", 50%Q)];
              record_of [("recency", 0%Q); ("frequency", 13%Q)] ] |}.

(** Records whose class is neither 0 nor 1. *)
Definition class_two_only : BloodDataRequest :=
  {| blood_data :=
       Some [ record_of [("recency", 2%Q); ("frequency", 50%Q);
                         ("class", 2%Q)] ] |}.

(** The records have a class column, and no record has class 0 or 1. *)
Definition no_donor_class (df : list (gmap string Q)) : Prop :=
  in_columns "class" df = true /\
  forall r c, In r df -> r !! "class" = Some c ->
              ~ (c == 0)%Q /\ ~ (c == 1)%Q.

(** A computation that raises from every world. *)
Definition raises {A} (m : M A) : Prop :=
  forall w, exists e w', m w = (Raise e, w').

(** The failure of the report on such records: both class counts are
    zero, the request is answered with a 500 error whatever the backend
    does, and the error is the division by the zero total as soon as the
    backend renders the panels before it. *)
Definition zero_total_failure (backend : Figure -> option png)
    (data : BloodDataRequest) (w : World) : Prop :=
  let df := default [] (blood_data data) in
  (class_count 0 df + class_count 1 df = 0)%nat /\
  (exists e, fst (visualize_blood_data backend data w) = JsonError500 e) /\
  status_code (fst (visualize_blood_data backend data w)) = 500%Z /\
  (accepting backend -> no_directories w ->
   fst (visualize_blood_data backend data w)
   = JsonError500 ZeroDivisionError).

(** ** Validation *)

(** A required array is missing from the request or empty. *)
Definition missing_or_empty {A} (o : option (list A)) : Prop :=
  o = None \/ o = Some [].

(** What the handlers check before drawing: the required top-level arrays
    are there and not empty, and a multi-histogram has two datasets. *)
Definition lacks_required_input (req : Request) : Prop :=
  match req with
  | PostHistogram data => missing_or_empty (hist_data data)
  | PostScatter data =>
      missing_or_empty (sc_x_data data) \/ missing_or_empty (sc_y_data data)
  | PostMultiHistogram data =>
      (length (default [] (mh_datasets data)) < 2)%nat
  | PostBarChart data =>
      missing_or_empty (bar_categories data)
      \/ missing_or_empty (bar_values data)
  | PostBloodData data => missing_or_empty (blood_data data)
  end.

Definition rejection_message (req : Request) : string :=
  match req with
  | PostHistogram _ => "No data provided"
  | PostScatter _ => "x_data and y_data required"
  | PostMultiHistogram _ => "At least 2 datasets required"
  | PostBarChart _ => "categories and values required"
  | PostBloodData _ => "No data provided"
  end.

(** The request is answered 400 and leaves the world as it was, whatever
    the backend: nothing was drawn, no UUID drawn, nothing stored. *)
Definition rejected_untouched (req : Request) : Prop :=
  forall backend w,
    route backend req w = (JsonError400 (rejection_message req), w).

(** A computation that never returns a 400 response. *)
Definition never_400 (m : M Response) : Prop :=
  forall w r w', m w = (Return r, w') -> status_code r <> 400%Z.

(** Requests the data model forbids and the handlers do not check:
    coordinates of unequal length, classes of another length than the
    coordinates, a bin count of zero, categories and values of unequal
    length. *)
Definition mismatched_xy : ScatterRequest :=
  {| sc_x_data := Some [1; 2]%Q; sc_y_data := Some [1]%Q;
     sc_classes := None;
     sc_title := None; sc_xlabel := None; sc_ylabel := None |}.

Definition mismatched_classes : ScatterRequest :=
  {| sc_x_data := Some [1; 2]%Q; sc_y_data := Some [3; 4]%Q;
     sc_classes := Some [1]%Q;
     sc_title := None; sc_xlabel := None; sc_ylabel := None |}.

Definition zero_bins : HistogramRequest :=
  {| hist_data := Some [1; 2; 3]%Q; hist_field := None; hist_title := None;
     hist_xlabel := None; hist_bins := Some 0%Z |}.

Definition mismatched_bars : BarChartRequest :=
  {| bar_categories := Some ["Return Donor"; "Non-Return Donor"];
     bar_values := Some [578; 170; 3]%Q;
     bar_title := None; bar_xlabel := None; bar_ylabel := None |}.

Definition no_data : HistogramRequest :=
  {| hist_data := Some []; hist_field := Some "recency"; hist_title := None;
     hist_xlabel := None; hist_bins := Some 10%Z |}.

(** ** The image store *)

(** What a successful [save_figure] does to the store: the image is held
    under the name made of the prefix and the first eight hexadecimal
    digits of the UUID drawn, every other name keeps its entry, and names
    are told apart by those eight digits only. *)
Definition put_outcome (prefix : string) (w : World) (d : Descriptor)
    (w' : World) : Prop :=
  d_filename d = image_name prefix (entropy w (draws w)) /\
  store w' !! d_filename d = Some (File (clock w) (d_image d)) /\
  (forall name, name <> d_filename d -> store w' !! name = store w !! name) /\
  draws w' = S (draws w) /\
  (forall hex,
     image_name prefix hex = d_filename d
     <-> substring 0 8 hex = substring 0 8 (entropy w (draws w))).

(** A UUID source whose first two values differ and share their first
    eight hexadecimal digits. *)
Definition colliding_world : World :=
  {| store := ∅;
     clock := 1700000000000000;
     entropy := fun n => match n with
                         | O => "0123456789ab4def8123456789abcdef"
                         | _ => "01234567ffff4fffbfffffffffffffff"
                         end;
     draws := 0;
     rendered := [] |}.

Definition recency_histogram : HistogramRequest :=
  {| hist_data := Some [2; 0; 1; 2; 1; 4]%Q; hist_field := Some "recency";
     hist_title := Some "Recency Distribution";
     hist_xlabel := Some "Days Since Last Donation";
     hist_bins := Some 10%Z |}.

(** The same histogram request served twice, one second apart. *)
Definition served_twice : (Response * World) * (Response * World) :=
  let r1 := generate_histogram blank_backend recency_histogram
              colliding_world in
  let w1 := set_clock (clock (snd r1) + 1000000) (snd r1) in
  (r1, generate_histogram blank_backend recency_histogram w1).

Definition response_filename (r : Response) : option string :=
  match r with
  | JsonDescriptor d => Some (d_filename d)
  | _ => None
  end.

(** ** The sweep *)

(** The retention window, 24 hours, in microseconds. *)
Definition retention : Z := 86400 * 1000000.

(** An entry the sweep is to delete: a file older than the retention
    window at time [now]. *)
Definition expired (now : Z) (e : Entry) : Prop :=
  match e with
  | File mtime _ => (retention < now - mtime)%Z
  | Directory _ => False
  end.

#[global] Instance expired_dec now e : Decision (expired now e).
Proof.
  destruct e as [mtime content|mtime]; simpl; apply _.
Defined.

(** The name holds an expired entry in the directory [s]. *)
Definition expired_at (now : Z) (s : gmap string Entry) (name : string)
  : Prop :=
  match s !! name with
  | Some e => expired now e
  | None => False
  end.

#[global] Instance expired_at_dec now s name : Decision (expired_at now s name).
Proof.
  unfold expired_at. destruct (s !! name); apply _.
Defined.

(** The entries a sweep at time [now] deletes, and those it keeps. *)
Definition swept (now : Z) (s : gmap string Entry) : gmap string Entry :=
  filter (fun kv => expired now kv.2) s.

Definition kept (now : Z) (s : gmap string Entry) : gmap string Entry :=
  filter (fun kv => ~ expired now kv.2) s.

(** The contract of a sweep that runs alone: it deletes exactly the
    expired entries and reports their number; an image just put is kept;
    a single entry aged 25 hours is deleted and counted; a second sweep
    at once after the first deletes nothing. *)
Definition sweep_contract (w : World) : Prop :=
  cleanup_old_images quiet w
  = (JsonCleanup (size (swept (clock w) (store w))),
     set_store (kept (clock w) (store w)) w) /\
  (forall backend fig prefix,
     match save_figure backend fig prefix w with
     | (Return d, w1) =>
         store (snd (cleanup_old_images quiet w1)) !! d_filename d
         = Some (File (clock w) (d_image d))
     | (Raise _, _) => True
     end) /\
  (forall backend fig prefix,
     match save_figure backend fig prefix (set_store ∅ w) with
     | (Return d, w1) =>
         fst (cleanup_old_images quiet w1) = JsonCleanup 0
     | (Raise _, _) => True
     end) /\
  (forall name content,
     cleanup_old_images quiet
       (set_store {[ name := File (clock w - 25 * 3600 * 1000000) content ]} w)
     = (JsonCleanup 1, set_store ∅ w)) /\
  cleanup_old_images quiet (snd (cleanup_old_images quiet w))
  = (JsonCleanup 0, snd (cleanup_old_images quiet w)).

(** The world once a name is gone from the directory, or never was in it. *)
Definition without (name : string) (w : World) : World :=
  set_store (delete name (store w)) w.

(** Asking for, and deleting, an image that is not there, with the sweep
    running alone: the image is answered 404; the deletion step of the
    sweep on the absent name does nothing and raises nothing; running the
    step twice on a name is running it once; and an image that a sweep
    has deleted is answered 404 afterwards. *)
Definition absent_image_contract (name : string) (w : World) : Prop :=
  serve_image name (without name w)
  = (JsonError404 "Image not found", without name w) /\
  (forall now deleted,
     sweep_entry quiet now name deleted (without name w)
     = (Return deleted, without name w)) /\
  (forall now deleted,
     sweep quiet now [name; name] deleted w
     = sweep_entry quiet now name deleted w /\
     exists deleted' w',
       sweep quiet now [name; name] deleted w = (Return deleted', w')) /\
  match swept (clock w) (store w) !! name with
  | Some _ =>
      serve_image name (snd (cleanup_old_images quiet w))
      = (JsonError404 "Image not found", snd (cleanup_old_images quiet w))
  | None => True
  end.

(** Two images older than the retention window. *)
Definition two_old_images : World :=
  set_store
    (<["a.png" := File (1700000000000000 - 25 * 3600 * 1000000) []]>
       (<["b.png" := File (1700000000000000 - 25 * 3600 * 1000000) []]> ∅))
    example_world.

(** A concurrent sweep that removes [a.png] just before this sweep does. *)
Definition racing_sweep : Interference :=
  fun p name s =>
    match p with
    | BeforeRemove => if decide (name = "a.png") then delete name s else s
    | _ => s
    end.

(** * Vocabulary of the further properties *)

(** The endpoints that render one figure. *)
Definition single_chart (req : Request) : Prop :=
  match req with
  | PostBloodData _ => False
  | _ => True
  end.

(** The outcome of a request for one chart, from the world [w]: either the
    answer is the image data of one new file, written at the time of the
    request under the name the answer gives, and that file is what the
    image endpoint then serves under the name; or the store is as it
    was. *)
Definition one_image_or_none (w : World) (result : Response * World)
  : Prop :=
  match result with
  | (JsonDescriptor d, w') =>
      store w' = <[d_filename d := File (clock w) (d_image d)]> (store w) /\
      draws w' = S (draws w) /\
      d_url d = "/api/images/" +:+ d_filename d /\
      d_timestamp d = clock w /\
      serve_image (d_filename d) w' = (PngFile (d_image d), w')
  | (_, w') => store w' = store w
  end.

(** What a chart request may do to the world: a file stays a file (its
    content may be replaced), a sub-directory stays as it is, a free name
    stays free or comes to hold a file (never a sub-directory), and the
    clock and the source of UUIDs are not touched. *)
Definition extends (w w' : World) : Prop :=
  (forall name,
     match store w !! name with
     | Some (File _ _) => exists mtime content,
                            store w' !! name = Some (File mtime content)
     | Some (Directory mtime) => store w' !! name = Some (Directory mtime)
     | None => forall mtime, store w' !! name <> Some (Directory mtime)
     end) /\
  clock w' = clock w /\
  entropy w' = entropy w /\
  (draws w <= draws w')%nat.

(** A computation that only extends the world. *)
Definition frames {A} (m : M A) : Prop :=
  forall w, extends w (snd (m w)).

(** The image endpoint serves a file under the name of the image data. *)
Definition served (w : World) (d : Descriptor) : Prop :=
  exists content, serve_image (d_filename d) w = (PngFile content, w).

(** A scatter request with classes whose arrays differ in length. *)
Definition unequal_lengths (data : ScatterRequest) : Prop :=
  let x := default [] (sc_x_data data) in
  let y := default [] (sc_y_data data) in
  x <> [] /\ y <> [] /\
  exists cls, sc_classes data = Some cls /\ cls <> [] /\
              (length x <> length y \/ length y <> length cls).

(** The records the frequency-vs-monetary panel leaves out: those without
    a class and those whose class is neither 0 nor 1. *)
Definition other_class (r : gmap string Q) : bool :=
  match r !! "class" with
  | Some c => negb (Qeq_bool c 0) && negb (Qeq_bool c 1)
  | None => true
  end.

(** The two series of the frequency-vs-monetary panel: class 0 first, in
    red, then class 1, in green; between them they hold the records of
    class 0 and of class 1 and no other. *)
Definition two_class_series (df : list (gmap string Q)) : Prop :=
  exists s0 s1,
    frequency_vs_monetary df
    = FScatter [s0; s1] true "Frequency vs. Monetary Value"
               "Frequency (donations)" "Monetary Value (c.c. blood)" /\
    ss_color s0 = "#ef4444" /\ ss_label s0 = Some "Non-Return Donor" /\
    ss_color s1 = "#10b981" /\ ss_label s1 = Some "Return Donor" /\
    length (ss_x s0) = class_count 0 df /\
    length (ss_x s1) = class_count 1 df /\
    (length (ss_x s0) + length (ss_x s1)
     + length (List.filter other_class df))%nat = length df.

(** Concurrent activity that touches the directory only before the
    sweep's check of a name, never between the check and the removal. *)
Definition acts_before_check_only (env : Interference) : Prop :=
  forall name s, env BeforeGetmtime name s = s /\ env BeforeRemove name s = s.

(** A concurrent sweep that removes every name just before this sweep
    checks it. *)
Definition always_ahead : Interference :=
  fun p name s =>
    match p with
    | BeforeIsfile => delete name s
    | _ => s
    end.

(** The entry a name holds after a sweep that ran alone at time [now]:
    gone when it was a file strictly older than the retention window, as
    it was otherwise (a younger file, a file exactly 24 hours old, a file
    dated in the future, a sub-directory). *)
Definition after_sweep (now : Z) (entry : option Entry) : option Entry :=
  match entry with
  | Some (File mtime content) =>
      if decide (retention < now - mtime)%Z then None
      else Some (File mtime content)
  | other => other
  end.

(** The count a cleanup answers. *)
Definition deleted_of (r : Response) : nat :=
  match r with
  | JsonCleanup deleted => deleted
  | _ => 0%nat
  end.

(** Two sweeps running alone, the second [later] microseconds after the
    first, against one sweep at the later time. *)
Definition two_sweeps_as_one (w : World) (later : Z) : Prop :=
  let first := cleanup_old_images quiet w in
  let second :=
    cleanup_old_images quiet (set_clock (clock w + later) (snd first)) in
  let single := cleanup_old_images quiet (set_clock (clock w + later) w) in
  store (snd second) = store (snd single) /\
  (deleted_of (fst first) + deleted_of (fst second))%nat
  = deleted_of (fst single).

(** The sweep answers a count, at most the number of entries listed. *)
Definition sweep_answers_count (env : Interference) (w : World) : Prop :=
  exists deleted w',
    cleanup_old_images env w = (JsonCleanup deleted, w') /\
    (deleted <= size (store w))%nat.

(** The descriptor of the histogram grid of a report. *)
Definition grid_image (w : World) (bytes : png) : Descriptor :=
  image_data_of (next_name "blood_histograms" w) bytes (clock w).


(** The label of a bar can be written: its height is an integer or a
    finite double. *)
Definition height_defined (height : Height) : bool :=
  match height with
  | IntHeight _ => true
  | FloatHeight x => F64.is_finite x
  end.

(** The labels of the bars of a bar chart can be written: the values are
    all integers, or they are all within the range of doubles. *)
Definition labels_defined (values : list Q) : bool :=
  forallb is_integer values
  || forallb (fun v => F64.is_finite (F64.of_Q v)) values.






(** Bars whose values are not integers: 2.5 and -0.75. *)
Definition fractional_bars : BarChartRequest :=
  {| bar_categories := Some ["Gain"; "Loss"];
     bar_values := Some [5 # 2; - (3 # 4)]%Q;
     bar_title := None; bar_xlabel := None; bar_ylabel := None |}.

(** One value for three categories. *)
Definition broadcast_bars : BarChartRequest :=
  {| bar_categories := Some ["A"; "B"; "C"];
     bar_values := Some [7]%Q;
     bar_title := None; bar_xlabel := None; bar_ylabel := None |}.

(** A request the handlers themselves have no reason to refuse: the
    required input is there; when a scatter plot comes with classes, its
    three arrays have one length; the labels of the bars of a bar chart
    can be written; when the records of a report have a class column,
    some record has class 0 or 1. *)
Definition well_formed (req : Request) : Prop :=
  match req with
  | PostHistogram data => default [] (hist_data data) <> []
  | PostScatter data =>
      let x := default [] (sc_x_data data) in
      let y := default [] (sc_y_data data) in
      x <> [] /\ y <> [] /\
      forall cls, sc_classes data = Some cls -> cls <> [] ->
                  length x = length y /\ length y = length cls
  | PostMultiHistogram data =>
      (2 <= length (default [] (mh_datasets data)))%nat
  | PostBarChart data =>
      default [] (bar_categories data) <> []
      /\ default [] (bar_values data) <> []
      /\ labels_defined (default [] (bar_values data)) = true
  | PostBloodData data =>
      default [] (blood_data data) <> []
      /\ percentages_defined (default [] (blood_data data))
  end.

(** The successful answers: the image data of one chart, or the report
    with the number of its image data as count. *)
Definition success_of (req : Request) (r : Response) : Prop :=
  match req with
  | PostBloodData _ =>
      exists visualizations,
        r = JsonReport (length visualizations) visualizations
  | _ => exists image_data, r = JsonDescriptor image_data
  end.


(** The summary of a run of the test script in which [n] of its five
    tests pass. *)
Definition passed_of_five (n : nat) : TestViz.Summary :=
  {| TestViz.passed := n; TestViz.total := 5 |}.

(** A run of the script against the service in the world [w]: all five
    tests pass, and the image directory still holds no sub-directory. *)
Definition suite_passes (backend : Figure -> option png) (w : World)
  : Prop :=
  fst (TestViz.main backend true w) = passed_of_five 5 /\
  no_directories (snd (TestViz.main backend true w)).

(** The life of the image of a chart request answered with image data
    from the world [w]: after a sweep that runs alone [elapsed]
    microseconds after the request, the image endpoint serves the bytes
    of the answer when [elapsed] is at most the retention window, and
    answers 404 when it is more. *)
Definition image_lifecycle (w : World) (result : Response * World)
  : Prop :=
  match result with
  | (JsonDescriptor d, w') =>
      forall elapsed : Z,
        let later := set_clock (clock w + elapsed) w' in
        let after := snd (cleanup_old_images quiet later) in
        if decide (elapsed <= retention)%Z
        then serve_image (d_filename d) after = (PngFile (d_image d), after)
        else serve_image (d_filename d) after
             = (JsonError404 "Image not found", after)
  | _ => True
  end.

(** What an answered report holds: the image data of the expected
    panels, in their order, each under a name with the prefix of its
    panel, and their number, between 1 and 4, as count. *)
Definition report_shape (data : BloodDataRequest) (r : Response) : Prop :=
  match r with
  | JsonReport count visualizations =>
      count = length visualizations /\
      Forall2 (fun d panel =>
                 exists hex, d_filename d = image_name panel.1 hex)
              visualizations
              (expected_panels (default [] (blood_data data))) /\
      (1 <= count <= 4)%nat
  | _ => True
  end.

(** * Properties *)

(** ** Running the monad *)

Lemma bind_return {A B} (m : M A) (k : A -> M B) (w w' : World) (a : A) :
  m w = (Return a, w') -> (m ≫= k) w = k a w'.
Proof.
  intros H. unfold mbind, M_bind. now rewrite H.
Qed.

Lemma bind_raise {A B} (m : M A) (k : A -> M B) (w w' : World) (e : exn) :
  m w = (Raise e, w') -> (m ≫= k) w = (Raise e, w').
Proof.
  intros H. unfold mbind, M_bind. now rewrite H.
Qed.

(** ** [save_figure] *)

Lemma save_figure_eq backend fig prefix w :
  save_figure backend fig prefix w =
  match backend fig with
  | None => (Raise BackendError, next_draw w)
  | Some bytes =>
      match store w !! next_name prefix w with
      | Some (Directory _) => (Raise IsADirectoryError, next_draw w)
      | _ => (Return (image_data_of (next_name prefix w) bytes (clock w)),
              after_put fig (next_name prefix w) bytes w)
      end
  end.
Proof.
  unfold save_figure, savefig, uuid4_hex, datetime_now, next_name.
  unfold mbind, M_bind, mret, M_ret, raise. simpl.
  destruct (backend fig) as [bytes|]; [|reflexivity]. simpl.
  destruct (store w !! _) as [[mtime content|mtime]|]; reflexivity.
Qed.

(** Drawing and saving one figure, then going on with [k]. *)
Lemma draw_save_eq {A} backend fig prefix (k : Descriptor -> M A) w :
  (draw backend fig ≫= fun _ => save_figure backend fig prefix ≫= k) w =
  match backend fig with
  | None => (Raise BackendError, w)
  | Some bytes =>
      match store w !! next_name prefix w with
      | Some (Directory _) => (Raise IsADirectoryError, next_draw w)
      | _ => k (image_data_of (next_name prefix w) bytes (clock w))
               (after_put fig (next_name prefix w) bytes w)
      end
  end.
Proof.
  unfold draw. destruct (backend fig) as [bytes|] eqn:Hb.
  - erewrite bind_return by reflexivity.
    unfold mbind at 1, M_bind. rewrite save_figure_eq, Hb.
    destruct (store w !! _) as [[mtime content|mtime]|]; reflexivity.
  - reflexivity.
Qed.

Lemma draw_save_ok {A} backend fig prefix (k : Descriptor -> M A) w bytes :
  backend fig = Some bytes ->
  writable (next_name prefix w) w ->
  (draw backend fig ≫= fun _ => save_figure backend fig prefix ≫= k) w =
  k (image_data_of (next_name prefix w) bytes (clock w))
    (after_put fig (next_name prefix w) bytes w).
Proof.
  intros Hb Hw. rewrite draw_save_eq, Hb.
  destruct (store w !! _) as [[mtime content|mtime]|] eqn:Hs;
    try reflexivity.
  now destruct (Hw mtime).
Qed.

(** ** The multi-histogram grid *)

Lemma draw_datasets_length datasets idx axes :
  length (draw_datasets idx datasets axes) = length axes.
Proof.
  revert idx axes. induction datasets as [|d ds IH]; intros idx axes; simpl.
  - reflexivity.
  - now rewrite IH, length_insert.
Qed.

Lemma draw_datasets_before datasets idx axes i :
  (i < idx)%nat -> draw_datasets idx datasets axes !! i = axes !! i.
Proof.
  revert idx axes. induction datasets as [|d ds IH]; intros idx axes Hi; simpl.
  - reflexivity.
  - rewrite IH by lia. apply list_lookup_insert_ne. lia.
Qed.

Lemma draw_datasets_after datasets idx axes i :
  (idx + length datasets <= i)%nat ->
  draw_datasets idx datasets axes !! i = axes !! i.
Proof.
  revert idx axes. induction datasets as [|d ds IH]; intros idx axes Hi;
    simpl in *.
  - reflexivity.
  - rewrite IH by lia. apply list_lookup_insert_ne. lia.
Qed.

(** Dataset [j] is drawn in cell [idx + j]. *)
Lemma draw_datasets_at datasets idx axes j d :
  datasets !! j = Some d ->
  (idx + j < length axes)%nat ->
  draw_datasets idx datasets axes !! (idx + j)%nat
  = Some (dataset_axes (idx + j) d).
Proof.
  revert idx axes j.
  induction datasets as [|d' ds IH]; intros idx axes j Hj Hlen.
  - discriminate.
  - destruct j as [|j]; simpl in *.
    + injection Hj as ->. rewrite Nat.add_0_r in *.
      rewrite draw_datasets_before by lia.
      now apply list_lookup_insert_eq.
    + replace (idx + S j)%nat with (S idx + j)%nat by lia.
      apply IH; [assumption|]. rewrite length_insert. lia.
Qed.

Lemma hide_cells_lookup (cells : list nat) (axes : list Axes) (i : nat) :
  foldl (fun ax idx => <[idx := AxHidden]> ax) axes cells !! i
  = if decide (i ∈ cells /\ (i < length axes)%nat)
    then Some AxHidden else axes !! i.
Proof.
  revert axes. induction cells as [|c cells IH]; intros axes; cbn [foldl].
  - destruct (decide _) as [[H _]|]; [inversion H|reflexivity].
  - rewrite IH, length_insert.
    destruct (decide (i ∈ cells /\ (i < length axes)%nat)) as [[H1 H1']|H1];
      destruct (decide (i ∈ c :: cells /\ (i < length axes)%nat))
        as [[H2 H2']|H2]; try reflexivity.
    + exfalso. apply H2. split; [now right|assumption].
    + apply elem_of_cons in H2 as [->|H2].
      * now apply list_lookup_insert_eq.
      * exfalso. apply H1. now split.
    + destruct (decide (i = c)) as [->|Hne].
      * rewrite list_insert_ge; [reflexivity|].
        destruct (decide (c < length axes)%nat) as [Hlt|]; [|lia].
        exfalso. apply H2. split; [left|exact Hlt].
      * apply list_lookup_insert_ne. congruence.
Qed.

Lemma hide_from_length start axes :
  length (hide_from start axes) = length axes.
Proof.
  unfold hide_from. generalize (seq start (length axes - start)).
  intros cells. revert axes.
  induction cells as [|c cells IH]; intros axes; simpl.
  - reflexivity.
  - now rewrite IH, length_insert.
Qed.

Lemma hide_from_lookup start axes i :
  hide_from start axes !! i
  = if decide (start <= i < length axes)%nat
    then Some AxHidden else axes !! i.
Proof.
  unfold hide_from. rewrite hide_cells_lookup.
  destruct (decide (i ∈ seq start (length axes - start)
                    /\ (i < length axes)%nat)) as [[H1 H1']|H1];
    destruct (decide (start <= i < length axes)%nat) as [H2|H2];
    try reflexivity.
  - exfalso. apply H2. apply elem_of_seq in H1. lia.
  - exfalso. apply H1. split; [|lia]. apply elem_of_seq. lia.
Qed.

(** C8. A multi-histogram request with N >= 2 datasets is laid out on a
    grid of 2 columns and ceil(N/2) rows; cell [i] holds the histogram of
    dataset [i] with a mean line at the mean of that dataset's own values,
    and every cell of index N or more is hidden. *)
Theorem C8_multi_histogram_layout (data : MultiHistogramRequest) :
  (2 <= length (default [] (mh_datasets data)))%nat -> grid_layout data.
Proof.
  intros Hn. unfold grid_layout. cbv zeta.
  set (datasets := default [] (mh_datasets data)) in *.
  set (title := default "Multi-Variable Distribution" (mh_title data)).
  assert (Hfig : exists axes,
    multi_histogram_grid datasets title
    = FGrid ((length datasets + 1) / 2) 2 axes title /\
    axes = hide_from (length datasets)
             (draw_datasets 0 datasets
                (replicate ((length datasets + 1) / 2 * 2) AxEmpty))).
  { unfold multi_histogram_grid.
    assert (Hcols : (1 <? length datasets)%nat = true)
      by (apply Nat.ltb_lt; lia).
    rewrite Hcols. eexists. split; reflexivity. }
  destruct Hfig as (axes & Hfig & Haxes).
  set (n := length datasets) in *.
  assert (Hrows : (n <= 2 * ((n + 1) / 2) < n + 2)%nat).
  { pose proof (Nat.div_mod_eq (n + 1) 2) as Hd.
    pose proof (Nat.mod_upper_bound (n + 1) 2). lia. }
  exists ((n + 1) / 2)%nat, axes. split; [exact Hfig|].
  split; [exact Hrows|].
  split.
  { rewrite Haxes, hide_from_length, draw_datasets_length, length_replicate.
    lia. }
  split; [|split].
  - intros i d Hd.
    assert (Hi : (i < n)%nat) by (eapply lookup_lt_Some; exact Hd).
    eexists. rewrite Haxes, hide_from_lookup.
    destruct (decide _) as [Hh|Hh]; [lia|].
    split.
    { apply (draw_datasets_at datasets 0 _ i d Hd).
      rewrite length_replicate. lia. }
    split; reflexivity.
  - intros i Hi. rewrite Haxes, hide_from_lookup.
    rewrite draw_datasets_length, length_replicate.
    destruct (decide _) as [Hh|Hh]; [reflexivity|lia].
  - intros backend w bytes Hb Hw.
    unfold generate_multi_histogram, try_except. cbv zeta.
    fold datasets. fold title. fold n.
    assert (Hlt : (n <? 2)%nat = false) by (apply Nat.ltb_ge; lia).
    rewrite Hlt, Hfig, (draw_save_ok _ _ _ _ _ bytes Hb Hw).
    reflexivity.
Qed.

Lemma C8_multi_histogram_layout_witness :
  (2 <= length (default [] (mh_datasets three_histograms)))%nat /\
  grid_layout three_histograms.
Proof.
  split.
  - simpl. lia.
  - apply (C8_multi_histogram_layout three_histograms). simpl. lia.
Defined.

(** The claim's example: three datasets give a 2 x 2 grid whose fourth
    cell is hidden. *)
Example three_datasets_grid :
  exists h1 h2 h3,
    multi_histogram_grid three_datasets "Metrics"
    = FGrid 2 2 [AxHist h1; AxHist h2; AxHist h3; AxHidden] "Metrics".
Proof.
  eexists _, _, _. vm_compute. reflexivity.
Qed.

(** ** Partition of the scatter points by class *)

Section ClassPartition.

Lemma Qeq_bool_sym (a b : Q) : Qeq_bool a b = Qeq_bool b a.
Proof.
  destruct (Qeq_bool a b) eqn:H1, (Qeq_bool b a) eqn:H2; try reflexivity.
  - apply Qeq_bool_iff in H1. symmetry in H1.
    apply Qeq_bool_iff in H1. congruence.
  - apply Qeq_bool_iff in H2. symmetry in H2.
    apply Qeq_bool_iff in H2. congruence.
Qed.

Lemma Qeq_bool_congr (a b c : Q) :
  Qeq_bool a b = true -> Qeq_bool c a = Qeq_bool c b.
Proof.
  intros Hab. apply Qeq_bool_iff in Hab.
  destruct (Qeq_bool c a) eqn:H1, (Qeq_bool c b) eqn:H2; try reflexivity.
  - apply Qeq_bool_iff in H1. rewrite Hab in H1.
    apply Qeq_bool_iff in H1. congruence.
  - apply Qeq_bool_iff in H2. rewrite <- Hab in H2.
    apply Qeq_bool_iff in H2. congruence.
Qed.

Lemma count_class_cons (c v : Q) (a : list Q) :
  count_class c (v :: a)
  = ((if Qeq_bool v c then 1 else 0) + count_class c a)%nat.
Proof.
  unfold count_class. simpl. now destruct (Qeq_bool v c).
Qed.

Lemma count_class_congr (c c' : Q) (a : list Q) :
  Qeq_bool c c' = true -> count_class c a = count_class c' a.
Proof.
  intros H. induction a as [|v a IH]; [reflexivity|].
  rewrite !count_class_cons, IH. now rewrite (Qeq_bool_congr c c' v H).
Qed.

(** Removing the values equal to [v] leaves no value equal to [c] when
    [v] equals [c], and all of them otherwise. *)
Lemma filter_same_class (c v : Q) (U : list Q) :
  Qeq_bool v c = true ->
  List.filter (fun u => Qeq_bool u c)
    (List.filter (fun u => negb (Qeq_bool u v)) U) = [].
Proof.
  intros H. induction U as [|u U IH]; simpl; [reflexivity|].
  destruct (Qeq_bool u v) eqn:Huv; simpl; [exact IH|].
  rewrite <- (Qeq_bool_congr v c u H), Huv. exact IH.
Qed.

Lemma filter_other_class (c v : Q) (U : list Q) :
  Qeq_bool v c = false ->
  List.filter (fun u => Qeq_bool u c)
    (List.filter (fun u => negb (Qeq_bool u v)) U)
  = List.filter (fun u => Qeq_bool u c) U.
Proof.
  intros H. induction U as [|u U IH]; simpl; [reflexivity|].
  destruct (Qeq_bool u v) eqn:Huv; simpl.
  - destruct (Qeq_bool u c) eqn:Huc; [|exact IH].
    rewrite (Qeq_bool_sym u v) in Huv.
    rewrite (Qeq_bool_congr u c v Huc) in Huv. congruence.
  - now rewrite IH.
Qed.

Lemma total_new_point_other (c v : Q) (U a : list Q) :
  Qeq_bool v c = false ->
  class_total (List.filter (fun u => Qeq_bool u c) U) (v :: a)
  = class_total (List.filter (fun u => Qeq_bool u c) U) a.
Proof.
  intros H. unfold class_total. induction U as [|u U IH]; simpl; [reflexivity|].
  destruct (Qeq_bool u c) eqn:Huc; [|exact IH]. simpl.
  rewrite IH, count_class_cons.
  rewrite (Qeq_bool_congr u c v Huc), H. reflexivity.
Qed.

Lemma total_new_point_removed (c : Q) (U a : list Q) :
  class_total (List.filter (fun u => negb (Qeq_bool u c)) U) (c :: a)
  = class_total (List.filter (fun u => negb (Qeq_bool u c)) U) a.
Proof.
  unfold class_total. induction U as [|u U IH]; simpl; [reflexivity|].
  destruct (Qeq_bool u c) eqn:Huc; simpl; [exact IH|].
  rewrite IH, count_class_cons, (Qeq_bool_sym c u), Huc. reflexivity.
Qed.

Lemma total_split (c : Q) (U a : list Q) :
  class_total U a
  = (class_total (List.filter (fun u => Qeq_bool u c) U) a
     + class_total (List.filter (fun u => negb (Qeq_bool u c)) U) a)%nat.
Proof.
  unfold class_total. induction U as [|u U IH]; simpl; [reflexivity|].
  rewrite IH. destruct (Qeq_bool u c); simpl; lia.
Qed.

(** The series of the class values equal to [c] hold the points of
    class [c]. *)
Lemma total_of_class (c : Q) (a : list Q) :
  class_total (List.filter (fun u => Qeq_bool u c) (unique a)) a
  = count_class c a.
Proof.
  induction a as [|v a IH]; [reflexivity|].
  cbn [unique List.filter]. destruct (Qeq_bool v c) eqn:Hvc.
  - rewrite (filter_same_class c v _ Hvc). unfold class_total. simpl.
    rewrite (count_class_congr v c _ Hvc). lia.
  - rewrite (filter_other_class c v _ Hvc).
    rewrite (total_new_point_other c v _ _ Hvc), IH.
    rewrite count_class_cons, Hvc. reflexivity.
Qed.

(** The groups hold as many points altogether as the array of classes. *)
Lemma total_unique (a : list Q) : class_total (unique a) a = length a.
Proof.
  induction a as [|c a IH]; [reflexivity|].
  cbn [unique]. unfold class_total at 1. cbn [map sum_list].
  fold (class_total (List.filter (fun u => negb (Qeq_bool u c)) (unique a))
          (c :: a)).
  rewrite total_new_point_removed, count_class_cons.
  rewrite (proj2 (Qeq_bool_iff c c)) by reflexivity.
  rewrite <- (total_of_class c a).
  pose proof (total_split c (unique a) a) as Hs. rewrite IH in Hs.
  simpl. lia.
Qed.

(** Every class value of the array has exactly one group. *)
Lemma unique_one_group (c : Q) (a : list Q) :
  length (List.filter (fun u => Qeq_bool u c) (unique a))
  = if existsb (fun u => Qeq_bool u c) a then 1%nat else 0%nat.
Proof.
  induction a as [|v a IH]; [reflexivity|].
  cbn [unique List.filter existsb]. destruct (Qeq_bool v c) eqn:Hvc.
  - now rewrite (filter_same_class c v _ Hvc).
  - now rewrite (filter_other_class c v _ Hvc).
Qed.

Lemma zip_rows_classes (x y c : list Q) :
  length x = length c -> length y = length c ->
  map row_class (zip_rows x y c) = c.
Proof.
  revert x y. induction c as [|vc c IH]; intros [|vx x] [|vy y] Hx Hy;
    simpl in *; try discriminate; try reflexivity.
  f_equal. apply IH; congruence.
Qed.

Lemma rows_of_class_count (c : Q) (df : list ScatterRow) :
  length (rows_of_class c df) = count_class c (map row_class df).
Proof.
  unfold rows_of_class, count_class.
  induction df as [|r df IH]; simpl; [reflexivity|].
  destruct (Qeq_bool (row_class r) c); simpl; now rewrite IH.
Qed.

Lemma class_series_points (c : Q) (x y cls : list Q) :
  length x = length cls -> length y = length cls ->
  length (ss_x (class_series (zip_rows x y cls) c)) = count_class c cls /\
  length (ss_y (class_series (zip_rows x y cls) c)) = count_class c cls.
Proof.
  intros Hx Hy. unfold class_series, as_array. simpl.
  rewrite !length_map, rows_of_class_count, zip_rows_classes by assumption.
  split; reflexivity.
Qed.

Lemma zip_rows_In (r : ScatterRow) (x y c : list Q) :
  In r (zip_rows x y c)
  <-> exists i, x !! i = Some (row_x r) /\ y !! i = Some (row_y r) /\
                c !! i = Some (row_class r).
Proof.
  revert y c. induction x as [|vx x IH]; intros [|vy y] [|vc c]; simpl;
    try (split; [intros []|intros (i & H1 & H2 & H3)]; destruct i;
         discriminate).
  rewrite IH. split.
  - intros [<-|(i & H)]; [now exists 0%nat|now exists (S i)].
  - intros ([|i] & H1 & H2 & H3); simpl in *.
    + left. destruct r. simpl in *. congruence.
    + right. now exists i.
Qed.

Lemma class_series_pairs (c : Q) (df : list ScatterRow) :
  combine (ss_x (class_series df c)) (ss_y (class_series df c))
  = map (fun r => (Some (row_x r), Some (row_y r))) (rows_of_class c df).
Proof.
  unfold class_series, as_array. simpl.
  induction (rows_of_class c df) as [|r l IH]; simpl; [reflexivity|].
  now rewrite IH.
Qed.

(** The series of a class holds exactly the points of that class. *)
Lemma class_series_In (c : Q) (x y cls : list Q) (p : option Q * option Q) :
  In p (combine (ss_x (class_series (zip_rows x y cls) c))
                (ss_y (class_series (zip_rows x y cls) c)))
  <-> exists i vx vy vc,
        x !! i = Some vx /\ y !! i = Some vy /\ cls !! i = Some vc /\
        (vc == c)%Q /\ p = (Some vx, Some vy).
Proof.
  rewrite class_series_pairs, in_map_iff. unfold rows_of_class. split.
  - intros (r & <- & Hr). apply filter_In in Hr as [Hin Hc].
    apply zip_rows_In in Hin as (i & H1 & H2 & H3).
    apply Qeq_bool_iff in Hc.
    now exists i, (row_x r), (row_y r), (row_class r).
  - intros (i & vx & vy & vc & H1 & H2 & H3 & Hc & ->).
    exists {| row_x := vx; row_y := vy; row_class := vc |}.
    split; [reflexivity|]. apply filter_In. split.
    + apply zip_rows_In. now exists i.
    + now apply Qeq_bool_iff.
Qed.

Lemma series_points_total (x y cls : list Q) :
  length x = length cls -> length y = length cls ->
  sum_list (map (fun s => length (ss_x s))
              (map (class_series (zip_rows x y cls)) (unique cls)))
  = length cls.
Proof.
  intros Hx Hy. rewrite <- (total_unique cls). unfold class_total.
  rewrite map_map. f_equal. apply map_ext. intros c.
  apply (class_series_points c x y cls Hx Hy).
Qed.

End ClassPartition.

Lemma is_empty_false {A} (l : list A) : l <> [] -> is_empty l = false.
Proof.
  now destruct l.
Qed.

Lemma scatter_frame_ok (x y cls : list Q) (w : World) :
  length x = length cls -> length y = length cls ->
  scatter_frame x y cls w = (Return (zip_rows x y cls), w).
Proof.
  intros Hx Hy. unfold scatter_frame.
  rewrite (proj2 (Nat.eqb_eq _ _)) by congruence.
  rewrite (proj2 (Nat.eqb_eq _ _)) by congruence.
  reflexivity.
Qed.

(** C7. A scatter request with classes is drawn as one series per distinct
    class value, each holding exactly the points of its class, class 1
    in green as "Return Donor" and class 0 in red as "Non-Return Donor";
    the series hold as many points altogether as the request. A request
    without classes is drawn as a single series in the default colour. *)
Theorem C7_scatter_by_class (data : ScatterRequest) :
  valid_scatter data -> scatter_rendering data.
Proof.
  unfold valid_scatter, scatter_rendering. cbv zeta.
  set (x := default [] (sc_x_data data)).
  set (y := default [] (sc_y_data data)).
  intros (Hx & Hy & Hc).
  assert (Hy' : y <> []) by (intros E; rewrite E in Hy; now destruct x).
  destruct (sc_classes data) as [cls|] eqn:Hcls.
  - assert (Hxc : length x = length cls) by congruence.
    assert (Hyc : length y = length cls) by congruence.
    split; [|split; [|split; [|split; [|split; [|split]]]]].
    + intros backend w bytes Hb Hw.
      unfold generate_scatter, try_except. cbv zeta. fold x. fold y.
      rewrite (is_empty_false x Hx), (is_empty_false y Hy'), Hcls.
      destruct cls as [|c cls']; [now destruct x|].
      cbn [orb].
      erewrite bind_return;
        [|erewrite bind_return by (apply scatter_frame_ok; assumption);
          reflexivity].
      rewrite (draw_save_ok _ _ _ _ _ bytes Hb Hw). reflexivity.
    + intros c Hin. rewrite unique_one_group.
      assert (He : existsb (fun u => Qeq_bool u c) cls = true).
      { apply existsb_exists. exists c. split; [exact Hin|].
        apply Qeq_bool_iff. reflexivity. }
      now rewrite He.
    + intros c p. apply class_series_In.
    + intros c. now apply class_series_points.
    + intros c H1. apply Qeq_bool_iff in H1. unfold class_series. simpl.
      now rewrite H1.
    + intros c H0. unfold class_series. simpl.
      assert (H1 : Qeq_bool c 1 = false).
      { destruct (Qeq_bool c 1) eqn:E; [|reflexivity].
        apply Qeq_bool_iff in E. rewrite H0 in E. discriminate. }
      now rewrite H1.
    + rewrite series_points_total by assumption. congruence.
  - intros backend w bytes Hb Hw.
    unfold generate_scatter, try_except. cbv zeta. fold x. fold y.
    rewrite (is_empty_false x Hx), (is_empty_false y Hy'), Hcls.
    cbn [orb].
    erewrite bind_return by reflexivity.
    rewrite (draw_save_ok _ _ _ _ _ bytes Hb Hw). reflexivity.
Qed.

Lemma C7_scatter_by_class_witness :
  valid_scatter three_points /\ scatter_rendering three_points.
Proof.
  assert (H : valid_scatter three_points).
  { unfold valid_scatter. simpl. repeat split; congruence. }
  split; [exact H|].
  apply (C7_scatter_by_class three_points H).
Defined.

(** The claim's example: classes [1, 0, 1] give exactly two series, the
    two points of class 1 and the point of class 0. *)
Example three_points_series :
  map (class_series (zip_rows [10; 20; 30]%Q [1; 2; 3]%Q [1; 0; 1]%Q))
      (unique [1; 0; 1]%Q)
  = [ {| ss_x := [Some 10%Q; Some 30%Q]; ss_y := [Some 1%Q; Some 3%Q];
         ss_color := "#10b981"; ss_label := Some "Return Donor" |};
      {| ss_x := [Some 20%Q]; ss_y := [Some 2%Q];
         ss_color := "#ef4444"; ss_label := Some "Non-Return Donor" |} ].
Proof.
  vm_compute. reflexivity.
Qed.

(** ** The blood-data report *)

Lemma no_directories_writable name w : no_directories w -> writable name w.
Proof.
  intros H mtime. apply H.
Qed.

Lemma no_directories_after_put fig name bytes w :
  no_directories w -> no_directories (after_put fig name bytes w).
Proof.
  intros H k mtime. unfold after_put. simpl.
  destruct (decide (name = k)) as [->|Hne].
  - rewrite lookup_insert_eq. discriminate.
  - rewrite lookup_insert_ne by assumption. apply H.
Qed.

Lemma put_all_app backend (p1 p2 : list (string * Figure)) w :
  put_all backend (p1 ++ p2) w
  = ((fst (put_all backend p1 w)
      ++ fst (put_all backend p2 (snd (put_all backend p1 w))))%list,
     snd (put_all backend p2 (snd (put_all backend p1 w)))).
Proof.
  revert w. induction p1 as [|[prefix fig] p1 IH]; intros w; simpl.
  - now destruct (put_all backend p2 w).
  - rewrite IH. now destruct (put_all backend p1 _) as [d1 w1].
Qed.

Lemma put_all_length backend panels w :
  length (fst (put_all backend panels w)) = length panels.
Proof.
  revert w. induction panels as [|[prefix fig] panels IH]; intros w; simpl.
  - reflexivity.
  - specialize (IH (after_put fig (next_name prefix w)
                              (default [] (backend fig)) w)).
    destruct (put_all backend panels _). simpl in *. now rewrite IH.
Qed.

Lemma put_all_names backend panels w :
  Forall2 (fun d panel => exists hex, d_filename d = image_name (fst panel) hex)
          (fst (put_all backend panels w)) panels.
Proof.
  revert w. induction panels as [|[prefix fig] panels IH]; intros w; simpl.
  - constructor.
  - specialize (IH (after_put fig (next_name prefix w)
                              (default [] (backend fig)) w)).
    destruct (put_all backend panels _). simpl in *.
    constructor; [|exact IH]. eexists. reflexivity.
Qed.

Lemma put_all_no_directories backend panels w :
  no_directories w -> no_directories (snd (put_all backend panels w)).
Proof.
  revert w. induction panels as [|[prefix fig] panels IH]; intros w Hw; simpl.
  - exact Hw.
  - specialize (IH (after_put fig (next_name prefix w)
                              (default [] (backend fig)) w)
                   (no_directories_after_put _ _ _ _ Hw)).
    now destruct (put_all backend panels _).
Qed.

(** One optional panel of the report: drawn, saved and appended when its
    fields are present, skipped otherwise. *)
Lemma optional_panel backend (present : bool) fig prefix
    (visualizations : list Descriptor) w :
  (present = true -> is_Some (backend fig)) -> no_directories w ->
  (if present
   then draw backend fig ≫= fun _ =>
        save_figure backend fig prefix ≫= fun viz =>
        mret (visualizations ++ [viz])%list
   else mret visualizations) w
  = (Return (visualizations
             ++ fst (put_all backend
                       (if present then [(prefix, fig)] else []) w))%list,
     snd (put_all backend (if present then [(prefix, fig)] else []) w)).
Proof.
  intros Hb Hw. destruct present; simpl.
  - destruct (Hb eq_refl) as [bytes Hbytes].
    rewrite (draw_save_ok _ _ _ _ _ bytes Hbytes
               (no_directories_writable _ _ Hw)).
    rewrite Hbytes. reflexivity.
  - now rewrite app_nil_r.
Qed.

Lemma percent_texts_defined (total : nat) (values : list nat) w :
  total <> 0%nat ->
  percent_texts total values w
  = (Return (map (fun val =>
                    {| bt_count := Z.of_nat val;
                       bt_percent :=
                         Some (F64.mul (F64.div (F64.of_nat val)
                                                (F64.of_nat total))
                                       (F64.of_nat 100)) |})
                 values), w).
Proof.
  intros Ht. induction values as [|val values IH]; simpl; [reflexivity|].
  rewrite (proj2 (Nat.eqb_neq total 0) Ht).
  erewrite bind_return by exact IH. reflexivity.
Qed.

Lemma percent_texts_zero (val : nat) (values : list nat) w :
  percent_texts 0 (val :: values) w = (Raise ZeroDivisionError, w).
Proof.
  reflexivity.
Qed.

Lemma class_distribution_defined backend df w :
  is_Some (backend (class_bars df [])) ->
  (class_count 0 df + class_count 1 df <> 0)%nat ->
  class_distribution backend df w
  = (Return (class_bars df (class_texts df)), w).
Proof.
  intros Hb Ht. unfold class_distribution, draw.
  destruct Hb as [bytes ->].
  erewrite bind_return by reflexivity.
  cbn [foldr]. rewrite Nat.add_0_r.
  erewrite bind_return by (apply percent_texts_defined; exact Ht).
  reflexivity.
Qed.

(** The class-distribution panel of the report. *)
Lemma class_panel backend df (visualizations : list Descriptor) w :
  (in_columns "class" df = true ->
   is_Some (backend (class_bars df [])) /\
   is_Some (backend (class_bars df (class_texts df)))) ->
  no_directories w -> percentages_defined df ->
  (if in_columns "class" df
   then class_distribution backend df ≫= fun fig3 =>
        save_figure backend fig3 "class_distribution" ≫= fun viz3 =>
        mret (visualizations ++ [viz3])%list
   else mret visualizations) w
  = (Return (visualizations
             ++ fst (put_all backend
                       (if in_columns "class" df
                        then [("class_distribution",
                               class_bars df (class_texts df))]
                        else []) w))%list,
     snd (put_all backend
            (if in_columns "class" df
             then [("class_distribution", class_bars df (class_texts df))]
             else []) w)).
Proof.
  intros Hb Hw Hp. destruct (in_columns "class" df) eqn:Hc; simpl.
  - destruct (Hb eq_refl) as [Hbars [bytes Hbytes]].
    erewrite bind_return
      by (apply class_distribution_defined; [exact Hbars|now apply Hp]).
    unfold mbind at 1, M_bind. rewrite save_figure_eq, Hbytes.
    pose proof (Hw (next_name "class_distribution" w)) as Hn.
    destruct (store w !! _) as [[mtime content|mtime]|]; try reflexivity.
    now destruct (Hn mtime).
  - now rewrite app_nil_r.
Qed.

Lemma blood_histograms_cells (df : list (gmap string Q)) :
  blood_histograms df
  = FGrid 2 2 [field_cell df "recency" "#3b82f6";
               field_cell df "frequency" "#10b981";
               field_cell df "monetary" "#f59e0b";
               field_cell df "time" "#a855f7"]
          "Blood Donation Data - Distribution Analysis".
Proof.
  unfold blood_histograms, blood_fields, field_cell. cbn [draw_fields].
  destruct (in_columns "recency" df), (in_columns "frequency" df),
    (in_columns "monetary" df), (in_columns "time" df); reflexivity.
Qed.

(** X19. When the class total of the records is not zero (or they have no
    class column), the blood-data report produces its panels in the fixed
    order histogram grid, frequency-vs-monetary scatter, class
    distribution, recency-vs-frequency scatter, each only when its fields
    are present in the records (the grid always, with a histogram for each
    present field among recency, frequency, monetary and time); an absent
    field skips its panel without error, and the count of the response is
    the number of image data returned. *)
Theorem report_panels_of_present_fields (backend : Figure -> option png)
    (data : BloodDataRequest) (w : World) :
  default [] (blood_data data) <> [] ->
  renders_report backend (default [] (blood_data data)) ->
  no_directories w ->
  percentages_defined (default [] (blood_data data)) ->
  report_of_present_fields backend data w.
Proof.
  intros Hrec [Hb Hbars] Hw Hp. unfold report_of_present_fields. cbv zeta.
  set (df := default [] (blood_data data)) in *.
  split; [|split; [|split]].
  - set (p2 := if in_columns "frequency" df && in_columns "monetary" df
                  && in_columns "class" df
               then [("frequency_vs_monetary", frequency_vs_monetary df)]
               else []).
    set (p3 := if in_columns "class" df
               then [("class_distribution", class_bars df (class_texts df))]
               else []).
    set (p4 := if in_columns "recency" df && in_columns "frequency" df
               then [("recency_vs_frequency", recency_vs_frequency df)]
               else []).
    assert (He : expected_panels df
                 = ([("blood_histograms", blood_histograms df)]
                    ++ p2 ++ p3 ++ p4)%list) by reflexivity.
    rewrite He in Hb.
    assert (Hb1 : is_Some (backend (blood_histograms df)))
      by (apply (Hb ("blood_histograms", blood_histograms df)); now left).
    assert (Hb2 : in_columns "frequency" df && in_columns "monetary" df
                  && in_columns "class" df = true ->
                  is_Some (backend (frequency_vs_monetary df))).
    { intros Hc.
      apply (Hb ("frequency_vs_monetary", frequency_vs_monetary df)).
      apply in_or_app. right. apply in_or_app. left.
      unfold p2. rewrite Hc. now left. }
    assert (Hb3 : in_columns "class" df = true ->
                  is_Some (backend (class_bars df [])) /\
                  is_Some (backend (class_bars df (class_texts df)))).
    { intros Hc. split; [now apply Hbars|].
      apply (Hb ("class_distribution", class_bars df (class_texts df))).
      apply in_or_app. right. apply in_or_app. right.
      apply in_or_app. left. unfold p3. rewrite Hc. now left. }
    assert (Hb4 : in_columns "recency" df && in_columns "frequency" df = true ->
                  is_Some (backend (recency_vs_frequency df))).
    { intros Hc.
      apply (Hb ("recency_vs_frequency", recency_vs_frequency df)).
      apply in_or_app. right. apply in_or_app. right.
      apply in_or_app. right. unfold p4. rewrite Hc. now left. }
    unfold visualize_blood_data, try_except. cbv zeta. fold df.
    rewrite (is_empty_false df Hrec).
    destruct Hb1 as [bytes1 Hb1].
    rewrite (draw_save_ok _ _ _ _ _ bytes1 Hb1
               (no_directories_writable _ _ Hw)).
    set (w1 := after_put (blood_histograms df) _ bytes1 w).
    assert (Hw1 : no_directories w1)
      by (apply no_directories_after_put; exact Hw).
    erewrite bind_return by (apply optional_panel; assumption).
    fold p2.
    assert (Hw2 : no_directories (snd (put_all backend p2 w1)))
      by (apply put_all_no_directories; exact Hw1).
    erewrite bind_return by (apply class_panel; assumption).
    fold p3.
    assert (Hw3 : no_directories
                    (snd (put_all backend p3 (snd (put_all backend p2 w1)))))
      by (apply put_all_no_directories; exact Hw2).
    erewrite bind_return by (apply optional_panel; assumption).
    fold p4.
    rewrite He, !put_all_app. cbn [put_all fst snd]. rewrite Hb1.
    cbn [default fst snd app]. rewrite <- !app_assoc. reflexivity.
  - apply put_all_length.
  - apply put_all_names.
  - apply blood_histograms_cells.
Qed.

(** Inversion of the steps of a report that was answered. *)
Lemma bind_returns {A B} (m : M A) (k : A -> M B) w b w' :
  (m ≫= k) w = (Return b, w') ->
  exists a w1, m w = (Return a, w1) /\ k a w1 = (Return b, w').
Proof.
  unfold mbind, M_bind. destruct (m w) as [[a|e] w1]; [|discriminate].
  intros H. now exists a, w1.
Qed.

Lemma draw_save_returns backend fig prefix w d w' :
  (draw backend fig ≫= fun _ => save_figure backend fig prefix) w
  = (Return d, w') ->
  exists hex, d_filename d = image_name prefix hex.
Proof.
  intros H. apply bind_returns in H as (u & w1 & Hu & H).
  rewrite save_figure_eq in H.
  destruct (backend fig) as [bytes|]; [|discriminate].
  destruct (store w1 !! _) as [[mtime content|mtime]|];
    try discriminate; injection H as <- _; eexists; reflexivity.
Qed.

Lemma optional_panel_returns backend (present : bool) fig prefix
    (visualizations vs' : list Descriptor) w w' :
  (if present
   then draw backend fig ≫= fun _ =>
        save_figure backend fig prefix ≫= fun viz =>
        mret (visualizations ++ [viz])%list
   else mret visualizations) w = (Return vs', w') ->
  exists ds,
    vs' = (visualizations ++ ds)%list /\
    Forall2 (fun d panel => exists hex, d_filename d = image_name panel.1 hex)
            ds (if present then [(prefix, fig)] else []).
Proof.
  destruct present.
  - intros H. apply bind_returns in H as (u & w1 & Hd & H).
    apply bind_returns in H as (viz & w2 & Hs & H).
    injection H as <- _. exists [viz]. split; [reflexivity|].
    constructor; [|constructor].
    apply (draw_save_returns backend fig prefix w viz w2).
    now erewrite bind_return by exact Hd.
  - intros H. injection H as <- _. exists []. split; [|constructor].
    now rewrite app_nil_r.
Qed.

Lemma percent_texts_returns total values w texts w' :
  percent_texts total values w = (Return texts, w') ->
  values = [] \/ total <> 0%nat.
Proof.
  destruct values as [|val values]; [now left|]. simpl.
  destruct (total =? 0)%nat eqn:Ht; [discriminate|].
  intros _. right. now apply Nat.eqb_neq.
Qed.

Lemma class_distribution_returns backend df w fig3 w' :
  class_distribution backend df w = (Return fig3, w') ->
  fig3 = class_bars df (class_texts df).
Proof.
  unfold class_distribution. intros H.
  apply bind_returns in H as (u & w1 & Hu & H). cbn [foldr] in H.
  rewrite Nat.add_0_r in H.
  apply bind_returns in H as (texts & w2 & Ht & H).
  injection H as <- _.
  destruct (percent_texts_returns _ _ _ _ _ Ht) as [Hnil|Hne];
    [discriminate|].
  rewrite (percent_texts_defined _ _ w1 Hne) in Ht. injection Ht as <- _.
  reflexivity.
Qed.

(** Whatever the backend and the store, a report that is answered holds
    the image data of the expected panels, in their order, and their
    number as count: no panel is emitted whose fields are absent. *)
Lemma report_only_expected_panels backend data w count visualizations w' :
  visualize_blood_data backend data w
  = (JsonReport count visualizations, w') ->
  count = length visualizations /\
  Forall2 (fun d panel => exists hex, d_filename d = image_name panel.1 hex)
          visualizations (expected_panels (default [] (blood_data data))).
Proof.
  unfold visualize_blood_data, try_except. cbv zeta.
  set (df := default [] (blood_data data)).
  destruct (is_empty df); [discriminate|].
  match goal with
  | |- (let (_, _) := ?body w in _) = _ -> _ =>
      destruct (body w) as [[r|e] w0] eqn:Hbody; [|discriminate]
  end.
  intros H. injection H as -> ->.
  apply bind_returns in Hbody as (u & w1 & Hd1 & H).
  apply bind_returns in H as (viz1 & w2 & Hs1 & H).
  apply bind_returns in H as (vs2 & w3 & H2 & H).
  apply bind_returns in H as (vs3 & w4 & H3 & H).
  apply bind_returns in H as (vs4 & w5 & H4 & H).
  injection H as <- <- _. split; [reflexivity|].
  apply optional_panel_returns in H2 as (ds2 & -> & Hf2).
  apply optional_panel_returns in H4 as (ds4 & -> & Hf4).
  assert (Hf1 : exists hex, d_filename viz1 = image_name "blood_histograms" hex).
  { apply (draw_save_returns backend (blood_histograms df) _ w viz1 w2).
    now erewrite bind_return by exact Hd1. }
  assert (Hf3 : exists ds3,
             vs3 = (([viz1] ++ ds2) ++ ds3)%list /\
             Forall2 (fun d panel =>
                        exists hex, d_filename d = image_name panel.1 hex)
               ds3 (if in_columns "class" df
                    then [("class_distribution",
                           class_bars df (class_texts df))]
                    else [])).
  { destruct (in_columns "class" df).
    - apply bind_returns in H3 as (fig3 & w6 & Hc & H3).
      apply class_distribution_returns in Hc as ->.
      apply bind_returns in H3 as (viz3 & w7 & Hs3 & H3).
      injection H3 as <- _. exists [viz3]. split; [reflexivity|].
      constructor; [|constructor].
      rewrite save_figure_eq in Hs3.
      destruct (backend _) as [bytes|]; [|discriminate].
      destruct (store w6 !! _) as [[mtime content|mtime]|];
        try discriminate; injection Hs3 as <- _; eexists; reflexivity.
    - injection H3 as <- _. exists []. split; [|constructor].
      now rewrite app_nil_r. }
  destruct Hf3 as (ds3 & -> & Hf3).
  unfold expected_panels. fold df.
  rewrite <- !app_assoc. cbn [app].
  constructor; [exact Hf1|].
  repeat (apply Forall2_app; [assumption|]). exact Hf4.
Qed.

Lemma report_panels_of_present_fields_witness :
  default [] (blood_data recency_frequency_only) <> [] /\
  renders_report blank_backend
    (default [] (blood_data recency_frequency_only)) /\
  no_directories example_world /\
  percentages_defined (default [] (blood_data recency_frequency_only)) /\
  report_of_present_fields blank_backend recency_frequency_only example_world.
Proof.
  assert (H1 : default [] (blood_data recency_frequency_only) <> [])
    by discriminate.
  assert (H2 : renders_report blank_backend
                 (default [] (blood_data recency_frequency_only)))
    by (split; intros; now eexists).
  assert (H3 : no_directories example_world)
    by (intros name mtime; simpl; now rewrite lookup_empty).
  assert (H4 : percentages_defined
                 (default [] (blood_data recency_frequency_only)))
    by (intros H; vm_compute in H; discriminate).
  repeat (split; [assumption|]).
  apply (report_panels_of_present_fields blank_backend recency_frequency_only
           example_world H1 H2 H3 H4).
Defined.

(** The claim's example: records with only recency and frequency give the
    histogram grid and the recency-vs-frequency scatter, count 2. *)
Example recency_frequency_only_count :
  exists d1 d2,
    fst (visualize_blood_data blank_backend recency_frequency_only
           example_world) = JsonReport 2 [d1; d2] /\
    d_filename d1 = "blood_histograms_01234567.png" /\
    d_filename d2 = "recency_vs_frequency_01234567.png".
Proof.
  eexists _, _. vm_compute. repeat split.
Qed.

(** C2. Where the report misses the claim. The records of
    [class_two_only] hold recency, frequency and a class, and no record has
    class 0 or 1: the panels to produce are the histogram grid, the class
    distribution and the recency-vs-frequency scatter, count 3. The report
    stores the grid, fails on the percentages of the class distribution
    with a division by zero and answers 500: no panel is listed, and the
    image of the grid stays in the store. *)
Lemma C2_class_panel_failure :
  default [] (blood_data class_two_only) <> [] /\
  map fst (expected_panels (default [] (blood_data class_two_only)))
  = ["blood_histograms"; "class_distribution"; "recency_vs_frequency"] /\
  fst (visualize_blood_data blank_backend class_two_only example_world)
  = JsonError500 ZeroDivisionError /\
  status_code
    (fst (visualize_blood_data blank_backend class_two_only example_world))
  = 500%Z /\
  store (snd (visualize_blood_data blank_backend class_two_only
                example_world)) !! "blood_histograms_01234567.png"
  = Some (File 1700000000000000 []) /\
  size (store (snd (visualize_blood_data blank_backend class_two_only
                      example_world))) = 1%nat.
Proof.
  split; [discriminate|].
  repeat split; vm_compute; reflexivity.
Qed.

(** ** The zero total of the class-distribution panel *)

Lemma raises_bind_l {A B} (m : M A) (k : A -> M B) :
  raises m -> raises (m ≫= k).
Proof.
  intros Hm w. destruct (Hm w) as (e & w' & H).
  exists e, w'. now apply bind_raise.
Qed.

Lemma raises_bind_r {A B} (m : M A) (k : A -> M B) :
  (forall a, raises (k a)) -> raises (m ≫= k).
Proof.
  intros Hk w. unfold mbind, M_bind.
  destruct (m w) as [[a|e] w'].
  - apply Hk.
  - now exists e, w'.
Qed.

Lemma try_except_raises (m : M Response) (w : World) :
  raises m -> exists e, fst (try_except m w) = JsonError500 e.
Proof.
  intros Hm. destruct (Hm w) as (e & w' & H).
  exists e. unfold try_except. now rewrite H.
Qed.

Lemma class_count_none (c : Q) (df : list (gmap string Q)) :
  (forall r c', In r df -> r !! "class" = Some c' -> ~ (c' == c)%Q) ->
  class_count c df = 0%nat.
Proof.
  intros H. unfold class_count, records_of_class.
  induction df as [|r df IH]; [reflexivity|]. simpl.
  destruct (r !! "class") as [c'|] eqn:Hr.
  - destruct (Qeq_bool c' c) eqn:Hc.
    + apply Qeq_bool_iff in Hc. now destruct (H r c' (or_introl eq_refl) Hr).
    + apply IH. intros r' c'' Hin. apply H. now right.
  - apply IH. intros r' c'' Hin. apply H. now right.
Qed.

Lemma class_distribution_zero backend df w :
  (class_count 0 df + class_count 1 df = 0)%nat ->
  class_distribution backend df w
  = (Raise match backend (class_bars df []) with
           | Some _ => ZeroDivisionError
           | None => BackendError
           end, w).
Proof.
  intros Ht. unfold class_distribution, draw.
  destruct (backend (class_bars df [])) as [bytes|]; [|reflexivity].
  erewrite bind_return by reflexivity.
  cbn [foldr]. rewrite Nat.add_0_r, Ht. reflexivity.
Qed.

(** C10. When the records have a class column and no record has class 0
    or 1, the percentages of the class-distribution panel divide by a zero
    total: the request is answered with a 500 error and no list of image
    data, although the records pass the validation of the handler. *)
Theorem C10_zero_class_total (backend : Figure -> option png)
    (data : BloodDataRequest) (w : World) :
  default [] (blood_data data) <> [] ->
  no_donor_class (default [] (blood_data data)) ->
  zero_total_failure backend data w.
Proof.
  intros Hrec [Hcol Hcls]. unfold zero_total_failure. cbv zeta.
  set (df := default [] (blood_data data)) in *.
  assert (Ht : (class_count 0 df + class_count 1 df = 0)%nat).
  { rewrite !class_count_none; [reflexivity| |];
      intros r c Hin Hr; now destruct (Hcls r c Hin Hr). }
  assert (Hraise : raises (class_distribution backend df)).
  { intros w'. eexists _, _. now apply class_distribution_zero. }
  assert (H500 : exists e,
             fst (visualize_blood_data backend data w) = JsonError500 e).
  { unfold visualize_blood_data. cbv zeta. fold df.
    rewrite (is_empty_false df Hrec), Hcol.
    apply try_except_raises.
    apply raises_bind_r; intros _. apply raises_bind_r; intros viz1.
    apply raises_bind_r; intros vs. apply raises_bind_l.
    apply raises_bind_l. exact Hraise. }
  split; [exact Ht|]. split; [exact H500|]. split.
  { destruct H500 as [e ->]. reflexivity. }
  intros Hb Hw.
  unfold visualize_blood_data, try_except. cbv zeta. fold df.
  rewrite (is_empty_false df Hrec).
  destruct (Hb (blood_histograms df)) as [bytes1 Hb1].
  rewrite (draw_save_ok _ _ _ _ _ bytes1 Hb1 (no_directories_writable _ _ Hw)).
  set (w1 := after_put (blood_histograms df) _ bytes1 w).
  assert (Hw1 : no_directories w1)
    by (apply no_directories_after_put; exact Hw).
  erewrite bind_return
    by (apply optional_panel; [intros _; apply Hb|assumption]).
  rewrite Hcol.
  erewrite bind_raise; [reflexivity|].
  erewrite bind_raise; [reflexivity|].
  rewrite (class_distribution_zero _ _ _ Ht).
  destruct (Hb (class_bars df [])) as [bytes ->]. reflexivity.
Qed.

Lemma C10_zero_class_total_witness :
  default [] (blood_data class_two_only) <> [] /\
  no_donor_class (default [] (blood_data class_two_only)) /\
  zero_total_failure blank_backend class_two_only example_world.
Proof.
  assert (H1 : default [] (blood_data class_two_only) <> []) by discriminate.
  assert (H2 : no_donor_class (default [] (blood_data class_two_only))).
  { split; [vm_compute; reflexivity|].
    intros r c [<-|[]] Hc. vm_compute in Hc. injection Hc as <-.
    split; discriminate. }
  repeat (split; [assumption|]).
  apply (C10_zero_class_total blank_backend class_two_only example_world H1 H2).
Defined.

(** ** Validation *)

Lemma missing_or_empty_default {A} (o : option (list A)) :
  missing_or_empty o <-> default [] o = [].
Proof.
  unfold missing_or_empty. destruct o as [[|a l]|]; simpl; split;
    intros H; try reflexivity; try (now left); try (now right);
    try discriminate.
  destruct H; discriminate.
Qed.

(** C1, as the handlers implement it. A chart request whose required
    top-level array is missing or empty (the data of a histogram, the x or
    the y coordinates of a scatter plot, the categories or the values of a
    bar chart, the records of a blood-data report), or a multi-histogram
    with fewer than two datasets, is answered 400 before anything is
    drawn: the answer is the same for every backend and the world is left
    untouched. *)
Theorem C1_missing_input_rejected (req : Request) :
  lacks_required_input req -> rejected_untouched req.
Proof.
  intros H backend w. destruct req as [d|d|d|d|d]; simpl in *.
  - apply missing_or_empty_default in H.
    unfold generate_histogram, try_except. cbv zeta. now rewrite H.
  - unfold generate_scatter, try_except. cbv zeta.
    destruct H as [H|H]; apply missing_or_empty_default in H; rewrite H.
    + reflexivity.
    + now destruct (default [] (sc_x_data d)).
  - unfold generate_multi_histogram, try_except. cbv zeta.
    now rewrite (proj2 (Nat.ltb_lt _ _) H).
  - unfold generate_bar_chart, try_except. cbv zeta.
    destruct H as [H|H]; apply missing_or_empty_default in H; rewrite H.
    + reflexivity.
    + now destruct (default [] (bar_categories d)).
  - apply missing_or_empty_default in H.
    unfold visualize_blood_data, try_except. cbv zeta. now rewrite H.
Qed.

Lemma C1_missing_input_rejected_witness :
  lacks_required_input (PostHistogram no_data) /\
  rejected_untouched (PostHistogram no_data).
Proof.
  assert (H : lacks_required_input (PostHistogram no_data))
    by (right; reflexivity).
  split; [exact H|].
  apply (C1_missing_input_rejected (PostHistogram no_data) H).
Defined.

(** The claim as stated fails: the handlers check neither the lengths of
    paired arrays nor the bin count. Such requests are not answered 400;
    they reach pandas or the plotting backend, and an error raised there
    is answered 500. *)
Lemma C1_unchecked_requests_counterexample :
  fst (generate_scatter refusing_backend mismatched_xy example_world)
  = JsonError500 BackendError /\
  fst (generate_scatter blank_backend mismatched_classes example_world)
  = JsonError500 ValueError /\
  fst (generate_histogram refusing_backend zero_bins example_world)
  = JsonError500 BackendError /\
  fst (generate_bar_chart refusing_backend mismatched_bars example_world)
  = JsonError500 BackendError /\
  status_code
    (fst (generate_scatter blank_backend mismatched_xy example_world))
  = 200%Z /\
  store (snd (generate_scatter blank_backend mismatched_xy example_world))
  <> ∅.
Proof.
  repeat split; try (vm_compute; reflexivity).
  vm_compute. discriminate.
Qed.

Lemma never_400_ret (r : Response) :
  status_code r <> 400%Z -> never_400 (mret r).
Proof.
  intros H w r' w' E. injection E as <- _. exact H.
Qed.

Lemma never_400_bind {A} (m : M A) (k : A -> M Response) :
  (forall a, never_400 (k a)) -> never_400 (m ≫= k).
Proof.
  intros Hk w r w'. unfold mbind, M_bind.
  destruct (m w) as [[a|e] w1]; [apply Hk|discriminate].
Qed.

Lemma try_except_never_400 (m : M Response) (w : World) :
  never_400 m -> status_code (fst (try_except m w)) <> 400%Z.
Proof.
  intros Hm. unfold try_except.
  destruct (m w) as [[r|e] w'] eqn:E; simpl; [|discriminate].
  exact (Hm w r w' E).
Qed.

Lemma not_missing_or_empty {A} (o : option (list A)) :
  ~ missing_or_empty o -> is_empty (default [] o) = false.
Proof.
  intros H. apply is_empty_false. intros E.
  apply H, missing_or_empty_default, E.
Qed.

(** Conversely, a request that has its required input is never answered
    400: validation has nothing else to refuse. *)
Lemma accepted_not_400 (req : Request) backend w :
  ~ lacks_required_input req ->
  status_code (fst (route backend req w)) <> 400%Z.
Proof.
  intros H. destruct req as [d|d|d|d|d]; simpl in *.
  - unfold generate_histogram. cbv zeta.
    rewrite (not_missing_or_empty _ H).
    apply try_except_never_400.
    apply never_400_bind; intros _. apply never_400_bind; intros viz.
    now apply never_400_ret.
  - unfold generate_scatter. cbv zeta.
    rewrite !not_missing_or_empty by tauto. cbn [orb].
    apply try_except_never_400.
    apply never_400_bind; intros fig.
    apply never_400_bind; intros _. apply never_400_bind; intros viz.
    now apply never_400_ret.
  - unfold generate_multi_histogram. cbv zeta.
    rewrite (proj2 (Nat.ltb_ge _ _)) by lia.
    apply try_except_never_400.
    apply never_400_bind; intros _. apply never_400_bind; intros viz.
    now apply never_400_ret.
  - unfold generate_bar_chart. cbv zeta.
    rewrite !not_missing_or_empty by tauto. cbn [orb].
    apply try_except_never_400.
    apply never_400_bind; intros _. apply never_400_bind; intros texts.
    apply never_400_bind; intros viz.
    now apply never_400_ret.
  - unfold visualize_blood_data. cbv zeta.
    rewrite (not_missing_or_empty _ H).
    apply try_except_never_400.
    apply never_400_bind; intros _. apply never_400_bind; intros viz1.
    apply never_400_bind; intros vs2. apply never_400_bind; intros vs3.
    apply never_400_bind; intros vs4.
    now apply never_400_ret.
Qed.

(** ** File names *)

Lemma string_app_length (s t : string) :
  String.length (s +:+ t) = (String.length s + String.length t)%nat.
Proof.
  induction s as [|c s IH]; simpl; [reflexivity|]. now rewrite IH.
Qed.

Lemma string_app_inv_tail (s t1 t2 : string) :
  t1 +:+ s = t2 +:+ s -> t1 = t2.
Proof.
  revert t2. induction t1 as [|c t1 IH]; intros [|c' t2] H; simpl in H.
  - reflexivity.
  - apply (f_equal String.length) in H.
    rewrite !string_app_length in H. simpl in H. lia.
  - apply (f_equal String.length) in H.
    rewrite !string_app_length in H. simpl in H. lia.
  - injection H as -> H. f_equal. now apply IH.
Qed.

(** Two image names with the same prefix are equal exactly when the first
    eight digits of their UUIDs are. *)
Lemma image_name_eq (prefix hex1 hex2 : string) :
  image_name prefix hex1 = image_name prefix hex2
  <-> substring 0 8 hex1 = substring 0 8 hex2.
Proof.
  unfold image_name. split; [|now intros ->].
  intros H. apply (inj (String.app prefix)) in H.
  apply (inj (String.app "_")) in H.
  now apply string_app_inv_tail in H.
Qed.

(** X20. A put stores the image under the prefix followed by the first
    eight hexadecimal digits of a fresh UUID, without looking at the
    store: it changes no other name, and its name differs from another
    name of the same prefix exactly when those eight digits differ. *)
Theorem put_names_by_token (backend : Figure -> option png) (fig : Figure)
    (prefix : string) (w : World) (d : Descriptor) (w' : World) :
  save_figure backend fig prefix w = (Return d, w') ->
  put_outcome prefix w d w'.
Proof.
  rewrite save_figure_eq. intros H.
  assert (H' : exists bytes,
            d = image_data_of (next_name prefix w) bytes (clock w) /\
            w' = after_put fig (next_name prefix w) bytes w).
  { destruct (backend fig) as [bytes|]; [|discriminate].
    destruct (store w !! _) as [[mtime content|mtime]|];
      try discriminate; injection H as <- <-; now exists bytes. }
  destruct H' as (bytes & -> & ->). unfold put_outcome, next_name. simpl.
  split; [reflexivity|]. split; [apply lookup_insert_eq|].
  split; [intros name Hne; now apply lookup_insert_ne|].
  split; [reflexivity|].
  intros hex. apply image_name_eq.
Qed.

Lemma put_names_by_token_witness :
  save_figure blank_backend (recency_vs_frequency []) "scatter" example_world
  = (Return (image_data_of (next_name "scatter" example_world) []
               (clock example_world)),
     after_put (recency_vs_frequency []) (next_name "scatter" example_world)
       [] example_world) /\
  put_outcome "scatter" example_world
    (image_data_of (next_name "scatter" example_world) []
       (clock example_world))
    (after_put (recency_vs_frequency []) (next_name "scatter" example_world)
       [] example_world).
Proof.
  assert (H : save_figure blank_backend (recency_vs_frequency []) "scatter"
                example_world
              = (Return (image_data_of (next_name "scatter" example_world)
                           [] (clock example_world)),
                 after_put (recency_vs_frequency [])
                   (next_name "scatter" example_world) [] example_world))
    by (vm_compute; reflexivity).
  split; [exact H|].
  apply (put_names_by_token blank_backend (recency_vs_frequency []) "scatter"
           example_world _ _ H).
Defined.

(** C5. Where [save_figure] misses the claim, and its own comment
    "Generate unique filename": nothing but the first eight digits of the
    UUID tells two names apart, and the store is not looked at. With two
    UUIDs (version 4) that differ and share their first eight digits, the
    same histogram request served twice gets the same file name twice, and
    the second image replaces the first in the store, which holds one
    file after two puts. *)
Lemma C5_name_collision :
  entropy colliding_world 0 <> entropy colliding_world 1 /\
  response_filename (fst (fst served_twice))
  = Some "histogram_01234567.png" /\
  response_filename (fst (snd served_twice))
  = Some "histogram_01234567.png" /\
  store (snd (fst served_twice)) !! "histogram_01234567.png"
  = Some (File 1700000000000000 []) /\
  store (snd (snd served_twice)) !! "histogram_01234567.png"
  = Some (File 1700000001000000 []) /\
  size (store (snd (snd served_twice))) = 1%nat.
Proof.
  repeat split; try (vm_compute; reflexivity).
  vm_compute. discriminate.
Qed.

(** ** The sweep, running alone *)

Lemma older_than_24h_spec (now mtime : Z) :
  older_than_24h now mtime = true <-> (retention < now - mtime)%Z.
Proof.
  unfold older_than_24h, total_seconds, retention.
  rewrite negb_true_iff, <- not_true_iff_false, Qle_bool_iff.
  unfold Qle. simpl. lia.
Qed.

Lemma set_store_id (w : World) : set_store (store w) w = w.
Proof.
  now destruct w.
Qed.

(** One turn of the loop without interference. *)
Lemma sweep_entry_quiet (now : Z) (name : string) (deleted : nat) (w : World) :
  sweep_entry quiet now name deleted w
  = if decide (expired_at now (store w) name)
    then (Return (S deleted), set_store (delete name (store w)) w)
    else (Return deleted, w).
Proof.
  destruct w as [s t ent dr rd].
  unfold sweep_entry, concurrently, quiet, os_path_isfile, os_path_getmtime,
    os_remove, mbind, M_bind, mret, M_ret, set_store.
  cbn -[older_than_24h].
  destruct (decide _) as [He|He]; unfold expired_at in He;
    cbn -[older_than_24h] in He;
    destruct (s !! name) as [[mtime content|mtime]|] eqn:Hs;
    cbn -[older_than_24h] in *; try contradiction; try reflexivity.
  - rewrite Hs. cbn -[older_than_24h].
    rewrite (proj2 (older_than_24h_spec now mtime) He).
    cbn. now rewrite Hs.
  - rewrite Hs. cbn -[older_than_24h].
    destruct (older_than_24h now mtime) eqn:Ho; [|reflexivity].
    apply older_than_24h_spec in Ho. contradiction.
Qed.

Lemma filter_agree {A} (P Q : A -> Prop) `{!forall x, Decision (P x)}
    `{!forall x, Decision (Q x)} (l : list A) :
  (forall x, x ∈ l -> P x <-> Q x) -> filter P l = filter Q l.
Proof.
  induction l as [|a l IH]; intros Hag; [reflexivity|].
  rewrite !filter_cons, IH by (intros x Hx; apply Hag; now right).
  pose proof (Hag a (list_elem_of_here a l)) as [H1 H2].
  destruct (decide (P a)) as [Hp|Hp], (decide (Q a)) as [Hq|Hq];
    try reflexivity; tauto.
Qed.

(** The store after the turn of an expired name, and of any other. *)
Lemma sweep_store_deleted (now : Z) (s : gmap string Entry) name names :
  expired_at now s name ->
  filter (fun kv => ~ (kv.1 ∈ names /\ expired now kv.2)) (delete name s)
  = filter (fun kv => ~ (kv.1 ∈ name :: names /\ expired now kv.2)) s.
Proof.
  intros He. apply map_filter_strong_ext_1. intros k e. simpl.
  rewrite lookup_delete_Some, elem_of_cons. unfold expired_at in He.
  split.
  - intros (Hn & Hne & Hk). split; [|exact Hk].
    intros ([->|Hin] & Hexp); [congruence|]. apply Hn. now split.
  - intros (Hn & Hk). split; [|split; [|exact Hk]].
    + intros (Hin & Hexp). apply Hn. split; [now right|exact Hexp].
    + intros ->. rewrite Hk in He. apply Hn. split; [now left|exact He].
Qed.

Lemma sweep_store_kept (now : Z) (s : gmap string Entry) name names :
  ~ expired_at now s name ->
  filter (fun kv => ~ (kv.1 ∈ names /\ expired now kv.2)) s
  = filter (fun kv => ~ (kv.1 ∈ name :: names /\ expired now kv.2)) s.
Proof.
  intros He. apply map_filter_strong_ext_1. intros k e. simpl.
  rewrite elem_of_cons. unfold expired_at in He.
  split; intros (Hn & Hk); (split; [|exact Hk]).
  - intros ([->|Hin] & Hexp).
    + rewrite Hk in He. contradiction.
    + apply Hn. now split.
  - intros (Hin & Hexp). apply Hn. split; [now right|exact Hexp].
Qed.

(** The loop over a list of distinct names, without interference: the
    expired names are deleted and counted, the others left alone. *)
Lemma sweep_quiet (now : Z) (names : list string) :
  NoDup names ->
  forall deleted w,
    sweep quiet now names deleted w
    = (Return (deleted + length (filter (expired_at now (store w)) names))%nat,
       set_store
         (filter (fun kv => ~ (kv.1 ∈ names /\ expired now kv.2)) (store w))
         w).
Proof.
  induction 1 as [|name names Hnotin Hnodup IH]; intros deleted w.
  - simpl. unfold mret, M_ret. f_equal; [f_equal; lia|].
    rewrite map_filter_id, set_store_id; [reflexivity|].
    intros k e _ [Hin _]. inversion Hin.
  - cbn [sweep]. unfold mbind, M_bind. rewrite sweep_entry_quiet.
    destruct (decide (expired_at now (store w) name)) as [He|He].
    + rewrite IH. cbn [store set_store].
      rewrite (sweep_store_deleted now (store w) name names He).
      rewrite (filter_cons_True _ _ _ He). cbn [length].
      rewrite (filter_agree (expired_at now (delete name (store w)))
                 (expired_at now (store w)) names).
      * f_equal. f_equal. lia.
      * intros k Hk. unfold expired_at.
        rewrite lookup_delete_ne; [reflexivity|]. intros ->. contradiction.
    + rewrite IH, (sweep_store_kept now (store w) name names He).
      now rewrite (filter_cons_False _ _ _ He).
Qed.

(** The expired names of the listing are the expired entries. *)
Lemma expired_names_count (now : Z) (s : gmap string Entry)
    (l : list (string * Entry)) :
  (forall k e, (k, e) ∈ l -> s !! k = Some e) ->
  length (filter (expired_at now s) l.*1)
  = length (filter (fun kv : string * Entry => expired now kv.2) l).
Proof.
  induction l as [|[k e] l IH]; intros H; [reflexivity|].
  rewrite fmap_cons, !filter_cons. cbn [fst snd].
  assert (Hk : s !! k = Some e) by (apply H; left).
  assert (Hiff : expired_at now s k <-> expired now e)
    by (unfold expired_at; now rewrite Hk).
  specialize (IH (fun k' e' Hin => H k' e' (list_elem_of_further _ _ _ Hin))).
  destruct (decide (expired_at now s k)), (decide (expired now e));
    cbn [length]; try tauto; now rewrite IH.
Qed.

Lemma NoDup_filter_fst {A B} (P : A * B -> Prop) `{!forall x, Decision (P x)}
    (l : list (A * B)) :
  NoDup l.*1 -> NoDup (filter P l).*1.
Proof.
  induction l as [|[a b] l IH]; intros Hl; [constructor|].
  rewrite fmap_cons in Hl. apply NoDup_cons in Hl as [Hnotin Hnodup].
  rewrite filter_cons. destruct (decide (P (a, b))); [|now apply IH].
  rewrite fmap_cons. apply NoDup_cons. split; [|now apply IH].
  intros Hin. apply Hnotin.
  apply list_elem_of_fmap in Hin as ([a' b'] & -> & Hin).
  apply list_elem_of_filter in Hin as [_ Hin].
  apply list_elem_of_fmap. now exists (a', b').
Qed.

Lemma swept_size (now : Z) (s : gmap string Entry) :
  size (swept now s)
  = length (filter (expired_at now s) (map_to_list s).*1).
Proof.
  unfold swept. rewrite map_filter_alt, map_size_list_to_map.
  - symmetry. apply expired_names_count.
    intros k e. apply elem_of_map_to_list.
  - apply NoDup_filter_fst, NoDup_fst_map_to_list.
Qed.

(** A sweep that runs alone deletes exactly the expired entries and
    reports their number. *)
Lemma cleanup_quiet (w : World) :
  cleanup_old_images quiet w
  = (JsonCleanup (size (swept (clock w) (store w))),
     set_store (kept (clock w) (store w)) w).
Proof.
  unfold cleanup_old_images, try_except, datetime_now, os_listdir.
  unfold mbind, M_bind, mret, M_ret.
  rewrite (sweep_quiet (clock w) _ (NoDup_fst_map_to_list (store w))).
  rewrite swept_size. cbn [Nat.add]. f_equal. f_equal. unfold kept.
  apply map_filter_strong_ext_1. intros k e. simpl.
  split; intros (Hn & Hk); (split; [|exact Hk]).
  - intros Hexp. apply Hn. split; [|exact Hexp].
    apply list_elem_of_fmap. exists (k, e). split; [reflexivity|].
    now apply elem_of_map_to_list.
  - intros (_ & Hexp). contradiction.
Qed.

Lemma swept_none (now : Z) (s : gmap string Entry) :
  (forall k e, s !! k = Some e -> ~ expired now e) -> swept now s = ∅.
Proof.
  intros H. apply map_eq. intros k. rewrite lookup_empty.
  apply map_lookup_filter_None_2. right. intros e He Hexp.
  exact (H k e He Hexp).
Qed.

Lemma kept_all (now : Z) (s : gmap string Entry) :
  (forall k e, s !! k = Some e -> ~ expired now e) -> kept now s = s.
Proof.
  intros H. apply map_filter_id. intros k e He. exact (H k e He).
Qed.

Lemma kept_not_expired (now : Z) (s : gmap string Entry) k e :
  kept now s !! k = Some e -> ~ expired now e.
Proof.
  intros H. now apply map_lookup_filter_Some in H as [_ H].
Qed.

Lemma fresh_not_expired (now : Z) (content : png) :
  ~ expired now (File now content).
Proof.
  simpl. unfold retention. lia.
Qed.

(** C4. A sweep that runs alone deletes exactly the entries whose age
    exceeds the 24-hour retention window and reports their number; an
    image just put is kept (and a sweep right after a put into an empty
    store deletes nothing); a single entry aged 25 hours is deleted and
    counted once; a second sweep at once after a first deletes nothing. *)
Theorem C4_sweep_retention (w : World) : sweep_contract w.
Proof.
  unfold sweep_contract. split; [apply cleanup_quiet|].
  split; [|split; [|split]].
  - intros backend fig prefix. rewrite save_figure_eq.
    destruct (backend fig) as [bytes|]; [|exact I].
    destruct (store w !! next_name prefix w) as [[mtime content|mtime]|];
      try exact I; rewrite cleanup_quiet; cbn;
      (apply map_lookup_filter_Some_2;
       [apply lookup_insert_eq|apply fresh_not_expired]).
  - intros backend fig prefix. rewrite save_figure_eq.
    destruct (backend fig) as [bytes|]; [|exact I].
    cbn [store set_store]. rewrite lookup_empty, cleanup_quiet. cbn.
    rewrite swept_none; [now rewrite map_size_empty|].
    intros k e He. apply lookup_insert_Some in He as [[_ <-]|[_ He]].
    + apply fresh_not_expired.
    + now rewrite lookup_empty in He.
  - intros name content. rewrite cleanup_quiet. cbn [store clock set_store].
    unfold swept, kept.
    rewrite map_filter_singleton_True, map_filter_singleton_False.
    + now rewrite map_size_singleton.
    + intros H. apply H. simpl. unfold retention. lia.
    + simpl. unfold retention. lia.
  - rewrite !cleanup_quiet. cbn [snd store clock set_store].
    rewrite swept_none, kept_all by apply kept_not_expired.
    now rewrite map_size_empty.
Qed.

(** C9. An image that was deleted or never created is answered 404, and
    deleting it again is not an error: on a name that is not in the
    directory the deletion step of the sweep is a no-op, and visiting a
    name twice in a sweep is visiting it once. (The sweep runs alone
    here; a file removed by someone else between the sweep's check and
    its removal is the subject of C3.) *)
Theorem C9_absent_image (name : string) (w : World) :
  absent_image_contract name w.
Proof.
  unfold absent_image_contract.
  assert (Hgone : store (without name w) !! name = None)
    by apply lookup_delete_eq.
  assert (Hstep : forall now deleted w0,
             store w0 !! name = None ->
             sweep_entry quiet now name deleted w0 = (Return deleted, w0)).
  { intros now deleted w0 H0. rewrite sweep_entry_quiet.
    destruct (decide _) as [He|]; [|reflexivity].
    unfold expired_at in He. now rewrite H0 in He. }
  assert (H404 : forall w0, store w0 !! name = None ->
             serve_image name w0 = (JsonError404 "Image not found", w0)).
  { intros w0 H0. unfold serve_image, os_path_exists. rewrite H0.
    reflexivity. }
  split; [now apply H404|]. split; [intros; now apply Hstep|].
  split.
  - intros now deleted.
    assert (Htwice : sweep quiet now [name; name] deleted w
                     = sweep_entry quiet now name deleted w).
    { cbn [sweep]. unfold mbind at 1, M_bind.
      rewrite (sweep_entry_quiet now name deleted w).
      destruct (decide _) as [He|He].
      - erewrite bind_return
          by (apply Hstep; cbn; apply lookup_delete_eq).
        reflexivity.
      - erewrite bind_return.
        + reflexivity.
        + rewrite sweep_entry_quiet.
          destruct (decide _); [contradiction|reflexivity]. }
    split; [exact Htwice|]. rewrite Htwice, sweep_entry_quiet.
    destruct (decide _); eexists _, _; reflexivity.
  - destruct (swept (clock w) (store w) !! name) as [e|] eqn:Hs; [|exact I].
    apply H404. rewrite cleanup_quiet. cbn [snd store set_store].
    apply map_lookup_filter_Some in Hs as [Hk He].
    apply map_lookup_filter_None_2. right. intros e' Hk' Hn.
    simpl in *. congruence.
Qed.

(** ** The sweep under interference *)

Lemma sweep_app (env : Interference) (now : Z) (pre post : list string)
    (deleted : nat) (w : World) :
  sweep env now (pre ++ post) deleted w
  = (sweep env now pre deleted ≫= sweep env now post) w.
Proof.
  revert deleted w. induction pre as [|name pre IH]; intros deleted w.
  - reflexivity.
  - cbn [app sweep]. unfold mbind, M_bind in *.
    destruct (sweep_entry env now name deleted w) as [[k|e] w1];
      [apply IH|reflexivity].
Qed.

(** C3, as the handler implements it. The sweep has one exception handler
    around the whole loop: when the turn of one name raises, the sweep
    stops there. The entries deleted before stay deleted, the names after
    it are not visited, and the handler answers 500 with that error
    in place of the count. *)
Theorem C3_sweep_stops_at_failure (env : Interference) (w : World)
    (pre : list string) (name : string) (post : list string)
    (deleted : nat) (w1 : World) (e : exn) (w2 : World) :
  (map_to_list (store w)).*1 = (pre ++ name :: post)%list ->
  sweep env (clock w) pre 0 w = (Return deleted, w1) ->
  sweep_entry env (clock w) name deleted w1 = (Raise e, w2) ->
  cleanup_old_images env w = (JsonError500 e, w2).
Proof.
  intros Hls Hpre Hfail.
  unfold cleanup_old_images, try_except, datetime_now, os_listdir.
  unfold mbind at 1 2, M_bind. rewrite Hls.
  erewrite bind_raise; [reflexivity|].
  rewrite sweep_app. erewrite bind_return by exact Hpre.
  cbn [sweep]. now apply bind_raise.
Qed.

Lemma C3_sweep_stops_at_failure_witness :
  (map_to_list (store two_old_images)).*1 = ([] ++ "a.png" :: ["b.png"])%list /\
  sweep racing_sweep (clock two_old_images) [] 0 two_old_images
  = (Return 0%nat, two_old_images) /\
  sweep_entry racing_sweep (clock two_old_images) "a.png" 0 two_old_images
  = (Raise FileNotFoundError, without "a.png" two_old_images) /\
  cleanup_old_images racing_sweep two_old_images
  = (JsonError500 FileNotFoundError, without "a.png" two_old_images).
Proof.
  assert (H1 : (map_to_list (store two_old_images)).*1
               = ([] ++ "a.png" :: ["b.png"])%list)
    by (vm_compute; reflexivity).
  assert (H2 : sweep racing_sweep (clock two_old_images) [] 0 two_old_images
               = (Return 0%nat, two_old_images)) by reflexivity.
  assert (H3 : sweep_entry racing_sweep (clock two_old_images) "a.png" 0
                 two_old_images
               = (Raise FileNotFoundError, without "a.png" two_old_images))
    by (vm_compute; reflexivity).
  repeat (split; [assumption|]).
  apply (C3_sweep_stops_at_failure racing_sweep two_old_images
           [] "a.png" ["b.png"] 0%nat two_old_images FileNotFoundError
           (without "a.png" two_old_images) H1 H2 H3).
Defined.

(** The claim as stated fails: when [a.png] is removed by someone else
    between this sweep's check and its own removal, the removal raises,
    the handler answers 500, and [b.png], expired as well and next in the
    listing, is never visited: it is still in the store. *)
Lemma C3_race_aborts_sweep_counterexample :
  (map_to_list (store two_old_images)).*1 = ["a.png"; "b.png"] /\
  expired_at (clock two_old_images) (store two_old_images) "a.png" /\
  expired_at (clock two_old_images) (store two_old_images) "b.png" /\
  fst (cleanup_old_images racing_sweep two_old_images)
  = JsonError500 FileNotFoundError /\
  store (snd (cleanup_old_images racing_sweep two_old_images)) !! "b.png"
  = Some (File (1700000000000000 - 25 * 3600 * 1000000) []) /\
  fst (cleanup_old_images quiet two_old_images) = JsonCleanup 2.
Proof.
  repeat split; vm_compute; reflexivity.
Qed.
(** ** Double precision *)

Section DoubleFacts.

Local Open Scope Z_scope.

Local Abbreviation fexp := (SpecFloat.fexp F64.prec F64.emax).
Local Abbreviation digits := SpecFloat.Zdigits2.









(** *** Shifting to the right *)













(** *** Division by one *)






(** *** Counts *)




(** *** Differences and sums of equal doubles *)










End DoubleFacts.

(** ** The statistics of a histogram *)







(** * Further properties of the service *)

(** ** Validation, both ways *)

Lemma missing_or_empty_dec {A} (o : option (list A)) :
  missing_or_empty o \/ ~ missing_or_empty o.
Proof.
  destruct o as [[|a l]|]; [now left; right| |now left; left].
  right. intros [H|H]; discriminate.
Qed.

Lemma lacks_required_input_dec (req : Request) :
  lacks_required_input req \/ ~ lacks_required_input req.
Proof.
  destruct req as [d|d|d|d|d]; simpl.
  - apply missing_or_empty_dec.
  - destruct (missing_or_empty_dec (sc_x_data d));
      destruct (missing_or_empty_dec (sc_y_data d)); tauto.
  - destruct (lt_dec (length (default [] (mh_datasets d))) 2); tauto.
  - destruct (missing_or_empty_dec (bar_categories d));
      destruct (missing_or_empty_dec (bar_values d)); tauto.
  - apply missing_or_empty_dec.
Qed.

Lemma lacking_rejected (req : Request) backend w :
  lacks_required_input req ->
  route backend req w = (JsonError400 (rejection_message req), w).
Proof.
  intros H. destruct req as [d|d|d|d|d]; simpl in *.
  - apply missing_or_empty_default in H.
    unfold generate_histogram, try_except. cbv zeta. now rewrite H.
  - unfold generate_scatter, try_except. cbv zeta.
    destruct H as [H|H]; apply missing_or_empty_default in H; rewrite H.
    + reflexivity.
    + now destruct (default [] (sc_x_data d)).
  - unfold generate_multi_histogram, try_except. cbv zeta.
    now rewrite (proj2 (Nat.ltb_lt _ _) H).
  - unfold generate_bar_chart, try_except. cbv zeta.
    destruct H as [H|H]; apply missing_or_empty_default in H; rewrite H.
    + reflexivity.
    + now destruct (default [] (bar_categories d)).
  - apply missing_or_empty_default in H.
    unfold visualize_blood_data, try_except. cbv zeta. now rewrite H.
Qed.

(** X1. A chart request is answered 400 exactly when its required input
    is missing or empty (for a multi-histogram: fewer than two datasets),
    whatever the backend and the image directory: validation refuses
    nothing else, and no failure of a later step is reported as a 400. *)
Theorem status_400_iff_lacking (backend : Figure -> option png)
    (req : Request) (w : World) :
  status_code (fst (route backend req w)) = 400%Z
  <-> lacks_required_input req.
Proof.
  split.
  - intros H. destruct (lacks_required_input_dec req) as [Hl|Hl];
      [exact Hl|].
    now destruct (accepted_not_400 req backend w Hl).
  - intros H. now rewrite lacking_rejected.
Qed.

(** ** The shape of a report *)

Lemma expected_panels_length (df : list (gmap string Q)) :
  (1 <= length (expected_panels df) <= 4)%nat.
Proof.
  unfold expected_panels. rewrite !length_app.
  destruct (_ && _ && _), (in_columns "class" df), (_ && _); simpl; lia.
Qed.

(** X2. Whatever the backend and the image directory, a report that is
    answered holds the image data of the panels whose fields are present
    in the records, in the fixed order of the panels, each under a name
    with the prefix of its panel; its count is the number of image data,
    between 1 (the histogram grid alone) and 4. *)
Theorem answered_report_shape (backend : Figure -> option png)
    (data : BloodDataRequest) (w : World) :
  report_shape data (fst (visualize_blood_data backend data w)).
Proof.
  destruct (visualize_blood_data backend data w) as [r w'] eqn:E.
  destruct r as [d|count visualizations| | | | |]; try exact I.
  destruct (report_only_expected_panels _ _ _ _ _ _ E) as [Hc Hf].
  simpl. split; [exact Hc|]. split; [exact Hf|].
  rewrite Hc, (Forall2_length _ _ _ Hf). apply expected_panels_length.
Qed.

(** ** What a chart request does to the world *)

Section Frame.

Context (backend : Figure -> option png).

Lemma extends_refl (w : World) : extends w w.
Proof.
  split; [|repeat split; lia]. intros name.
  destruct (store w !! name) as [[mtime content|mtime]|]; eauto;
    discriminate.
Qed.

Lemma extends_trans (w1 w2 w3 : World) :
  extends w1 w2 -> extends w2 w3 -> extends w1 w3.
Proof.
  intros (H1 & Hc1 & He1 & Hd1) (H2 & Hc2 & He2 & Hd2).
  split; [|repeat split; try congruence; lia]. intros name.
  specialize (H1 name). specialize (H2 name).
  destruct (store w1 !! name) as [[mtime content|mtime]|].
  - destruct H1 as (m & c & H1). now rewrite H1 in H2.
  - now rewrite H1 in H2.
  - destruct (store w2 !! name) as [[m c|m]|].
    + destruct H2 as (m' & c' & ->). discriminate.
    + now destruct (H1 m).
    + exact H2.
Qed.

Lemma frames_ret {A} (a : A) : frames (mret a : M A).
Proof.
  intros w. apply extends_refl.
Qed.

Lemma frames_raise {A} (e : exn) : frames (raise e : M A).
Proof.
  intros w. apply extends_refl.
Qed.

Lemma frames_bind {A B} (m : M A) (k : A -> M B) :
  frames m -> (forall a, frames (k a)) -> frames (m ≫= k).
Proof.
  intros Hm Hk w. specialize (Hm w). unfold mbind, M_bind.
  destruct (m w) as [[a|e] w1]; simpl in *; [|exact Hm].
  eapply extends_trans; [exact Hm|apply Hk].
Qed.

Lemma frames_draw (fig : Figure) : frames (draw backend fig).
Proof.
  unfold draw. destruct (backend fig); [apply frames_ret|apply frames_raise].
Qed.

Lemma extends_after_put fig name bytes (w : World) :
  (forall mtime, store w !! name <> Some (Directory mtime)) ->
  extends w (after_put fig name bytes w).
Proof.
  intros Hw. split; [|repeat split; simpl; lia]. intros k. simpl.
  destruct (decide (name = k)) as [<-|Hne].
  - rewrite lookup_insert_eq.
    destruct (store w !! name) as [[mtime content|mtime]|]; eauto;
      try discriminate.
    now destruct (Hw mtime).
  - rewrite lookup_insert_ne by assumption.
    destruct (store w !! k) as [[mtime content|mtime]|]; eauto;
      discriminate.
Qed.

Lemma extends_next_draw (w : World) : extends w (next_draw w).
Proof.
  split; [|repeat split; simpl; lia]. intros name. simpl.
  destruct (store w !! name) as [[mtime content|mtime]|]; eauto;
    discriminate.
Qed.

Lemma frames_save_figure (fig : Figure) (prefix : string) :
  frames (save_figure backend fig prefix).
Proof.
  intros w. rewrite save_figure_eq.
  destruct (backend fig) as [bytes|]; [|apply extends_next_draw].
  destruct (store w !! next_name prefix w) as [[mtime content|mtime]|] eqn:Hs;
    simpl; try apply extends_next_draw;
    apply extends_after_put; intros m; rewrite Hs; discriminate.
Qed.

Lemma frames_percent_texts (total : nat) (values : list nat) :
  frames (percent_texts total values).
Proof.
  induction values as [|val values IH]; simpl; [apply frames_ret|].
  destruct (total =? 0)%nat; [apply frames_raise|].
  apply frames_bind; [exact IH|]. intros texts. apply frames_ret.
Qed.

Lemma frames_scatter_frame (x y c : list Q) : frames (scatter_frame x y c).
Proof.
  unfold scatter_frame.
  destruct (_ && _); [apply frames_ret|apply frames_raise].
Qed.

Lemma frames_class_distribution (df : list (gmap string Q)) :
  frames (class_distribution backend df).
Proof.
  unfold class_distribution.
  apply frames_bind; [apply frames_draw|]. intros _.
  apply frames_bind; [apply frames_percent_texts|]. intros texts.
  apply frames_ret.
Qed.

Lemma bar_texts_pure (heights : list Height) (w : World) :
  snd (bar_texts heights w) = w.
Proof.
  induction heights as [|height heights IH]; [reflexivity|].
  cbn [bar_texts]. unfold mbind, M_bind.
  assert (Hp : snd (py_int height w) = w).
  { destruct height as [z|x]; [reflexivity|]. simpl.
    now destruct (F64.to_Z x). }
  destruct (py_int height w) as [[count|e] w1]; simpl in Hp; subst w1;
    [|reflexivity].
  destruct (bar_texts heights w) as [[texts|e] w1]; simpl in IH; subst w1;
    reflexivity.
Qed.

Lemma frames_bar_texts (heights : list Height) :
  frames (bar_texts heights).
Proof.
  intros w. rewrite bar_texts_pure. apply extends_refl.
Qed.

Lemma frames_try_except (m : M Response) (w : World) :
  frames m -> extends w (snd (try_except m w)).
Proof.
  intros Hm. specialize (Hm w). unfold try_except.
  now destruct (m w) as [[r|e] w'].
Qed.

Lemma frames_optional_panel (present : bool) fig prefix
    (visualizations : list Descriptor) :
  frames (if present
          then draw backend fig ≫= fun _ =>
               save_figure backend fig prefix ≫= fun viz =>
               mret (visualizations ++ [viz])%list
          else mret visualizations).
Proof.
  destruct present; [|apply frames_ret].
  apply frames_bind; [apply frames_draw|]. intros _.
  apply frames_bind; [apply frames_save_figure|]. intros viz.
  apply frames_ret.
Qed.

End Frame.

Lemma route_extends (backend : Figure -> option png) (req : Request)
    (w : World) :
  extends w (snd (route backend req w)).
Proof.
  destruct req as [d|d|d|d|d]; simpl.
  - unfold generate_histogram. cbv zeta. apply frames_try_except.
    destruct (is_empty _); [apply frames_ret|].
    apply frames_bind; [apply frames_draw|]. intros _.
    apply frames_bind; [apply frames_save_figure|]. intros viz.
    apply frames_ret.
  - unfold generate_scatter. cbv zeta. apply frames_try_except.
    destruct (_ || _); [apply frames_ret|].
    apply frames_bind.
    + destruct (sc_classes d) as [[|c cls]|]; try apply frames_ret.
      apply frames_bind; [apply frames_scatter_frame|].
      intros df. apply frames_ret.
    + intros fig. apply frames_bind; [apply frames_draw|]. intros _.
      apply frames_bind; [apply frames_save_figure|]. intros viz.
      apply frames_ret.
  - unfold generate_multi_histogram. cbv zeta. apply frames_try_except.
    destruct (_ <? _)%nat; [apply frames_ret|].
    apply frames_bind; [apply frames_draw|]. intros _.
    apply frames_bind; [apply frames_save_figure|]. intros viz.
    apply frames_ret.
  - unfold generate_bar_chart. cbv zeta. apply frames_try_except.
    destruct (_ || _); [apply frames_ret|].
    apply frames_bind; [apply frames_draw|]. intros _.
    apply frames_bind; [apply frames_bar_texts|]. intros texts.
    apply frames_bind; [apply frames_save_figure|]. intros viz.
    apply frames_ret.
  - unfold visualize_blood_data. cbv zeta. apply frames_try_except.
    destruct (is_empty _); [apply frames_ret|].
    apply frames_bind; [apply frames_draw|]. intros _.
    apply frames_bind; [apply frames_save_figure|]. intros viz1.
    apply frames_bind; [apply frames_optional_panel|]. intros vs2.
    apply frames_bind.
    { destruct (in_columns "class" _); [|apply frames_ret].
      apply frames_bind; [apply frames_class_distribution|]. intros fig3.
      apply frames_bind; [apply frames_save_figure|]. intros viz3.
      apply frames_ret. }
    intros vs3.
    apply frames_bind; [apply frames_optional_panel|]. intros vs4.
    apply frames_ret.
Qed.


(** X3. No chart request deletes anything or creates a sub-directory:
    whatever the request, the backend and the answer, a stored file is
    still a stored file afterwards (a put under the same name may have
    replaced its content), a sub-directory is untouched, a name that was
    free is free or holds a file, the clock and the UUID source are what
    they were, and UUIDs are only ever consumed. *)
Theorem route_only_extends (backend : Figure -> option png) (req : Request)
    (w : World) :
  extends w (snd (route backend req w)).
Proof.
  apply route_extends.
Qed.


(** ** One chart, one image *)

Lemma one_image_draw_save backend fig prefix w :
  one_image_or_none w
    (try_except
       (draw backend fig ≫= fun _ =>
        save_figure backend fig prefix ≫= fun image_data =>
        mret (JsonDescriptor image_data)) w).
Proof.
  unfold try_except. rewrite draw_save_eq.
  destruct (backend fig) as [bytes|]; [|reflexivity].
  assert (Hput : one_image_or_none w
            (JsonDescriptor
               (image_data_of (next_name prefix w) bytes (clock w)),
             after_put fig (next_name prefix w) bytes w)).
  { simpl. repeat split.
    unfold serve_image, os_path_exists, send_file. simpl.
    now rewrite lookup_insert_eq. }
  destruct (store w !! next_name prefix w) as [[mtime content|mtime]|];
    try exact Hput. reflexivity.
Qed.

Lemma one_image_save backend fig prefix w :
  one_image_or_none w
    (try_except
       (save_figure backend fig prefix ≫= fun image_data =>
        mret (JsonDescriptor image_data)) w).
Proof.
  unfold try_except, mbind, M_bind. rewrite save_figure_eq.
  destruct (backend fig) as [bytes|]; [|reflexivity].
  assert (Hput : one_image_or_none w
            (JsonDescriptor
               (image_data_of (next_name prefix w) bytes (clock w)),
             after_put fig (next_name prefix w) bytes w)).
  { simpl. repeat split.
    unfold serve_image, os_path_exists, send_file. simpl.
    now rewrite lookup_insert_eq. }
  destruct (store w !! next_name prefix w) as [[mtime content|mtime]|];
    try exact Hput. reflexivity.
Qed.

Lemma single_chart_put (backend : Figure -> option png)
    (req : Request) (w : World) :
  single_chart req -> one_image_or_none w (route backend req w).
Proof.
  intros Hreq. destruct req as [d|d|d|d|d]; simpl in *; [| | | |contradiction].
  - unfold generate_histogram. cbv zeta.
    destruct (is_empty _); [reflexivity|]. apply one_image_draw_save.
  - unfold generate_scatter. cbv zeta.
    destruct (_ || _); [reflexivity|].
    destruct (sc_classes d) as [[|c cls]|].
    + unfold try_except. erewrite bind_return by reflexivity.
      apply one_image_draw_save.
    + unfold scatter_frame.
      destruct (_ && _).
      * unfold try_except.
        erewrite bind_return
          by (erewrite bind_return by reflexivity; reflexivity).
        apply one_image_draw_save.
      * reflexivity.
    + unfold try_except. erewrite bind_return by reflexivity.
      apply one_image_draw_save.
  - unfold generate_multi_histogram. cbv zeta.
    destruct (_ <? _)%nat; [reflexivity|]. apply one_image_draw_save.
  - unfold generate_bar_chart. cbv zeta.
    destruct (_ || _); [reflexivity|].
    unfold try_except, draw.
    destruct (backend _) as [bytes|]; [|reflexivity].
    erewrite bind_return by reflexivity.
    unfold mbind at 1, M_bind.
    pose proof (bar_texts_pure
                  (bar_heights (default [] (bar_categories d))
                     (default [] (bar_values d))) w) as Hp.
    destruct (bar_texts _ w) as [[texts|e] w1]; simpl in Hp; subst w1;
      [|reflexivity].
    apply one_image_save.
Qed.

(** X4. A request for one chart (histogram, scatter plot, multi-histogram,
    bar chart) writes exactly one file when it is answered with image
    data, and none otherwise: on success the store is the old store with
    the one file of the answer added, written at the time of the request,
    one UUID was drawn, the url of the answer is /api/images/ followed by
    the file name, and the image endpoint serves the bytes of the answer
    under that name; on a 400 or a 500 the store is unchanged. *)
Theorem single_chart_one_image (backend : Figure -> option png)
    (req : Request) (w : World) :
  single_chart req -> one_image_or_none w (route backend req w).
Proof.
  apply single_chart_put.
Qed.

Lemma single_chart_one_image_witness :
  single_chart (PostHistogram recency_histogram) /\
  one_image_or_none example_world
    (route blank_backend (PostHistogram recency_histogram) example_world).
Proof.
  split; [exact I|].
  apply (single_chart_one_image blank_backend
           (PostHistogram recency_histogram) example_world I).
Defined.

(** ** The images of a report are served *)

Lemma served_iff (w : World) (d : Descriptor) :
  served w d
  <-> exists mtime content,
        store w !! d_filename d = Some (File mtime content).
Proof.
  unfold served, serve_image, os_path_exists, send_file. simpl.
  destruct (store w !! d_filename d) as [[mtime content|mtime]|]; simpl.
  - split; eauto.
  - split; [intros [c H]; discriminate|intros (m & c & H); discriminate].
  - split; [intros [c H]; discriminate|intros (m & c & H); discriminate].
Qed.

Lemma served_extends (w w' : World) (d : Descriptor) :
  served w d -> extends w w' -> served w' d.
Proof.
  rewrite !served_iff. intros (m & c & H) [Hk _].
  specialize (Hk (d_filename d)). now rewrite H in Hk.
Qed.

Lemma returns_extends {A} (m : M A) (w : World) (a : A) (w' : World) :
  frames m -> m w = (Return a, w') -> extends w w'.
Proof.
  intros Hm H. specialize (Hm w). now rewrite H in Hm.
Qed.

Lemma save_figure_served backend fig prefix w d w' :
  save_figure backend fig prefix w = (Return d, w') -> served w' d.
Proof.
  rewrite save_figure_eq. intros H. apply served_iff.
  destruct (backend fig) as [bytes|]; [|discriminate].
  destruct (store w !! next_name prefix w) as [[mtime content|mtime]|];
    try discriminate; injection H as <- <-; simpl;
    rewrite lookup_insert_eq; eauto.
Qed.

Lemma optional_panel_served backend (present : bool) fig prefix
    (visualizations vs' : list Descriptor) w w' :
  Forall (served w) visualizations ->
  (if present
   then draw backend fig ≫= fun _ =>
        save_figure backend fig prefix ≫= fun viz =>
        mret (visualizations ++ [viz])%list
   else mret visualizations) w = (Return vs', w') ->
  Forall (served w') vs'.
Proof.
  intros Hvs. destruct present.
  - intros H. apply bind_returns in H as (u & w1 & Hd & H).
    apply bind_returns in H as (viz & w2 & Hs & H).
    injection H as <- <-.
    apply returns_extends in Hd; [|apply frames_draw].
    pose proof (returns_extends _ _ _ _ (frames_save_figure _ _ _) Hs) as He.
    apply Forall_app. split.
    + eapply Forall_impl; [exact Hvs|]. intros d Hd'.
      eapply served_extends; [exact Hd'|].
      eapply extends_trans; eassumption.
    + constructor; [|constructor]. eapply save_figure_served. exact Hs.
  - intros H. injection H as <- <-. exact Hvs.
Qed.

(** X5. Every image of a report that was answered is stored when the
    answer is given: the image endpoint serves a file under the file name
    of each image data of the report. *)
Theorem report_images_served (backend : Figure -> option png)
    (data : BloodDataRequest) (w : World) (count : nat)
    (visualizations : list Descriptor) (w' : World) :
  visualize_blood_data backend data w
  = (JsonReport count visualizations, w') ->
  Forall (served w') visualizations.
Proof.
  unfold visualize_blood_data, try_except. cbv zeta.
  set (df := default [] (blood_data data)).
  destruct (is_empty df); [discriminate|].
  match goal with
  | |- (let (_, _) := ?body w in _) = _ -> _ =>
      destruct (body w) as [[r|e] w0] eqn:Hbody; [|discriminate]
  end.
  intros H. injection H as -> ->.
  apply bind_returns in Hbody as (u & w1 & Hd1 & H).
  apply bind_returns in H as (viz1 & w2 & Hs1 & H).
  apply bind_returns in H as (vs2 & w3 & H2 & H).
  apply bind_returns in H as (vs3 & w4 & H3 & H).
  apply bind_returns in H as (vs4 & w5 & H4 & H).
  injection H as _ <- <-.
  assert (S1 : Forall (served w2) ([] ++ [viz1])%list).
  { constructor; [|constructor]. eapply save_figure_served. exact Hs1. }
  pose proof (optional_panel_served _ _ _ _ _ _ _ _ S1 H2) as S2.
  assert (S3 : Forall (served w4) vs3).
  { destruct (in_columns "class" df).
    - apply bind_returns in H3 as (fig3 & w6 & Hc & H3).
      apply bind_returns in H3 as (viz3 & w7 & Hs3 & H3).
      injection H3 as <- <-.
      apply returns_extends in Hc; [|apply frames_class_distribution].
      pose proof (returns_extends _ _ _ _ (frames_save_figure _ _ _) Hs3)
        as He.
      apply Forall_app. split.
      + eapply Forall_impl; [exact S2|]. intros d Hd'.
        eapply served_extends; [exact Hd'|].
        eapply extends_trans; eassumption.
      + constructor; [|constructor]. eapply save_figure_served. exact Hs3.
    - injection H3 as <- <-. exact S2. }
  exact (optional_panel_served _ _ _ _ _ _ _ _ S3 H4).
Qed.

Lemma report_images_served_witness :
  visualize_blood_data blank_backend recency_frequency_only example_world
  = (JsonReport 2
       (fst (put_all blank_backend
               (expected_panels
                  (default [] (blood_data recency_frequency_only)))
               example_world)),
     snd (put_all blank_backend
            (expected_panels
               (default [] (blood_data recency_frequency_only)))
            example_world)) /\
  Forall (served
            (snd (put_all blank_backend
                    (expected_panels
                       (default [] (blood_data recency_frequency_only)))
                    example_world)))
    (fst (put_all blank_backend
            (expected_panels
               (default [] (blood_data recency_frequency_only)))
            example_world)).
Proof.
  assert (H : visualize_blood_data blank_backend recency_frequency_only
                example_world
              = (JsonReport 2
                   (fst (put_all blank_backend
                           (expected_panels
                              (default []
                                 (blood_data recency_frequency_only)))
                           example_world)),
                 snd (put_all blank_backend
                        (expected_panels
                           (default [] (blood_data recency_frequency_only)))
                        example_world)))
    by (vm_compute; reflexivity).
  split; [exact H|].
  apply (report_images_served blank_backend recency_frequency_only
           example_world _ _ _ H).
Defined.

(** ** Arrays of unequal length *)

(** X6. A scatter request with classes whose three arrays do not all have
    the same length is answered 500 with the ValueError of the data
    frame, for every backend: nothing is drawn and the world is left as
    it was. *)
Theorem scatter_unequal_lengths (backend : Figure -> option png)
    (data : ScatterRequest) (w : World) :
  unequal_lengths data ->
  generate_scatter backend data w = (JsonError500 ValueError, w).
Proof.
  unfold unequal_lengths. cbv zeta.
  intros (Hx & Hy & cls & Hcls & Hne & Hlen).
  unfold generate_scatter, try_except. cbv zeta.
  rewrite (is_empty_false _ Hx), (is_empty_false _ Hy), Hcls.
  destruct cls as [|c cls]; [contradiction|]. cbn [orb].
  erewrite bind_raise; [reflexivity|].
  erewrite bind_raise; [reflexivity|].
  unfold scatter_frame.
  destruct (_ =? _)%nat eqn:E1; [|reflexivity].
  destruct (length (default [] (sc_y_data data)) =? _)%nat eqn:E2;
    [|reflexivity].
  apply Nat.eqb_eq in E1, E2. destruct Hlen; contradiction.
Qed.

Lemma scatter_unequal_lengths_witness :
  unequal_lengths mismatched_classes /\
  generate_scatter refusing_backend mismatched_classes example_world
  = (JsonError500 ValueError, example_world).
Proof.
  assert (H : unequal_lengths mismatched_classes).
  { repeat split; try discriminate.
    exists [1%Q]. repeat split; try discriminate. right. simpl. lia. }
  split; [exact H|].
  apply (scatter_unequal_lengths refusing_backend mismatched_classes
           example_world H).
Defined.

(** ** The two classes of the report *)

Lemma three_way_split (df : list (gmap string Q)) :
  (class_count 0 df + class_count 1 df
   + length (List.filter other_class df))%nat = length df.
Proof.
  unfold class_count, records_of_class, other_class.
  induction df as [|r df IH]; [reflexivity|]. simpl.
  destruct (r !! "class") as [c|]; simpl; [|lia].
  destruct (Qeq_bool c 0) eqn:H0, (Qeq_bool c 1) eqn:H1; simpl; try lia.
  apply Qeq_bool_iff in H0, H1. rewrite H0 in H1. discriminate.
Qed.

(** X7. The frequency-vs-monetary panel of the report always has two
    series, class 0 in red as "Non-Return Donor" and class 1 in green as
    "Return Donor"; a record without a class, or whose class is neither 0
    nor 1, is in neither: the two series and the records left out add up
    to the records of the request. *)
Theorem report_scatter_two_classes (df : list (gmap string Q)) :
  two_class_series df.
Proof.
  unfold two_class_series, frequency_vs_monetary. cbn [map].
  eexists _, _. split; [reflexivity|].
  unfold blood_class_series, column. cbn.
  rewrite !length_map. repeat split. apply three_way_split.
Qed.

(** ** More on the sweep *)

Lemma sweep_lookup (w : World) (name : string) :
  store (snd (cleanup_old_images quiet w)) !! name
  = after_sweep (clock w) (store w !! name).
Proof.
  rewrite cleanup_quiet. cbn [snd store set_store]. unfold kept, after_sweep.
  destruct (store w !! name) as [[mtime content|mtime]|] eqn:Hs.
  - destruct (decide (retention < clock w - mtime)%Z) as [He|He].
    + apply map_lookup_filter_None_2. right. intros e Hk Hn.
      rewrite Hs in Hk. injection Hk as <-. now apply Hn.
    + now apply map_lookup_filter_Some_2.
  - apply map_lookup_filter_Some_2; [exact Hs|]. intros [].
  - apply map_lookup_filter_None_2. now left.
Qed.

(** X9. After a sweep that ran alone, a name holds what it held before,
    unless that was a file strictly older than 24 hours (to the
    microsecond), which is gone: a file exactly 24 hours old, a file dated
    in the future and a sub-directory of any age are kept. *)
Theorem sweep_pointwise (w : World) (name : string) :
  store (snd (cleanup_old_images quiet w)) !! name
  = after_sweep (clock w) (store w !! name).
Proof.
  apply sweep_lookup.
Qed.

Lemma sweep_entry_before_check (env : Interference) (now : Z)
    (name : string) (deleted : nat) (w : World) :
  acts_before_check_only env ->
  exists k w',
    sweep_entry env now name deleted w = (Return k, w') /\
    (deleted <= k <= S deleted)%nat.
Proof.
  intros Henv. destruct w as [s t ent dr rd].
  unfold sweep_entry, concurrently, os_path_isfile, os_path_getmtime,
    os_remove, mbind, M_bind, mret, M_ret, set_store.
  cbn -[older_than_24h].
  assert (Hg : forall s0, env BeforeGetmtime name s0 = s0)
    by (intros s0; apply Henv).
  assert (Hr : forall s0, env BeforeRemove name s0 = s0)
    by (intros s0; apply Henv).
  set (s1 := env BeforeIsfile name s).
  destruct (s1 !! name) as [[mtime content|mtime]|] eqn:Hs;
    cbn -[older_than_24h]; try (eexists _, _; split; [reflexivity|lia]).
  rewrite Hg, Hs. cbn -[older_than_24h].
  destruct (older_than_24h now mtime); cbn;
    [rewrite Hr, Hs|]; eexists _, _; (split; [reflexivity|lia]).
Qed.

Lemma sweep_before_check (env : Interference) (now : Z)
    (names : list string) :
  acts_before_check_only env ->
  forall deleted w,
    exists k w',
      sweep env now names deleted w = (Return k, w') /\
      (k <= deleted + length names)%nat.
Proof.
  intros Henv. induction names as [|name names IH]; intros deleted w.
  - exists deleted, w. split; [reflexivity|lia].
  - destruct (sweep_entry_before_check env now name deleted w Henv)
      as (k1 & w1 & H1 & Hk1).
    destruct (IH k1 w1) as (k & w' & H & Hk).
    exists k, w'. cbn [sweep length].
    erewrite bind_return by exact H1. split; [exact H|lia].
Qed.

(** X10. A file that disappears before the sweep checks its name is
    tolerated: when the concurrent activity touches the directory only
    before the isfile check of each name, whatever it does there, the
    sweep never fails; it answers a count that is at most the number of
    entries it listed. *)
Theorem sweep_tolerates_early_removal (env : Interference) (w : World) :
  acts_before_check_only env -> sweep_answers_count env w.
Proof.
  intros Henv. unfold sweep_answers_count.
  destruct (sweep_before_check env (clock w) (map_to_list (store w)).*1
              Henv 0%nat w) as (k & w' & H & Hk).
  exists k, w'. split.
  - unfold cleanup_old_images, try_except, datetime_now, os_listdir.
    unfold mbind at 1 2, M_bind.
    erewrite bind_return by exact H. reflexivity.
  - rewrite length_fmap, length_map_to_list in Hk. exact Hk.
Qed.

Lemma sweep_tolerates_early_removal_witness :
  acts_before_check_only always_ahead /\
  sweep_answers_count always_ahead two_old_images.
Proof.
  assert (H : acts_before_check_only always_ahead)
    by (intros name s; now split).
  split; [exact H|].
  apply (sweep_tolerates_early_removal always_ahead two_old_images H).
Defined.

Lemma expired_later (now later : Z) (e : Entry) :
  (0 <= later)%Z -> expired now e -> expired (now + later) e.
Proof.
  destruct e as [mtime content|mtime]; simpl; [lia|tauto].
Qed.

(** X11. Sweeps compose: a sweep followed by a second sweep any time later,
    both running alone and with nothing put in between, leaves the store
    that a single sweep at the later time leaves, and the two counts add
    up to the count of the single sweep. *)
Theorem sweep_twice (w : World) (later : Z) :
  (0 <= later)%Z -> two_sweeps_as_one w later.
Proof.
  intros Hl. unfold two_sweeps_as_one. cbv zeta.
  rewrite !cleanup_quiet. cbn [fst snd store clock set_store set_clock
                                 deleted_of].
  set (s := store w). set (t2 := (clock w + later)%Z). set (t1 := clock w).
  assert (Hstore : kept t2 (kept t1 s) = kept t2 s).
  { unfold kept. apply map_filter_strong_ext_1. intros k e. simpl.
    rewrite map_lookup_filter_Some. simpl. split.
    - intros (Hn & Hk & _). now split.
    - intros (Hn & Hk). repeat split; try assumption.
      intros He. apply Hn. now apply expired_later. }
  split; [exact Hstore|].
  assert (Hfirst : swept t1 s
                   = filter (fun kv => expired t1 kv.2) (swept t2 s)).
  { unfold swept. apply map_filter_strong_ext_1. intros k e. simpl.
    rewrite map_lookup_filter_Some. simpl. split.
    - intros (He & Hk). repeat split; try assumption.
      now apply expired_later.
    - intros (He & Hk & _). now split. }
  assert (Hsecond : swept t2 (kept t1 s)
                    = filter (fun kv => ~ expired t1 kv.2) (swept t2 s)).
  { unfold swept, kept. apply map_filter_strong_ext_1. intros k e. simpl.
    rewrite !map_lookup_filter_Some. simpl. tauto. }
  rewrite Hfirst, Hsecond.
  rewrite <- map_size_disj_union by apply map_disjoint_filter_complement.
  now rewrite map_filter_union_complement.
Qed.

Lemma sweep_twice_witness :
  (0 <= 3600 * 1000000)%Z /\
  two_sweeps_as_one two_old_images (3600 * 1000000).
Proof.
  split; [lia|].
  apply (sweep_twice two_old_images (3600 * 1000000)). lia.
Defined.

(** ** A report is not atomic *)

Lemma report_after_grid backend data w bytes :
  default [] (blood_data data) <> [] ->
  backend (blood_histograms (default [] (blood_data data))) = Some bytes ->
  writable (next_name "blood_histograms" w) w ->
  exists rest : M Response,
    visualize_blood_data backend data w
    = try_except rest
        (after_put (blood_histograms (default [] (blood_data data)))
           (next_name "blood_histograms" w) bytes w) /\
    frames rest.
Proof.
  intros Hrec Hb Hw. eexists. split.
  - unfold visualize_blood_data, try_except. cbv zeta.
    rewrite (is_empty_false _ Hrec), (draw_save_ok _ _ _ _ _ bytes Hb Hw).
    reflexivity.
  - cbv beta.
    apply frames_bind; [apply frames_optional_panel|]. intros vs2.
    apply frames_bind.
    { destruct (in_columns "class" _); [|apply frames_ret].
      apply frames_bind; [apply frames_class_distribution|]. intros fig3.
      apply frames_bind; [apply frames_save_figure|]. intros viz3.
      apply frames_ret. }
    intros vs3.
    apply frames_bind; [apply frames_optional_panel|]. intros vs4.
    apply frames_ret.
Qed.

(** X14. A report is not written atomically: once its histogram grid has
    been rendered and written, the file of the grid is in the store after
    the request and is served, whatever happens to the later panels and
    whatever the answer is (a 500 included). *)
Theorem report_keeps_grid (backend : Figure -> option png)
    (data : BloodDataRequest) (w : World) (bytes : png) :
  default [] (blood_data data) <> [] ->
  backend (blood_histograms (default [] (blood_data data))) = Some bytes ->
  writable (next_name "blood_histograms" w) w ->
  served (snd (visualize_blood_data backend data w)) (grid_image w bytes).
Proof.
  intros Hrec Hb Hw.
  destruct (report_after_grid backend data w bytes Hrec Hb Hw)
    as (rest & -> & Hrest).
  eapply served_extends; [|apply frames_try_except; exact Hrest].
  apply served_iff. simpl. rewrite lookup_insert_eq. eauto.
Qed.

Lemma report_keeps_grid_witness :
  default [] (blood_data class_two_only) <> [] /\
  blank_backend (blood_histograms (default [] (blood_data class_two_only)))
  = Some [] /\
  writable (next_name "blood_histograms" example_world) example_world /\
  served (snd (visualize_blood_data blank_backend class_two_only
                 example_world))
         (grid_image example_world []).
Proof.
  assert (H1 : default [] (blood_data class_two_only) <> []) by discriminate.
  assert (H3 : writable (next_name "blood_histograms" example_world)
                 example_world)
    by (intros mtime; simpl; now rewrite lookup_empty).
  split; [exact H1|]. split; [reflexivity|]. split; [exact H3|].
  apply (report_keeps_grid blank_backend class_two_only example_world []
           H1 eq_refl H3).
Defined.

(** On the records whose class is neither 0 nor 1 the answer is a 500 and
    the grid is in the store. *)
Example failed_report_leaves_grid :
  fst (visualize_blood_data blank_backend class_two_only example_world)
  = JsonError500 ZeroDivisionError /\
  store (snd (visualize_blood_data blank_backend class_two_only
                example_world)) !! "blood_histograms_01234567.png"
  = Some (File 1700000000000000 []).
Proof.
  split; vm_compute; reflexivity.
Qed.

(** ** Which requests are answered 200 *)

Lemma chart_answered backend fig prefix w :
  accepting backend -> no_directories w ->
  exists bytes,
    try_except (draw backend fig ≫= fun _ =>
                save_figure backend fig prefix ≫= fun image_data =>
                mret (JsonDescriptor image_data)) w
    = (JsonDescriptor (image_data_of (next_name prefix w) bytes (clock w)),
       after_put fig (next_name prefix w) bytes w).
Proof.
  intros Hb Hw. destruct (Hb fig) as [bytes Hbytes]. exists bytes.
  unfold try_except.
  now rewrite (draw_save_ok _ _ _ _ _ bytes Hbytes
                 (no_directories_writable _ _ Hw)).
Qed.

(** The labels of the bars. *)
Lemma bar_texts_defined (heights : list Height) (w : World) :
  forallb height_defined heights = true ->
  exists texts,
    bar_texts heights w = (Return texts, w) /\
    length texts = length heights.
Proof.
  induction heights as [|height heights IH]; intros H.
  - now exists [].
  - cbn [forallb] in H. apply andb_true_iff in H as [Hh Hr].
    destruct (IH Hr) as (texts & Ht & Hlen).
    assert (Hi : exists z, py_int height w = (Return z, w)).
    { destruct height as [z|x]; [now exists z|]. simpl in *.
      destruct x; try discriminate; eexists; reflexivity. }
    destruct Hi as [z Hz].
    exists ({| bt_count := z; bt_percent := None |} :: texts).
    split; [|simpl; now rewrite Hlen].
    cbn [bar_texts]. erewrite bind_return by exact Hz.
    erewrite bind_return by exact Ht. reflexivity.
Qed.


Lemma forallb_replicate {A} (f : A -> bool) (n : nat) (x : A) :
  n <> 0%nat -> forallb f (replicate n x) = f x.
Proof.
  induction n as [|[|n] IH]; intros Hn; [contradiction| |].
  - simpl. apply andb_true_r.
  - change (replicate (S (S n)) x) with (x :: replicate (S n) x).
    cbn [forallb]. rewrite IH by discriminate. apply andb_diag.
Qed.

Lemma heights_of_defined (values : list Q) :
  forallb height_defined (heights_of values) = labels_defined values.
Proof.
  unfold heights_of, labels_defined.
  destruct (forallb is_integer values) eqn:Hi.
  - clear Hi. induction values as [|v values IH]; [reflexivity|].
    simpl. exact IH.
  - simpl. clear Hi. induction values as [|v values IH]; [reflexivity|].
    simpl. now rewrite IH.
Qed.

Lemma bar_heights_defined (categories : list string) (values : list Q) :
  categories <> [] ->
  forallb height_defined (bar_heights categories values)
  = labels_defined values.
Proof.
  intros Hc.
  assert (Hn : length categories <> 0%nat) by now destruct categories.
  rewrite <- heights_of_defined. unfold bar_heights.
  destruct (heights_of values) as [|height [|h' heights]]; try reflexivity.
  rewrite forallb_replicate by assumption. simpl.
  now rewrite andb_true_r.
Qed.

Lemma save_answered backend fig prefix w :
  accepting backend -> no_directories w ->
  exists bytes,
    (save_figure backend fig prefix ≫= fun image_data =>
     mret (JsonDescriptor image_data)) w
    = (Return (JsonDescriptor
                 (image_data_of (next_name prefix w) bytes (clock w))),
       after_put fig (next_name prefix w) bytes w).
Proof.
  intros Hb Hw. destruct (Hb fig) as [bytes Hbytes]. exists bytes.
  unfold mbind, M_bind. rewrite save_figure_eq, Hbytes.
  pose proof (Hw (next_name prefix w)) as Hn.
  destruct (store w !! _) as [[mtime content|mtime]|]; try reflexivity.
  now destruct (Hn mtime).
Qed.

(** The answer of a report whose panels are rendered. *)
Lemma report_answered backend data w :
  default [] (blood_data data) <> [] ->
  accepting backend -> no_directories w ->
  percentages_defined (default [] (blood_data data)) ->
  exists visualizations w',
    visualize_blood_data backend data w
    = (JsonReport (length visualizations) visualizations, w') /\
    no_directories w'.
Proof.
  intros Hrec Hb Hw Hp.
  set (df := default [] (blood_data data)) in *.
  unfold visualize_blood_data, try_except. cbv zeta. fold df.
  rewrite (is_empty_false df Hrec).
  destruct (Hb (blood_histograms df)) as [bytes1 Hb1].
  rewrite (draw_save_ok _ _ _ _ _ bytes1 Hb1
             (no_directories_writable _ _ Hw)).
  set (w1 := after_put (blood_histograms df) _ bytes1 w).
  assert (Hw1 : no_directories w1)
    by (apply no_directories_after_put; exact Hw).
  erewrite bind_return
    by (apply optional_panel; [intros _; apply Hb|assumption]).
  set (w2 := snd (put_all backend _ w1)).
  assert (Hw2 : no_directories w2)
    by (apply put_all_no_directories; exact Hw1).
  erewrite bind_return
    by (apply class_panel; [intros _; split; apply Hb|assumption..]).
  set (w3 := snd (put_all backend _ w2)).
  assert (Hw3 : no_directories w3)
    by (apply put_all_no_directories; exact Hw2).
  erewrite bind_return
    by (apply optional_panel; [intros _; apply Hb|assumption]).
  eexists _, _. split; [reflexivity|].
  apply put_all_no_directories; exact Hw3.
Qed.


Lemma well_formed_answered backend req w :
  accepting backend -> no_directories w -> well_formed req ->
  success_of req (fst (route backend req w)) /\
  no_directories (snd (route backend req w)).
Proof.
  intros Hb Hw Hwf. destruct req as [d|d|d|d|d]; simpl in *.
  - unfold generate_histogram. cbv zeta. rewrite (is_empty_false _ Hwf).
    destruct (chart_answered backend
                (FHistogram (as_array (default [] (hist_data d)))
                   (default 20%Z (hist_bins d))
                   (default "Distribution" (hist_title d))
                   (default (capitalize (default "value" (hist_field d)))
                      (hist_xlabel d))
                   (histogram_stats (default [] (hist_data d))))
                "histogram" w Hb Hw) as [bytes ->].
    split; [eexists; reflexivity|]. now apply no_directories_after_put.
  - destruct Hwf as (Hx & Hy & Hc).
    unfold generate_scatter. cbv zeta.
    rewrite (is_empty_false _ Hx), (is_empty_false _ Hy). cbn [orb].
    unfold try_except.
    destruct (sc_classes d) as [[|c cls]|] eqn:Hcls.
    + erewrite bind_return by reflexivity.
      match goal with |- context [draw backend ?fig] =>
        destruct (Hb fig) as [bytes Hbytes];
        rewrite (draw_save_ok _ _ _ _ _ bytes Hbytes
                   (no_directories_writable _ _ Hw)) end.
      split; [eexists; reflexivity|]. now apply no_directories_after_put.
    + destruct (Hc (c :: cls) eq_refl ltac:(discriminate)) as [Hxy Hyc].
      erewrite bind_return;
        [|erewrite bind_return
            by (apply scatter_frame_ok; congruence);
          reflexivity].
      match goal with |- context [draw backend ?fig] =>
        destruct (Hb fig) as [bytes Hbytes];
        rewrite (draw_save_ok _ _ _ _ _ bytes Hbytes
                   (no_directories_writable _ _ Hw)) end.
      split; [eexists; reflexivity|]. now apply no_directories_after_put.
    + erewrite bind_return by reflexivity.
      match goal with |- context [draw backend ?fig] =>
        destruct (Hb fig) as [bytes Hbytes];
        rewrite (draw_save_ok _ _ _ _ _ bytes Hbytes
                   (no_directories_writable _ _ Hw)) end.
      split; [eexists; reflexivity|]. now apply no_directories_after_put.
  - unfold generate_multi_histogram. cbv zeta.
    rewrite (proj2 (Nat.ltb_ge _ _)) by lia.
    destruct (chart_answered backend
                (multi_histogram_grid (default [] (mh_datasets d))
                   (default "Multi-Variable Distribution" (mh_title d)))
                "multi_histogram" w Hb Hw) as [bytes ->].
    split; [eexists; reflexivity|]. now apply no_directories_after_put.
  - destruct Hwf as (Hc & Hv & Hl).
    unfold generate_bar_chart, try_except. cbv zeta.
    rewrite (is_empty_false _ Hc), (is_empty_false _ Hv). cbn [orb].
    unfold draw.
    match goal with |- context [backend ?bars] =>
      destruct (Hb bars) as [bytes0 ->] end.
    erewrite bind_return by reflexivity.
    destruct (bar_texts_defined
                (bar_heights (default [] (bar_categories d))
                   (default [] (bar_values d))) w)
      as (texts & Ht & _).
    { now rewrite bar_heights_defined. }
    erewrite bind_return by exact Ht.
    match goal with |- context [save_figure backend ?fig ?prefix] =>
      destruct (save_answered backend fig prefix w Hb Hw) as [bytes ->] end.
    split; [eexists; reflexivity|]. now apply no_directories_after_put.
  - destruct Hwf as [Hrec Hp].
    destruct (report_answered backend d w Hrec Hb Hw Hp)
      as (vs & w' & -> & Hw').
    split; [eexists; reflexivity|exact Hw'].
Qed.





(** ** The bar chart *)










(** Two values that are not integers, and one value for three
    categories. *)
Example bar_labels :
  rendered (snd (generate_bar_chart blank_backend fractional_bars
                   example_world))
  = [FBar ["Gain"; "Loss"] [5 # 2; - (3 # 4)]%Q ["#10b981"; "#ef4444"]
          [{| bt_count := 2; bt_percent := None |};
           {| bt_count := 0; bt_percent := None |}]
          "Bar Chart" "Category" "Value"] /\
  rendered (snd (generate_bar_chart blank_backend broadcast_bars
                   example_world))
  = [FBar ["A"; "B"; "C"] [7%Q] ["#10b981"; "#ef4444"; "#3b82f6"]
          [{| bt_count := 7; bt_percent := None |};
           {| bt_count := 7; bt_percent := None |};
           {| bt_count := 7; bt_percent := None |}]
          "Bar Chart" "Category" "Value"].
Proof.
  split; vm_compute; reflexivity.
Qed.

(** ** The test script *)

Section Suite.

Import TestViz.

Context (backend : Figure -> option png).

Lemma client_bind_ok {A B} (m : Client A) (k : A -> Client B) w a w' :
  m w = (inr a, w') -> Client_bind A B k m w = k a w'.
Proof.
  intros H. unfold Client_bind. now rewrite H.
Qed.

Lemma sample_recency w :
  values_of "recency" SAMPLE_DATA w
  = (inr [2; 0; 1; 2; 1; 4; 2; 1; 2; 5]%Q, w).
Proof.
  vm_compute. reflexivity.
Qed.

Lemma sample_frequency w :
  values_of "frequency" SAMPLE_DATA w
  = (inr [50; 13; 16; 20; 24; 4; 7; 12; 9; 46]%Q, w).
Proof.
  vm_compute. reflexivity.
Qed.

Lemma sample_monetary w :
  values_of "monetary" SAMPLE_DATA w
  = (inr [12500; 3250; 4000; 5000; 6000; 1000; 1750; 3000; 2250; 11500]%Q,
     w).
Proof.
  vm_compute. reflexivity.
Qed.

Lemma sample_classes w :
  values_of "class" SAMPLE_DATA w
  = (inr [1; 1; 1; 1; 0; 0; 1; 0; 1; 1]%Q, w).
Proof.
  vm_compute. reflexivity.
Qed.

Lemma sample_return_donors w :
  count_where "class" 1 SAMPLE_DATA w = (inr 7%nat, w).
Proof.
  vm_compute. reflexivity.
Qed.

Lemma sample_non_return_donors w :
  count_where "class" 0 SAMPLE_DATA w = (inr 3%nat, w).
Proof.
  vm_compute. reflexivity.
Qed.

Lemma post_answered req w :
  accepting backend -> no_directories w -> well_formed req ->
  exists body w',
    requests_post backend true req w = (inr (ApiResponse body), w') /\
    success_of req body /\ no_directories w'.
Proof.
  intros Hb Hw Hwf.
  destruct (well_formed_answered backend req w Hb Hw Hwf) as [Hs Hw'].
  unfold requests_post. destruct (route backend req w) as [body w'].
  now exists body, w'.
Qed.

Lemma test_health_check_passes w :
  test_health_check true w = (inr true, w).
Proof.
  reflexivity.
Qed.

Lemma test_histogram_passes w :
  accepting backend -> no_directories w ->
  exists w', test_histogram backend true w = (inr true, w') /\
             no_directories w'.
Proof.
  intros Hb Hw. unfold test_histogram, mbind.
  rewrite (client_bind_ok _ _ _ _ _ (sample_recency w)).
  match goal with |- context [requests_post _ _ ?req] =>
    destruct (post_answered req w Hb Hw) as (body & w' & Hp & [d ->] & Hw');
    [discriminate|] end.
  rewrite (client_bind_ok _ _ _ _ _ Hp). now exists w'.
Qed.

Lemma test_scatter_passes w :
  accepting backend -> no_directories w ->
  exists w', test_scatter backend true w = (inr true, w') /\
             no_directories w'.
Proof.
  intros Hb Hw. unfold test_scatter, mbind.
  rewrite (client_bind_ok _ _ _ _ _ (sample_frequency w)).
  rewrite (client_bind_ok _ _ _ _ _ (sample_monetary w)).
  rewrite (client_bind_ok _ _ _ _ _ (sample_classes w)).
  match goal with |- context [requests_post _ _ ?req] =>
    destruct (post_answered req w Hb Hw) as (body & w' & Hp & [d ->] & Hw')
  end.
  { split; [discriminate|]. split; [discriminate|].
    intros cls [= <-] _. split; reflexivity. }
  rewrite (client_bind_ok _ _ _ _ _ Hp). now exists w'.
Qed.

Lemma test_bar_chart_passes w :
  accepting backend -> no_directories w ->
  exists w', test_bar_chart backend true w = (inr true, w') /\
             no_directories w'.
Proof.
  intros Hb Hw. unfold test_bar_chart, mbind.
  rewrite (client_bind_ok _ _ _ _ _ (sample_return_donors w)).
  rewrite (client_bind_ok _ _ _ _ _ (sample_non_return_donors w)).
  match goal with |- context [requests_post _ _ ?req] =>
    destruct (post_answered req w Hb Hw) as (body & w' & Hp & [d ->] & Hw')
  end.
  { split; [discriminate|]. split; [discriminate|reflexivity]. }
  rewrite (client_bind_ok _ _ _ _ _ Hp). now exists w'.
Qed.

Lemma sample_percentages_defined : percentages_defined SAMPLE_DATA.
Proof.
  intros _. vm_compute. intros E. discriminate E.
Qed.

Lemma test_comprehensive_blood_viz_passes w :
  accepting backend -> no_directories w ->
  exists w', test_comprehensive_blood_viz backend true w = (inr true, w') /\
             no_directories w'.
Proof.
  intros Hb Hw. unfold test_comprehensive_blood_viz, mbind.
  match goal with |- context [requests_post _ _ ?req] =>
    destruct (post_answered req w Hb Hw) as (body & w' & Hp & [vs ->] & Hw')
  end.
  { split; [discriminate|apply sample_percentages_defined]. }
  rewrite (client_bind_ok _ _ _ _ _ Hp). now exists w'.
Qed.

End Suite.

(** X16. Run against the service, with a backend that renders every figure
    and an image directory without sub-directory, the test script passes
    all of its five tests (its sample data is well formed for every
    endpoint), and leaves the directory without sub-directory. *)
Theorem test_suite_passes (backend : Figure -> option png) (w : World) :
  accepting backend -> no_directories w -> suite_passes backend w.
Proof.
  intros Hb Hw. unfold suite_passes, TestViz.main.
  cbn [TestViz.run_tests]. rewrite test_health_check_passes.
  destruct (test_histogram_passes backend w Hb Hw) as (w1 & -> & Hw1).
  destruct (test_scatter_passes backend w1 Hb Hw1) as (w2 & -> & Hw2).
  destruct (test_bar_chart_passes backend w2 Hb Hw2) as (w3 & -> & Hw3).
  destruct (test_comprehensive_blood_viz_passes backend w3 Hb Hw3)
    as (w4 & -> & Hw4).
  split; [reflexivity|exact Hw4].
Qed.

Lemma test_suite_passes_witness :
  accepting blank_backend /\ no_directories example_world /\
  suite_passes blank_backend example_world.
Proof.
  assert (H1 : accepting blank_backend) by (intros fig; now exists []).
  assert (H2 : no_directories example_world)
    by (intros name mtime; simpl; now rewrite lookup_empty).
  split; [exact H1|]. split; [exact H2|].
  apply (test_suite_passes blank_backend example_world H1 H2).
Defined.

(** X17. Run while nothing listens at the address of the service, the test
    script does not stop at the first failed connection: every test is
    counted as failed, the summary is 0 of 5, and [main] returns. *)
Theorem test_suite_service_down (backend : Figure -> option png)
    (w : World) :
  TestViz.main backend false w = (passed_of_five 0, w).
Proof.
  vm_compute. reflexivity.
Qed.

(** ** From the request to the sweep *)

(** X18. The life of the image of a chart request: once the request is
    answered with image data, a sweep that runs alone [elapsed]
    microseconds after the request keeps the image, and the image
    endpoint still serves its bytes, as long as [elapsed] is at most 24
    hours; a sweep later than that removes it, and the image endpoint
    then answers 404. *)
Theorem chart_image_lifecycle (backend : Figure -> option png)
    (req : Request) (w : World) :
  single_chart req -> image_lifecycle w (route backend req w).
Proof.
  intros Hreq. pose proof (single_chart_put backend req w Hreq) as Hput.
  destruct (route backend req w) as [[d| | | | | |] w']; try exact I.
  destruct Hput as (Hs & _ & _ & _ & _).
  intros elapsed. cbv zeta.
  set (later := set_clock (clock w + elapsed) w').
  pose proof (sweep_lookup later (d_filename d)) as Hl.
  change (clock later) with (clock w + elapsed)%Z in Hl.
  change (store later) with (store w') in Hl.
  rewrite Hs, lookup_insert_eq in Hl. unfold after_sweep in Hl.
  unfold serve_image, os_path_exists, send_file.
  destruct (decide (elapsed <= retention)%Z) as [He|He].
  - destruct (decide (retention < clock w + elapsed - clock w)%Z);
      [lia|].
    now rewrite Hl.
  - destruct (decide (retention < clock w + elapsed - clock w)%Z);
      [|lia].
    now rewrite Hl.
Qed.

Lemma chart_image_lifecycle_witness :
  single_chart (PostHistogram recency_histogram) /\
  image_lifecycle example_world
    (route blank_backend (PostHistogram recency_histogram) example_world).
Proof.
  assert (H : single_chart (PostHistogram recency_histogram)) by exact I.
  split; [exact H|].
  apply (chart_image_lifecycle blank_backend
           (PostHistogram recency_histogram) example_world H).
Defined.
